(** * Token background check: bundle detection, wallet classification and
    risk scoring.

    A shallow embedding of [src/risk_scorer.py], [src/bundler_detector.py]
    and [src/trader_analyzer.py], and of the steps of [main] in
    [token_check.py] that chain them, followed by the properties of the
    three engines and of the pipeline.

    Conventions of the embedding:
    - a Python number (an [int], or a finite [float]) is the rational it
      denotes, and arithmetic on numbers is exact: a division, a
      [float(...)] or a [round(..., 2)] gives the exact rational result,
      not its binary64 approximation;
    - slots and timestamps are integers;
    - a JSON object is a finite map from strings to values, a JSON array a
      list;
    - a Python [dict] whose iteration order matters is an association list
      kept in first-insertion order; a [set], and a dict that is only
      looked up, is a [gset] or a [gmap];
    - an exception raised by a Python operation is a [Raise] result. *)

From Stdlib Require Import ZArith QArith Qround Lqa String Ascii.
From stdpp Require Import base option list gmap sets strings sorting.

#[local] Open Scope Z_scope.
#[local] Set Warnings "-register-all".

(** ** Python values and the operations the engines apply to them *)

Module Py.

Inductive exn : Type := AttributeError | TypeError | ValueError.

Inductive result (A : Type) : Type :=
| Ok (a : A)
| Raise (e : exn).
Arguments Ok {A} a.
Arguments Raise {A} e.

#[export] Instance result_ret : MRet result := fun _ a => Ok a.
#[export] Instance result_bind : MBind result := fun _ _ f m =>
  match m with
  | Ok a => f a
  | Raise e => Raise e
  end.

#[export] Instance result_fmap : FMap result := fun _ _ f m =>
  match m with
  | Ok a => Ok (f a)
  | Raise e => Raise e
  end.

Definition returns {A} (m : result A) : bool :=
  match m with Ok _ => true | Raise _ => false end.

Inductive pyval : Type :=
| PNone
| PBool (b : bool)
| PNum (q : Q)
| PStr (s : string)
| PList (l : list pyval)
| PDict (d : gmap string pyval).

(** [a > b] and [a < b] on numbers. *)
Definition Qgtb (a b : Q) : bool := negb (Qle_bool a b).
Definition Qltb (a b : Q) : bool := Qgtb b a.

(** [bool(v)], the truth value used by [if v], [not v], [a or b]. *)
Definition truthy (v : pyval) : bool :=
  match v with
  | PNone => false
  | PBool b => b
  | PNum q => negb (Qeq_bool q 0)
  | PStr s => negb (String.eqb s "")
  | PList l => match l with [] => false | _ => true end
  | PDict d => negb (Nat.eqb (size d) 0)
  end.

(** [a or b]. *)
Definition py_or (a b : pyval) : pyval := if truthy a then a else b.

(** [v.get(key, dflt)]: only a dict has the method. *)
Definition get (v : pyval) (key : string) (dflt : pyval) : result pyval :=
  match v with
  | PDict d => Ok (default dflt (d !! key))
  | _ => Raise AttributeError
  end.

(** The value of a bool or a number in arithmetic and comparisons. *)
Definition number (v : pyval) : option Q :=
  match v with
  | PBool b => Some (if b then 1 else 0)%Q
  | PNum q => Some q
  | _ => None
  end.

(** [v > c] for a numeric constant [c]. *)
Definition gt_const (v : pyval) (c : Q) : result bool :=
  match number v with
  | Some q => Ok (Qgtb q c)
  | None => Raise TypeError
  end.

(** Decimal literals [[+-]digits[.digits]], the numeric strings read by
    [float(s)].  Other spellings Python accepts (exponents, [inf], [nan],
    underscores, surrounding blanks) are not read by this parser. *)
Definition digit_of (c : ascii) : option Z :=
  let n := Z.of_N (N_of_ascii c) in
  if (48 <=? n) && (n <=? 57) then Some (n - 48) else None.

Fixpoint digits_value (acc : Z) (s : string) : option Z :=
  match s with
  | EmptyString => Some acc
  | String c s' =>
      match digit_of c with
      | Some d => digits_value (10 * acc + d) s'
      | None => None
      end
  end.

Fixpoint split_point (s : string) : string * option string :=
  match s with
  | EmptyString => (EmptyString, None)
  | String c s' =>
      if Ascii.eqb c "."%char then (EmptyString, Some s')
      else let '(a, b) := split_point s' in (String c a, b)
  end.

Definition unsigned_decimal (s : string) : option Q :=
  let '(ip, fp) := split_point s in
  if String.eqb ip "" then None
  else
    match digits_value 0 ip, fp with
    | Some i, None => Some (inject_Z i)
    | Some i, Some f =>
        if String.eqb f "" then None
        else
          match digits_value 0 f with
          | Some fv =>
              Some (inject_Z i + inject_Z fv / inject_Z (10 ^ Z.of_nat (String.length f)))%Q
          | None => None
          end
    | None, _ => None
    end.

Definition float_of_string (s : string) : option Q :=
  match s with
  | String "-"%char s' => Qopp <$> unsigned_decimal s'
  | String "+"%char s' => unsigned_decimal s'
  | _ => unsigned_decimal s
  end.

(** [float(v)]. *)
Definition float (v : pyval) : result Q :=
  match v with
  | PNone => Raise TypeError
  | PBool b => Ok (if b then 1 else 0)%Q
  | PNum q => Ok q
  | PStr s => match float_of_string s with
              | Some q => Ok q
              | None => Raise ValueError
              end
  | PList _ | PDict _ => Raise TypeError
  end.

(** The elements produced by iterating over [v] ([list(v)], [for x in v],
    [sorted(v)]): the items of a list, the characters of a string, the keys
    of a dict. *)
Definition chars (s : string) : list pyval :=
  (fun c => PStr (String c EmptyString)) <$> list_ascii_of_string s.

Definition iter (v : pyval) : result (list pyval) :=
  match v with
  | PList l => Ok l
  | PStr s => Ok (chars s)
  | PDict d => Ok (PStr <$> (map_to_list d).*1)
  | _ => Raise TypeError
  end.

(** [round(x, 2)]: to the nearest multiple of 1/100, a tie to the even one. *)
Definition round_half_even (x : Q) : Z :=
  let f := Qfloor x in
  let r := (x - inject_Z f)%Q in
  if Qgtb (1 # 2) r then f
  else if Qgtb r (1 # 2) then f + 1
  else if Z.even f then f else f + 1.

Definition round2 (x : Q) : Q := (inject_Z (round_half_even (x * 100)) / 100)%Q.

(** [round(part / total * 100, 2)] for two counts. *)
Definition percentage (part total : nat) : Q :=
  round2 (inject_Z (Z.of_nat part) / inject_Z (Z.of_nat total) * 100)%Q.

(** [n or 1] for a count [n]. *)
Definition or_one (n : nat) : nat := if Nat.eqb n 0 then 1%nat else n.

End Py.

(** ** Stable sorting, as [sorted(xs, key=...)] and [sorted(..., reverse=True)] *)

Section Sorted.
Context {A : Type}.
Variable before : A → A → bool.

(** [x] is placed in front of the first element it may precede. *)
Fixpoint insert_sorted (x : A) (l : list A) : list A :=
  match l with
  | [] => [x]
  | y :: l' => if before x y then x :: l else y :: insert_sorted x l'
  end.

(** Elements are inserted from the right, so of two elements that may
    precede each other the one that came first stays first. *)
Definition sort_by (l : list A) : list A := foldr insert_sorted [] l.
End Sorted.

(** [sorted(l, key=key)] with integer keys. *)
Definition sorted_asc {A} (key : A → Z) : list A → list A :=
  sort_by (fun x y => key x <=? key y).

(** [sorted(l, key=key, reverse=True)] with natural-number keys. *)
Definition sorted_desc {A} (key : A → nat) : list A → list A :=
  sort_by (fun x y => Nat.leb (key y) (key x)).

(** ** [defaultdict(list)]

    A dict from keys to lists, iterated in the order in which its keys were
    first inserted. *)

Section DefaultDict.
Context {K V : Type} `{EqDecision K}.

(** [d[k].append(v)]. *)
Fixpoint dict_append (k : K) (v : V) (d : list (K * list V)) : list (K * list V) :=
  match d with
  | [] => [(k, [v])]
  | (k', l) :: rest =>
      if decide (k' = k) then (k', l ++ [v]) :: rest
      else (k', l) :: dict_append k v rest
  end.

(** [d.get(k, [])]. *)
Fixpoint dict_get (k : K) (d : list (K * list V)) : list V :=
  match d with
  | [] => []
  | (k', l) :: rest => if decide (k' = k) then l else dict_get k rest
  end.
End DefaultDict.

(** [sum(l)] of integers. *)
Definition sum_Z (l : list Z) : Z := foldr Z.add 0 l.

(** ** risk_scorer.py *)

Module RiskScorer.
Import Py.

Record factor : Type := Factor {
  id : string;
  points : Z;
  description : string
}.

Definition _FACTORS : list factor := [
  Factor "mint_authority_not_revoked" 25
    "Mint authority has NOT been revoked - developer can mint unlimited tokens";
  Factor "freeze_authority_not_revoked" 20
    "Freeze authority has NOT been revoked - developer can freeze holder wallets";
  Factor "top10_concentration_high" 20
    "Top 10 holders own >80% of supply - extreme concentration risk";
  Factor "top10_concentration_medium" 10
    "Top 10 holders own 50-80 % of supply - elevated concentration risk";
  Factor "bundler_percentage_high" 15
    "More than 30 % of wallets are bundled - likely coordinated launch";
  Factor "bot_percentage_high" 10
    "More than 50 % of active wallets appear to be bots";
  Factor "no_liquidity_info" 10
    "No liquidity pool information found - token may be illiquid";
  Factor "rugcheck_high_risk" 20
    "RugCheck.xyz flagged this token as high risk (score > 500)"
].

(** An entry of the [factors] list of the result. *)
Record triggered : Type := Triggered {
  name : string;
  t_points : Z;
  t_description : string
}.

(** The two variables the closure [_add] updates. *)
Record acc : Type := Acc {
  accumulated_points : Z;
  triggered_factors : list triggered
}.

Definition _add (factor_id : string) (st : acc) : acc :=
  match List.find (fun f => String.eqb (id f) factor_id) _FACTORS with
  | Some f =>
      Acc (accumulated_points st + points f)
          (triggered_factors st ++ [Triggered factor_id (points f) (description f)])
  | None => st
  end.

(** [if c: _add(factor_id)]. *)
Definition add_if (c : bool) (factor_id : string) (st : acc) : acc :=
  if c then _add factor_id st else st.

(** [sorted(holders, key=lambda h: h.get("percentage", 0), reverse=True)]
    on holders paired with their keys.  Keys are compared only when there are
    two holders or more.  Numbers and bools compare by value.  Any other kind
    of key either fails to compare ([TypeError]) or, when the whole list is
    of one comparable kind such as strings, sorts and is then rejected by
    [sum] with the same [TypeError]; both are the [TypeError] here. *)
Definition sorted_holders (keyed : list (pyval * pyval)) : result (list pyval) :=
  match keyed with
  | [] | [_] => Ok (keyed.*2)
  | _ =>
      match mapM (fun kh => (fun q => (q, kh.2)) <$> number kh.1) keyed with
      | Some qs => Ok ((sort_by (fun x y => Qle_bool y.1 x.1) qs).*2)
      | None => Raise TypeError
      end
  end.

(** [sum(...)] of percentages, starting from the integer 0. *)
Fixpoint sum_numbers (acc : Q) (l : list pyval) : result Q :=
  match l with
  | [] => Ok acc
  | v :: l' =>
      match number v with
      | Some q => sum_numbers (acc + q)%Q l'
      | None => Raise TypeError
      end
  end.

Fixpoint mapM_result {A B} (f : A → result B) (l : list A) : result (list B) :=
  match l with
  | [] => Ok []
  | x :: l' => y ← f x; ys ← mapM_result f l'; Ok (y :: ys)
  end.

Definition _top10_concentration (holders : pyval) : result Q :=
  if negb (truthy holders) then Ok 0%Q
  else
    hs ← iter holders;
    keys ← mapM_result (fun h => get h "percentage" (PNum 0)) hs;
    ordered ← sorted_holders (zip keys hs);
    percentages ← mapM_result (fun h => get h "percentage" (PNum 0)) (take 10 ordered);
    sum_numbers 0%Q percentages.

Definition _has_liquidity (rugcheck_data : pyval) : result bool :=
  if negb (truthy rugcheck_data) then Ok false
  else
    markets ← get rugcheck_data "markets" (PList []);
    if truthy markets then Ok true
    else
      token ← get rugcheck_data "token" (PDict ∅);
      token_info ← get rugcheck_data "tokenMeta" token;
      m ← get token_info "markets" PNone;
      l ← get token_info "liquidity" PNone;
      Ok (truthy (py_or m l)).

Definition _get_risk_level (score : Z) : string :=
  if score <? 25 then "LOW"
  else if score <? 50 then "MEDIUM"
  else if score <? 75 then "HIGH"
  else "CRITICAL".

Record report : Type := Report {
  total_score : Z;
  risk_level : string;
  factors : list triggered;
  mint_authority_revoked : bool;
  freeze_authority_revoked : bool;
  top10_concentration : Q;
  liquidity_locked : bool;
  bot_percentage : Q;
  bundled_wallet_percentage : pyval
}.

Definition score (token_data holder_analysis bundle_analysis rugcheck_data : pyval)
  : result report :=
  holders ← match holder_analysis with
            | PDict _ => get holder_analysis "holders" (PList [])
            | _ => PList <$> iter holder_analysis
            end;
  let st := Acc 0 [] in
  mint_v ← get token_data "mint_authority_revoked" (PBool false);
  let mint_revoked := truthy mint_v in
  freeze_v ← get token_data "freeze_authority_revoked" (PBool false);
  let freeze_revoked := truthy freeze_v in
  let st := add_if (negb mint_revoked) "mint_authority_not_revoked" st in
  let st := add_if (negb freeze_revoked) "freeze_authority_not_revoked" st in
  top10_pct ← _top10_concentration holders;
  let st := if Qgtb top10_pct 80 then _add "top10_concentration_high" st
            else if Qgtb top10_pct 50 then _add "top10_concentration_medium" st
            else st in
  bundled_pct ← (if truthy bundle_analysis
                 then get bundle_analysis "bundled_wallet_percentage" (PNum 0)
                 else Ok (PNum 0));
  bundled_high ← gt_const bundled_pct 30;
  let st := add_if bundled_high "bundler_percentage_high" st in
  bot_v ← get token_data "bot_percentage" (PNum 0);
  bot_pct ← float bot_v;
  let st := add_if (Qgtb bot_pct 50) "bot_percentage_high" st in
  liquidity ← _has_liquidity rugcheck_data;
  let st := add_if (negb liquidity) "no_liquidity_info" st in
  rugcheck_score ← (if truthy rugcheck_data
                    then get rugcheck_data "score" (PNum 0)
                    else Ok (PNum 0));
  rug_high ← (if truthy rugcheck_score then gt_const rugcheck_score 500 else Ok false);
  let st := add_if rug_high "rugcheck_high_risk" st in
  let total := Z.min (accumulated_points st) 100 in
  Ok (Report total (_get_risk_level total) (triggered_factors st)
        mint_revoked freeze_revoked (round2 top10_pct) liquidity bot_pct bundled_pct).

End RiskScorer.

(** ** Transactions

    The records the two transaction engines read.  An optional field is
    [None] when its key is absent or holds [None].  A transaction read from
    the network carries [feePayer]; [fee_payer] is the alternative spelling
    both engines also accept. *)

Record Transfer : Type := {
  mint : option string;
  tokenAmount : Py.pyval;
  fromUserAccount : option string;
  toUserAccount : option string
}.

Record Transaction : Type := {
  feePayer : option string;
  fee_payer : option string;
  slot : option Z;
  timestamp : option Z;
  tokenTransfers : list Transfer
}.

(** Truth value of an optional string: [None] and [""] are false. *)
Definition nonempty (o : option string) : bool :=
  match o with
  | Some s => negb (String.eqb s "")
  | None => false
  end.

(** [txn.get("feePayer") or txn.get("fee_payer")]. *)
Definition payer_field (txn : Transaction) : option string :=
  if nonempty (feePayer txn) then feePayer txn else fee_payer txn.

(** The wallet bound by [fp = ... or ...; if fp:], when the test passes. *)
Definition payer (txn : Transaction) : option string :=
  if nonempty (payer_field txn) then payer_field txn else None.

(** ** bundler_detector.py *)

Module BundlerDetector.

Definition BUNDLE_MIN_SIZE : nat := 3.
Definition SUSPICIOUS_MIN_SIZE : nat := 5.
Definition EARLY_SLOT_WINDOW : nat := 10.

Record bundle : Type := Bundle {
  bundle_slot : Z;
  wallets : list string;
  bundle_size : nat;
  txn_count : nat;
  suspicious : bool
}.

Record report : Type := Report {
  total_bundles : nat;
  bundle_groups : list bundle;
  suspicious_bundles : nat;
  bundled_wallet_percentage : Q
}.

Definition _empty_result : report := Report 0 [] 0 0%Q.

Definition _group_by_slot (transactions : list Transaction)
    : list (Z * list Transaction) :=
  foldl (fun groups txn =>
           match slot txn with
           | Some s => dict_append s txn groups
           | None => groups
           end) [] transactions.

(** The loop [fp = ...; if fp: wallets.add(fp)] over a list of
    transactions. *)
Definition fee_payers (txns : list Transaction) : gset string :=
  foldl (fun ws txn =>
           match payer txn with
           | Some fp => ws ∪ {[fp]}
           | None => ws
           end) ∅ txns.

(** The body of the loop of [_identify_bundles] for one slot.  The order of
    [list(wallets)] is that of the set's iteration, here [elements]. *)
Definition bundle_of (group : Z * list Transaction) : option bundle :=
  let ws := fee_payers group.2 in
  if Nat.leb BUNDLE_MIN_SIZE (size ws)
  then Some (Bundle group.1 (elements ws) (size ws) (length group.2) false)
  else None.

Definition _identify_bundles (slot_groups : list (Z * list Transaction))
    : list bundle :=
  sorted_desc bundle_size (omap bundle_of slot_groups).

Definition _is_suspicious_bundle (b : bundle) (early_slots : gset Z) : bool :=
  if Nat.leb SUSPICIOUS_MIN_SIZE (bundle_size b) then true
  else if bool_decide (bundle_slot b ∈ early_slots) then true
  else false.

Definition mark (early_slots : gset Z) (b : bundle) : bundle :=
  Bundle (bundle_slot b) (wallets b) (bundle_size b) (txn_count b)
         (_is_suspicious_bundle b early_slots).

Definition early_slots_of (slot_groups : list (Z * list Transaction)) : gset Z :=
  let all_slots := sorted_asc (fun s : Z => s) slot_groups.*1 in
  list_to_set (take EARLY_SLOT_WINDOW all_slots).

Definition bundled_wallets_of (bundles : list bundle) : gset string :=
  foldl (fun ws b => ws ∪ list_to_set (wallets b)) ∅ bundles.

Definition detect (transactions : list Transaction) : report :=
  match transactions with
  | [] => _empty_result
  | _ =>
      let slot_groups := _group_by_slot transactions in
      let bundles := _identify_bundles slot_groups in
      let early_slots := early_slots_of slot_groups in
      let bundles := mark early_slots <$> bundles in
      let suspicious_count := length (filter (fun b => suspicious b = true) bundles) in
      let bundled_wallets := bundled_wallets_of bundles in
      let all_fee_payers := fee_payers transactions in
      let total_wallets := Py.or_one (size all_fee_payers) in
      let bundled_pct := Py.percentage (size bundled_wallets) total_wallets in
      Report (length bundles) bundles suspicious_count bundled_pct
  end.

End BundlerDetector.

(** ** trader_analyzer.py *)

Module TraderAnalyzer.

Definition BOT_MIN_TXNS : nat := 5.
Definition BOT_AVG_INTERVAL_SECS : Q := 30.
Definition WASH_WINDOW_SECS : Z := 3600.
Definition WASH_MIN_CYCLES : nat := 2.
Definition SYBIL_CLUSTER_SIZE : nat := 3.

Inductive label : Type := real | bot | wash_trader | sybil.

#[export] Instance label_eq_dec : EqDecision label.
Proof. solve_decision. Defined.

Record detail : Type := Detail {
  wallet : string;
  wallet_label : label;
  txn_count : nat;
  is_bot : bool;
  is_wash_trader : bool;
  is_sybil : bool
}.

Record report : Type := Report {
  total_wallets : nat;
  real_traders : nat;
  bots : nat;
  wash_traders : nat;
  sybil_wallets : nat;
  trader_details : list detail;
  bot_percentage : Q
}.

Definition _empty_result : report := Report 0 0 0 0 0 [] 0%Q.

(** *** Bot rule *)

(** [[ts[i + 1] - ts[i] for i in range(len(ts) - 1)]]. *)
Fixpoint intervals (ts : list Z) : list Z :=
  match ts with
  | a :: (b :: _) as rest => (b - a) :: intervals rest
  | _ => []
  end.

Definition _is_bot (wallet_txns : list Transaction) : bool :=
  if Nat.leb (length wallet_txns) BOT_MIN_TXNS then false
  else
    let timestamps := sorted_asc (fun t : Z => t) (omap timestamp wallet_txns) in
    if Nat.ltb (length timestamps) 2 then false
    else
      let ivs := intervals timestamps in
      let avg_interval := (inject_Z (sum_Z ivs) / inject_Z (Z.of_nat (length ivs)))%Q in
      Py.Qltb avg_interval BOT_AVG_INTERVAL_SECS.

(** *** Wash-trader rule *)

Inductive direction : Type := buy | sell.

Record event : Type := Event { ts : Z; dir : direction }.

Definition transfer_event (t : Z) (events : list (string * list event))
    (transfer : Transfer) : list (string * list event) :=
  match mint transfer with
  | Some m =>
      if String.eqb m "" then events
      else
        let direction := if nonempty (toUserAccount transfer) then buy else sell in
        dict_append m (Event t direction) events
  | None => events
  end.

Definition build_events (wallet_txns : list Transaction)
    : list (string * list event) :=
  foldl (fun events txn =>
           match timestamp txn with
           | None => events
           | Some t => foldl (transfer_event t) events (tokenTransfers txn)
           end) [] wallet_txns.

(** One iteration of the loop of [_count_buy_sell_cycles], on the pair
    ([cycles], [bought_at]). *)
Definition cycle_step (st : nat * option Z) (ev : event) : nat * option Z :=
  match dir ev with
  | buy => (st.1, Some (ts ev))
  | sell =>
      match st.2 with
      | Some bought_at =>
          if ts ev - bought_at <=? WASH_WINDOW_SECS then (S st.1, None) else st
      | None => st
      end
  end.

Definition _count_buy_sell_cycles (events : list event) : nat :=
  (foldl cycle_step (0%nat, None) events).1.

Definition _is_wash_trader (wallet_txns all_txns : list Transaction) : bool :=
  if Nat.ltb (length wallet_txns) (WASH_MIN_CYCLES * 2) then false
  else
    existsb (fun mint_events =>
               Nat.leb WASH_MIN_CYCLES
                 (_count_buy_sell_cycles (sorted_asc ts mint_events.2)))
            (build_events wallet_txns).

(** *** Sybil rule *)

(** [slot_amounts[slot].append(float(amt))] inside [try ... except
    (TypeError, ValueError): pass].  The entry of the slot is created before
    [float] is called. *)
Definition record_amount (s : Z) (amounts : gmap Z (list Q)) (transfer : Transfer)
    : gmap Z (list Q) :=
  match tokenAmount transfer with
  | Py.PNone => amounts
  | amt =>
      let entry := default [] (amounts !! s) in
      match Py.float amt with
      | Py.Ok a => <[s := entry ++ [a]]> amounts
      | Py.Raise _ => <[s := entry]> amounts
      end
  end.

Definition sybil_step (st : gmap Z (gset string) * gmap Z (list Q))
    (txn : Transaction) : gmap Z (gset string) * gmap Z (list Q) :=
  match slot txn, payer txn with
  | Some s, Some fp =>
      (<[s := default ∅ (st.1 !! s) ∪ {[fp]}]> st.1,
       foldl (record_amount s) st.2 (tokenTransfers txn))
  | _, _ => st
  end.

(** [set(amounts)]: one representative of each value. *)
Fixpoint unique_amounts (amounts : list Q) : list Q :=
  match amounts with
  | [] => []
  | a :: rest =>
      if existsb (Qeq_bool a) rest then unique_amounts rest
      else a :: unique_amounts rest
  end.

Definition sybil_slot (w : string) (slot_amounts : gmap Z (list Q))
    (entry : Z * gset string) : bool :=
  let wallets_in_slot := entry.2 in
  if negb (bool_decide (w ∈ wallets_in_slot)) then false
  else
    let others := wallets_in_slot ∖ {[w]} in
    if Nat.ltb (size others) SYBIL_CLUSTER_SIZE then false
    else
      let amounts := default [] (slot_amounts !! entry.1) in
      if Nat.ltb 1 (length amounts)
      then Nat.leb (length (unique_amounts amounts))
                   (Nat.max 1 (length amounts / 5))
      else false.

Definition _is_sybil (w : string) (all_wallets : list string)
    (transactions : list Transaction) : bool :=
  let '(slot_wallets, slot_amounts) := foldl sybil_step (∅, ∅) transactions in
  existsb (sybil_slot w slot_amounts) (map_to_list slot_wallets).

(** *** analyze *)

(** [if addr and addr not in wallet_txns: wallet_txns[addr]]. *)
Definition register (m : list (string * list Transaction)) (addr : option string)
    : list (string * list Transaction) :=
  match addr with
  | Some a =>
      if String.eqb a "" then m
      else if bool_decide (a ∈ m.*1) then m
      else m ++ [(a, [])]
  | None => m
  end.

Definition register_transfer (m : list (string * list Transaction))
    (transfer : Transfer) : list (string * list Transaction) :=
  foldl register m [fromUserAccount transfer; toUserAccount transfer].

Definition collect (m : list (string * list Transaction)) (txn : Transaction)
    : list (string * list Transaction) :=
  let m := match payer txn with
           | Some fp => dict_append fp txn m
           | None => m
           end in
  foldl register_transfer m (tokenTransfers txn).

Definition build_wallet_txns (transactions : list Transaction)
    : list (string * list Transaction) :=
  foldl collect [] transactions.

Definition classify (all_wallets : list string) (transactions : list Transaction)
    (entry : string * list Transaction) : detail :=
  let b := _is_bot entry.2 in
  let w := _is_wash_trader entry.2 transactions in
  let s := _is_sybil entry.1 all_wallets transactions in
  let l := if b then bot else if w then wash_trader else if s then sybil else real in
  Detail entry.1 l (length entry.2) b w s.

Definition count_label (l : label) (details : list detail) : nat :=
  length (filter (fun d => wallet_label d = l) details).

Definition analyze (transactions : list Transaction) (holders : Py.pyval) : report :=
  match transactions with
  | [] => _empty_result
  | _ =>
      let wallet_txns := build_wallet_txns transactions in
      let all_wallets := wallet_txns.*1 in
      let details := classify all_wallets transactions <$> wallet_txns in
      let total := Py.or_one (length all_wallets) in
      let bot_pct := Py.percentage (count_label bot details) total in
      Report (length all_wallets) (count_label real details) (count_label bot details)
             (count_label wash_trader details) (count_label sybil details)
             details bot_pct
  end.

End TraderAnalyzer.

(** ** token_check.py *)

Module TokenCheck.
Import Py.

(** The dict returned by [BundlerDetector.detect], as [RiskScorer.score] is
    handed it. *)
Definition bundle_value (b : BundlerDetector.bundle) : pyval :=
  PDict (list_to_map
    [("slot", PNum (inject_Z (BundlerDetector.bundle_slot b)));
     ("wallets", PList (PStr <$> BundlerDetector.wallets b));
     ("size", PNum (inject_Z (Z.of_nat (BundlerDetector.bundle_size b))));
     ("txn_count", PNum (inject_Z (Z.of_nat (BundlerDetector.txn_count b))));
     ("suspicious", PBool (BundlerDetector.suspicious b))]).

Definition bundle_analysis_value (r : BundlerDetector.report) : pyval :=
  PDict (list_to_map
    [("total_bundles", PNum (inject_Z (Z.of_nat (BundlerDetector.total_bundles r))));
     ("bundle_groups", PList (bundle_value <$> BundlerDetector.bundle_groups r));
     ("suspicious_bundles",
      PNum (inject_Z (Z.of_nat (BundlerDetector.suspicious_bundles r))));
     ("bundled_wallet_percentage",
      PNum (BundlerDetector.bundled_wallet_percentage r))]).

(** The steps of [main] from the fetched data to the risk result: the
    trader analysis, the bundle detection, and the scoring of the token
    record extended with the bot percentage,
    [{**token_info, "bot_percentage": ...}]. *)
Definition risk_result (token_info : gmap string pyval) (holders : pyval)
    (transactions : list Transaction) (rugcheck : pyval)
  : result RiskScorer.report :=
  let trader_analysis := TraderAnalyzer.analyze transactions holders in
  let bundle_analysis := BundlerDetector.detect transactions in
  let token_data_with_bot_pct :=
    PDict (<["bot_percentage" := PNum (TraderAnalyzer.bot_percentage trader_analysis)]>
             token_info) in
  RiskScorer.score token_data_with_bot_pct holders
    (bundle_analysis_value bundle_analysis) rugcheck.

(** The exit status [main] computes from the risk result. *)
Definition exit_status (r : RiskScorer.report) : Z :=
  if String.eqb (RiskScorer.risk_level r) "CRITICAL" then 1 else 0.

(** [main] once the configuration is loaded and the data fetched; the charts
    and reports written on the way are left out. *)
Definition main (token_info : gmap string pyval) (holders : pyval)
    (transactions : list Transaction) (rugcheck : pyval) : result Z :=
  exit_status <$> risk_result token_info holders transactions rugcheck.

End TokenCheck.

(** * Vocabulary of the properties *)

(** ** Risk scoring *)

Section RiskVocabulary.
Import Py RiskScorer.

(** The sum of the points of a list of triggered factors. *)
Definition total_points (l : list triggered) : Z := sum_Z (t_points <$> l).

(** A triggered factor is an entry of the catalog, with the catalog's points. *)
Definition from_catalog (t : triggered) : Prop :=
  Factor (name t) (t_points t) (t_description t) ∈ _FACTORS.

(** What [_add] maintains of the two variables it updates. *)
Definition consistent (st : acc) : Prop :=
  accumulated_points st = total_points (triggered_factors st)
  ∧ 0 ≤ accumulated_points st
  ∧ Forall from_catalog (triggered_factors st).

(** The factor [factor_id] is among the triggered factors of a report. *)
Definition fires (factor_id : string) (r : report) : Prop :=
  factor_id ∈ name <$> factors r.

(** The accumulator after the seven tests of [score], as a function of
    their outcomes. *)
Definition run (m f h md bu bo li ru : bool) : acc :=
  let st := Acc 0 [] in
  let st := add_if m "mint_authority_not_revoked" st in
  let st := add_if f "freeze_authority_not_revoked" st in
  let st := if h then _add "top10_concentration_high" st
            else if md then _add "top10_concentration_medium" st
            else st in
  let st := add_if bu "bundler_percentage_high" st in
  let st := add_if bo "bot_percentage_high" st in
  let st := add_if li "no_liquidity_info" st in
  add_if ru "rugcheck_high_risk" st.

(** Input shapes on which [score] is meant to run: the records of the data
    model, with a numeric value wherever a number is read. *)
Definition is_dict (v : pyval) : bool :=
  match v with PDict _ => true | _ => false end.

Definition is_numeric (v : pyval) : bool :=
  match number v with Some _ => true | None => false end.

Definition holder_record (h : pyval) : bool :=
  match h with
  | PDict d => is_numeric (default (PNum 0) (d !! "percentage"))
  | _ => false
  end.

(** [h.get("percentage", 0)] on a holder record. *)
Definition percentage_of (h : pyval) : pyval :=
  match h with
  | PDict d => default (PNum 0) (d !! "percentage")
  | _ => PNone
  end.

Definition holder_list (v : pyval) : bool :=
  match v with
  | PList l => forallb holder_record l
  | _ => false
  end.

Definition holders_shape (holder_analysis : pyval) : bool :=
  match holder_analysis with
  | PDict d => holder_list (default (PList []) (d !! "holders"))
  | _ => holder_list holder_analysis
  end.

Definition token_shape (token_data : pyval) : bool :=
  match token_data with
  | PDict d => returns (float (default (PNum 0) (d !! "bot_percentage")))
  | _ => false
  end.

Definition bundle_shape (bundle_analysis : pyval) : bool :=
  match bundle_analysis with
  | PDict d => is_numeric (default (PNum 0) (d !! "bundled_wallet_percentage"))
  | PNone => true
  | _ => false
  end.

Definition rugcheck_shape (rugcheck_data : pyval) : bool :=
  match rugcheck_data with
  | PDict d =>
      (truthy (default (PList []) (d !! "markets"))
       || is_dict (default (default (PDict ∅) (d !! "token")) (d !! "tokenMeta")))
      && (let sc := default (PNum 0) (d !! "score") in
          negb (truthy sc) || is_numeric sc)
  | PNone => true
  | _ => false
  end.

Definition expected_shapes (token_data holder_analysis bundle_analysis rugcheck_data : pyval)
  : bool :=
  token_shape token_data && holders_shape holder_analysis
  && bundle_shape bundle_analysis && rugcheck_shape rugcheck_data.

(** *** Sample inputs *)

Definition dict (l : list (string * pyval)) : pyval := PDict (list_to_map l).

Definition holders_at (percentages : list Q) : pyval :=
  PList ((fun p => dict [("address", PStr "holder"); ("percentage", PNum p)])
           <$> percentages).

Definition safe_token : pyval :=
  dict [("mint_authority_revoked", PBool true);
        ("freeze_authority_revoked", PBool true);
        ("bot_percentage", PNum 0)].

Definition risky_token : pyval :=
  dict [("mint_authority_revoked", PBool false);
        ("freeze_authority_revoked", PBool false);
        ("bot_percentage", PNum 80)].

Definition empty_bundle : pyval :=
  dict [("bundled_wallet_percentage", PNum 0); ("total_bundles", PNum 0);
        ("suspicious_bundles", PNum 0); ("bundle_groups", PList [])].

Definition heavy_bundle : pyval :=
  dict [("bundled_wallet_percentage", PNum 50); ("total_bundles", PNum 5);
        ("suspicious_bundles", PNum 5); ("bundle_groups", PList [])].

(** A third-party report whose [tokenMeta] is JSON [null]. *)
Definition null_token_meta : pyval :=
  dict [("score", PNum 100); ("tokenMeta", PNone)].

End RiskVocabulary.

(** ** Transactions *)

Section TransactionVocabulary.

(** [w] is the wallet that pays for [txn]: a non-empty [feePayer], or else
    a non-empty [fee_payer]. *)
Definition pays (w : string) (txn : Transaction) : Prop :=
  w ≠ ""
  ∧ (feePayer txn = Some w
     ∨ (nonempty (feePayer txn) = false ∧ fee_payer txn = Some w)).

(** The transactions of a slot, in input order. *)
Definition slot_txns (s : Z) (txns : list Transaction) : list Transaction :=
  filter (fun t => slot t = Some s) txns.

(** The transactions a wallet owns, in input order. *)
Definition owned (w : string) (txns : list Transaction) : list Transaction :=
  filter (fun t => payer t = Some w) txns.

(** The distinct wallets paying for a transaction of the slot. *)
Definition slot_payers (s : Z) (txns : list Transaction) : gset string :=
  BundlerDetector.fee_payers (slot_txns s txns).

(** A transaction that moves [amount] of a token to or from its payer. *)
Definition swap (fp : string) (t s : Z) (is_buy : bool) (amount : Q) : Transaction :=
  {| feePayer := Some fp; fee_payer := None; slot := Some s; timestamp := Some t;
     tokenTransfers :=
       [ {| mint := Some "mint123"; tokenAmount := Py.PNum amount;
            toUserAccount := Some (if is_buy then fp else "");
            fromUserAccount := Some (if is_buy then "" else fp) |} ] |}.

End TransactionVocabulary.

(** ** Wallet classification *)

Section TraderVocabulary.
Import TraderAnalyzer.

(** The timestamps of the transactions that carry one. *)
Definition stamps (txns : list Transaction) : list Z := omap timestamp txns.

(** Consecutive gaps of a list of timestamps, and the mean of a list. *)
Definition gaps (l : list Z) : list Z := zip_with (fun a b => b - a) l (tail l).

Definition mean (l : list Z) : Q :=
  (inject_Z (sum_Z l) / inject_Z (Z.of_nat (length l)))%Q.

(** The bot rule on the transactions a wallet owns: more than 5 of them, at
    least 2 timestamps among them, and a mean gap between the timestamps in
    ascending order below 30 seconds. *)
Definition bot_conditions (txns : list Transaction) : Prop :=
  (5 < length txns)%nat
  ∧ ∃ ascending,
      ascending ≡ₚ stamps txns ∧ StronglySorted Z.le ascending
      ∧ (2 ≤ length ascending)%nat
      ∧ (mean (gaps ascending) < 30)%Q.

(** The same rule asking for 2 distinct timestamps. *)
Definition bot_conditions_distinct (txns : list Transaction) : Prop :=
  (5 < length txns)%nat
  ∧ (2 ≤ size (list_to_set (stamps txns) : gset Z))%nat
  ∧ ∃ ascending,
      ascending ≡ₚ stamps txns ∧ StronglySorted Z.le ascending
      ∧ (mean (gaps ascending) < 30)%Q.

(** The wallet [w] is reported by [analyze] with the given flag set. *)
Definition reported (flag : detail → bool) (w : string) (txns : list Transaction)
  : Prop :=
  ∃ d, d ∈ trader_details (analyze txns Py.PNone) ∧ wallet d = w ∧ flag d = true.

(** The buy and sell events of one mint: every transfer of that mint, in a
    transaction with a timestamp, is a buy when it names a receiving account
    and a sell otherwise. *)
Definition transfer_events (m : string) (t : Z) (transfers : list Transfer)
  : list event :=
  omap (fun tr =>
          if decide (mint tr = Some m)
          then Some (Event t (if nonempty (toUserAccount tr) then buy else sell))
          else None) transfers.

Definition mint_events (m : string) (txns : list Transaction) : list event :=
  txns ≫= fun txn =>
    match timestamp txn with
    | Some t => transfer_events m t (tokenTransfers txn)
    | None => []
    end.

(** Events in time order; events of equal time keep the order in which they
    were recorded. *)
Definition chronological (events : list event) : list event := sorted_asc ts events.

(** [scan pending events n]: scanning [events] with the pending buy
    [pending] completes [n] cycles.  A buy replaces the pending buy.  A sell
    with a pending buy at most 3600 seconds earlier completes a cycle and
    clears the pending buy; any other sell changes nothing. *)
Inductive scan : option Z → list event → nat → Prop :=
| scan_done pending :
    scan pending [] 0
| scan_buy pending e events n :
    dir e = buy → scan (Some (ts e)) events n → scan pending (e :: events) n
| scan_sell_idle e events n :
    dir e = sell → scan None events n → scan None (e :: events) n
| scan_sell_cycle bought_at e events n :
    dir e = sell → ts e - bought_at ≤ 3600 →
    scan None events n → scan (Some bought_at) (e :: events) (S n)
| scan_sell_late bought_at e events n :
    dir e = sell → 3600 < ts e - bought_at →
    scan (Some bought_at) events n → scan (Some bought_at) (e :: events) n.

(** The wash-trader rule on the transactions a wallet owns. *)
Definition wash_conditions (txns : list Transaction) : Prop :=
  (4 ≤ length txns)%nat
  ∧ ∃ m n, m ≠ "" ∧ scan None (chronological (mint_events m txns)) n ∧ (2 ≤ n)%nat.

(** The numeric token amounts of a list of transfers. *)
Definition numeric_amount (transfer : Transfer) : option Q :=
  match tokenAmount transfer with
  | Py.PNone => None
  | amt => match Py.float amt with
           | Py.Ok a => Some a
           | Py.Raise _ => None
           end
  end.

Definition amounts_of (txns : list Transaction) : list Q :=
  txns ≫= fun txn => omap numeric_amount (tokenTransfers txn).

(** The transactions that have a fee payer. *)
Definition paid (txns : list Transaction) : list Transaction :=
  filter (fun t => is_Some (payer t)) txns.

(** At least two amounts, of which the distinct values number at most
    [max(1, count // 5)]. *)
Definition near_identical (amounts : list Q) : Prop :=
  (2 ≤ length amounts)%nat
  ∧ (length (unique_amounts amounts) ≤ Nat.max 1 (length amounts / 5))%nat.

(** The sybil rule of a wallet, over the amounts [amounts s] inspected in
    slot [s]. *)
Definition sybil_conditions (amounts : Z → list Q) (w : string)
    (txns : list Transaction) : Prop :=
  ∃ s, w ∈ slot_payers s txns
       ∧ (3 ≤ size (slot_payers s txns ∖ {[w]}))%nat
       ∧ near_identical (amounts s).

(** *** Sample transactions *)

(** [count] buys of one wallet, [gap] seconds apart, each in its own slot. *)
Definition spaced (w : string) (count : nat) (gap : Z) : list Transaction :=
  (fun i => swap w (1700000000 + Z.of_nat i * gap) (200 + Z.of_nat i) true 100)
    <$> seq 0 count.

(** Six transactions of one wallet at the same second. *)
Definition six_at_once : list Transaction :=
  (fun i => swap "w" 1700000000 (Z.of_nat i) true 100) <$> seq 0 6.

(** Four wallets moving the same amount in slot 1, and in the same slot a
    transaction without fee payer that moves three other amounts. *)
Definition unpaid_transfers : Transaction :=
  {| feePayer := None; fee_payer := None; slot := Some 1; timestamp := Some 0;
     tokenTransfers :=
       (fun a => {| mint := Some "mint123"; tokenAmount := Py.PNum a;
                    fromUserAccount := None; toUserAccount := None |})
         <$> [1%Q; 2%Q; 3%Q] |}.

Definition cluster_with_unpaid : list Transaction :=
  [swap "A" 0 1 true 100; swap "B" 0 1 true 100; swap "C" 0 1 true 100;
   swap "D" 0 1 true 100; unpaid_transfers].

End TraderVocabulary.

(** ** Sample inputs of the bundle detector and of the wash-trader rule *)

Section Samples.

(** Three wallets in slot 7. *)
Definition early_bundle : list Transaction :=
  [swap "a" 0 7 true 100; swap "b" 0 7 true 100; swap "c" 0 7 true 100].

(** Three wallets in slot 999, met first, then one wallet in each of the
    slots 0 to 9. *)
Definition late_bundle_first : list Transaction :=
  [swap "a" 0 999 true 100; swap "b" 0 999 true 100; swap "c" 0 999 true 100]
  ++ ((fun i => swap "solo" 0 (Z.of_nat i) true 100) <$> seq 0 10).

(** Two buys each followed by a sell ten minutes later. *)
Definition two_round_trips : list Transaction :=
  [swap "wash" 0 1 true 1; swap "wash" 600 1 false 1;
   swap "wash" 1200 1 true 1; swap "wash" 1800 1 false 1].

End Samples.

(** ** Order of first occurrence *)

Section FirstSeen.
Context {A : Type} `{EqDecision A}.

(** The distinct elements of a list, in the order in which each is first
    met. *)
Definition first_seen (l : list A) : list A :=
  foldl (fun seen x => if decide (x ∈ seen) then seen else seen ++ [x]) [] l.

End FirstSeen.

(** ** Wallets met in the input, and counts of events *)

Section MoreTraderVocabulary.
Import TraderAnalyzer.

(** The transaction names the wallet: as its fee payer, or as the sending or
    receiving account of one of its transfers. *)
Definition mentions (w : string) (t : Transaction) : Prop :=
  payer t = Some w
  ∨ ∃ tr, tr ∈ tokenTransfers t
          ∧ (fromUserAccount tr = Some w ∨ toUserAccount tr = Some w).

#[export] Instance direction_eq_dec : EqDecision direction.
Proof. solve_decision. Defined.

Definition count_dir (d : direction) (events : list event) : nat :=
  length (filter (fun e => dir e = d) events).

End MoreTraderVocabulary.

(** ** Holders as the scorer reads them *)

Section HolderVocabulary.
Import Py RiskScorer.

(** The first step of [score]: a dict stands for its [holders] entry, any
    other value for the list of its elements. *)
Definition holders_of (holder_analysis : pyval) : result pyval :=
  match holder_analysis with
  | PDict _ => get holder_analysis "holders" (PList [])
  | _ => PList <$> iter holder_analysis
  end.

(** The share of a holder record, and the total of a list of shares. *)
Definition holder_share (h : pyval) : Q := default 0%Q (number (percentage_of h)).

Definition total_share (shares : list Q) : Q := foldr Qplus 0%Q shares.

End HolderVocabulary.

(** * Properties *)

(** ** The error monad *)

Section ResultFacts.
Import Py.

Lemma bind_Ok {A B} (m : result A) (f : A → result B) (b : B) :
  m ≫= f = Ok b → ∃ a, m = Ok a ∧ f a = Ok b.
Proof. destruct m as [a|e]; simpl; [eauto | discriminate]. Qed.

Lemma fmap_Ok {A B} (m : result A) (f : A → B) (b : B) :
  f <$> m = Ok b → ∃ a, m = Ok a ∧ b = f a.
Proof. destruct m as [a|e]; simpl; [intros [= <-]; eauto | discriminate]. Qed.

Lemma Qgtb_lt (a b : Q) : Qgtb a b = true ↔ (b < a)%Q.
Proof.
  unfold Qgtb. rewrite negb_true_iff.
  destruct (Qle_bool a b) eqn:E.
  - apply Qle_bool_iff in E. split; [discriminate | intros H; exfalso; eapply Qlt_not_le; eauto].
  - split; [intros _ | done]. apply Qnot_le_lt. intros H. apply Qle_bool_iff in H. congruence.
Qed.

Lemma Qltb_lt (a b : Q) : Qltb a b = true ↔ (a < b)%Q.
Proof. apply Qgtb_lt. Qed.

End ResultFacts.

Ltac inv_bind H :=
  let a := fresh "v" in
  let E := fresh "E" in
  apply bind_Ok in H as (a & E & H).

(** ** Stable insertion sort *)

Section SortFacts.
Context {A : Type} (before : A → A → bool).

Lemma insert_sorted_perm (x : A) (l : list A) :
  insert_sorted before x l ≡ₚ x :: l.
Proof.
  induction l as [|y l IH]; simpl; [done|].
  destruct (before x y); [done|]. rewrite IH. apply Permutation_swap.
Qed.

Lemma sort_by_perm (l : list A) : sort_by before l ≡ₚ l.
Proof.
  induction l as [|x l IH]; simpl; [done|].
  rewrite insert_sorted_perm. by rewrite IH.
Qed.

Lemma sort_by_length (l : list A) : length (sort_by before l) = length l.
Proof. by rewrite sort_by_perm. Qed.

Lemma sort_by_elem (x : A) (l : list A) : x ∈ sort_by before l ↔ x ∈ l.
Proof. by rewrite sort_by_perm. Qed.

Hypothesis before_total : ∀ x y, before x y = true ∨ before y x = true.
Hypothesis before_trans :
  ∀ x y z, before x y = true → before y z = true → before x z = true.

Lemma insert_sorted_sorted (x : A) (l : list A) :
  StronglySorted (fun a b => before a b = true) l →
  StronglySorted (fun a b => before a b = true) (insert_sorted before x l).
Proof.
  induction 1 as [|y l Hs IH Hy]; simpl.
  - repeat constructor.
  - destruct (before x y) eqn:E.
    + constructor; [by constructor|]. constructor; [done|].
      eapply Forall_impl; [exact Hy|]. intros z Hz. by eapply before_trans.
    + constructor; [done|].
      rewrite insert_sorted_perm. constructor; [|done].
      destruct (before_total x y); congruence.
Qed.

Lemma sort_by_sorted (l : list A) :
  StronglySorted (fun a b => before a b = true) (sort_by before l).
Proof.
  induction l as [|x l IH]; simpl; [constructor|]. by apply insert_sorted_sorted.
Qed.

End SortFacts.

Lemma sorted_asc_sorted (l : list Z) :
  StronglySorted Z.le (sorted_asc (fun s => s) l).
Proof.
  unfold sorted_asc.
  assert (StronglySorted (fun a b => (a <=? b) = true)
            (sort_by (fun x y => x <=? y) l)) as H.
  { apply sort_by_sorted.
    - intros x y. rewrite !Z.leb_le. lia.
    - intros x y z. rewrite !Z.leb_le. lia. }
  induction H as [|x l' Hs IH Hx]; constructor; [done|].
  eapply Forall_impl; [exact Hx|]. intros y Hy. by apply Z.leb_le.
Qed.

Lemma sorted_asc_perm {A} (key : A → Z) (l : list A) : sorted_asc key l ≡ₚ l.
Proof. apply sort_by_perm. Qed.

Lemma sorted_desc_perm {A} (key : A → nat) (l : list A) : sorted_desc key l ≡ₚ l.
Proof. apply sort_by_perm. Qed.

(** The sort is stable: elements of equal key keep their input order. *)
Lemma insert_sorted_same_key {A} (key : A → Z) (k : Z) (x : A) (l : list A) :
  filter (fun y => key y = k) (insert_sorted (fun x y => key x <=? key y) x l)
  = filter (fun y => key y = k) (x :: l).
Proof.
  induction l as [|y l IH]; simpl; [done|].
  destruct (Z.leb_spec (key x) (key y)) as [Hle|Hlt]; [done|].
  rewrite filter_cons, IH, !filter_cons.
  destruct (decide (key y = k)), (decide (key x = k)); try done. lia.
Qed.

Lemma sorted_asc_stable {A} (key : A → Z) (k : Z) (l : list A) :
  filter (fun y => key y = k) (sorted_asc key l) = filter (fun y => key y = k) l.
Proof.
  unfold sorted_asc. induction l as [|x l IH]; simpl; [done|].
  rewrite insert_sorted_same_key, !filter_cons, IH. done.
Qed.

(** The first [n] elements of a strictly ascending list are the elements
    with fewer than [n] elements below them. *)
Lemma take_ascending (n : nat) (s : Z) (l : list Z) :
  StronglySorted Z.lt l →
  s ∈ take n l ↔ s ∈ l ∧ (length (filter (fun k : Z => (k < s)%Z) l) < n)%nat.
Proof.
  intros Hs. revert n. induction Hs as [|x l Hs IH Hx]; intros n.
  - rewrite take_nil. split; [by intros ?%elem_of_nil | by intros [?%elem_of_nil _]].
  - destruct n as [|n]; simpl.
    { split; [by intros ?%elem_of_nil | intros [_ ?]; lia]. }
    rewrite filter_cons, !elem_of_cons, IH.
    destruct (decide (s = x)) as [->|Hne].
    + rewrite decide_False by lia.
      assert (filter (fun k : Z => k < x) l = []) as ->.
      { clear -Hx. induction Hx as [|y l Hy _ IHl]; [done|].
        rewrite filter_cons, decide_False by lia. done. }
      simpl. split; [intros _; split; [by left | lia] | by left].
    + split.
      * intros [?|[Hin Hlen]]; [done|].
        pose proof (proj1 (Forall_forall _ _) Hx s Hin).
        rewrite decide_True by lia. simpl. split; [by right | lia].
      * intros [[?|Hin] Hlen]; [done|]. right. split; [done|].
        pose proof (proj1 (Forall_forall _ _) Hx s Hin).
        rewrite decide_True in Hlen by lia. simpl in Hlen. lia.
Qed.

(** ** [defaultdict(list)] *)

Section DefaultDictFacts.
Context {K V : Type} `{EqDecision K}.
Implicit Types (d : list (K * list V)) (k : K) (v : V).

Lemma dict_get_append k k' v d :
  dict_get k' (dict_append k v d)
  = if decide (k' = k) then dict_get k d ++ [v] else dict_get k' d.
Proof.
  induction d as [|[k0 l] d IH]; simpl.
  - destruct (decide (k = k')), (decide (k' = k)); congruence.
  - destruct (decide (k0 = k)) as [->|Hne]; simpl.
    + destruct (decide (k = k')), (decide (k' = k)); congruence.
    + rewrite IH. destruct (decide (k0 = k')), (decide (k' = k)); congruence.
Qed.

Lemma dict_append_keys k v d :
  (dict_append k v d).*1 = if decide (k ∈ d.*1) then d.*1 else d.*1 ++ [k].
Proof.
  induction d as [|[k0 l] d IH]; csimpl; [done|].
  destruct (decide (k0 = k)) as [->|Hne]; csimpl.
  - rewrite decide_True; [done | left].
  - rewrite IH. destruct (decide (k ∈ d.*1)) as [Hin|Hn].
    + rewrite decide_True; [done | by right].
    + rewrite decide_False; [done|]. intros [->|?]%elem_of_cons; done.
Qed.

Lemma dict_append_NoDup k v d : NoDup d.*1 → NoDup (dict_append k v d).*1.
Proof.
  intros Hd. rewrite dict_append_keys. destruct (decide (k ∈ d.*1)); [done|].
  apply NoDup_app. split_and!; [done| |apply NoDup_singleton].
  intros x Hx Hx'. apply list_elem_of_singleton in Hx' as ->. done.
Qed.

Lemma dict_append_elem_key k k' v d :
  k' ∈ (dict_append k v d).*1 ↔ k' = k ∨ k' ∈ d.*1.
Proof.
  rewrite dict_append_keys. destruct (decide (k ∈ d.*1)).
  - split; [by right | intros [->|]; done].
  - rewrite elem_of_app, list_elem_of_singleton. tauto.
Qed.

Lemma dict_get_absent k d : k ∉ d.*1 → dict_get k d = [].
Proof.
  induction d as [|[k0 l] d IH]; csimpl; [done|].
  intros Hn. destruct (decide (k0 = k)) as [->|].
  - exfalso. apply Hn. left.
  - apply IH. intros Hin. apply Hn. by right.
Qed.

Lemma dict_get_elem k l d : NoDup d.*1 → (k, l) ∈ d → dict_get k d = l.
Proof.
  induction d as [|[k0 l0] d IH]; csimpl; intros Hd Hin.
  - by apply elem_of_nil in Hin.
  - apply NoDup_cons in Hd as [Hk0 Hd].
    apply elem_of_cons in Hin as [[= -> ->]|Hin].
    + by rewrite decide_True.
    + destruct (decide (k0 = k)) as [->|]; [|by apply IH].
      exfalso. apply Hk0. apply list_elem_of_fmap. by exists (k, l).
Qed.

Lemma dict_elem_get k d : k ∈ d.*1 → (k, dict_get k d) ∈ d.
Proof.
  induction d as [|[k0 l0] d IH]; csimpl; intros Hin.
  - by apply elem_of_nil in Hin.
  - destruct (decide (k0 = k)) as [->|Hne]; [left|].
    right. apply IH. apply elem_of_cons in Hin as [?|?]; [congruence | done].
Qed.

End DefaultDictFacts.

(** ** Rounding to two decimals *)

Section RoundFacts.
Import Py.
#[local] Open Scope Q_scope.




Lemma or_one_positive (n : nat) : (0 < or_one n)%nat ∧ (n ≤ or_one n)%nat.
Proof. unfold or_one. destruct n; simpl; lia. Qed.

End RoundFacts.

(** ** Risk scoring *)

Section RiskFacts.
Import Py RiskScorer.

Lemma sum_Z_app (l1 l2 : list Z) : sum_Z (l1 ++ l2) = sum_Z l1 + sum_Z l2.
Proof. unfold sum_Z. induction l1 as [|x l1 IH]; simpl; lia. Qed.

Lemma catalog_points_positive : Forall (fun f => 0 < points f) _FACTORS.
Proof. unfold _FACTORS. repeat constructor. Qed.

(** Registering a factor adds its catalog points to the running total and
    its catalog entry to the list. *)
Lemma _add_consistent (factor_id : string) (st : acc) :
  consistent st → consistent (_add factor_id st).
Proof.
  intros (Hsum & Hpos & Hcat). unfold _add.
  destruct (List.find _ _FACTORS) as [f|] eqn:E; [|done].
  apply find_some in E as [Hin Hid].
  apply String.eqb_eq in Hid. apply list_elem_of_In in Hin.
  pose proof (proj1 (Forall_forall _ _) catalog_points_positive f Hin) as Hf.
  simpl in Hf. repeat split; simpl.
  - unfold total_points. rewrite fmap_app, sum_Z_app. simpl.
    fold (total_points (triggered_factors st)). lia.
  - lia.
  - apply Forall_app. split; [done|]. constructor; [|constructor].
    unfold from_catalog. simpl. subst factor_id. by destruct f.
Qed.

Lemma add_if_consistent (c : bool) (factor_id : string) (st : acc) :
  consistent st → consistent (add_if c factor_id st).
Proof. destruct c; simpl; [apply _add_consistent | done]. Qed.

Lemma score_consistent td ha ba rc r :
  score td ha ba rc = Ok r →
  ∃ st, consistent st ∧ factors r = triggered_factors st
        ∧ total_score r = Z.min (accumulated_points st) 100.
Proof.
  intros H. unfold score in H. repeat inv_bind H.
  injection H as <-. simpl. eexists. split; [|done].
  repeat apply add_if_consistent.
  repeat case_match; repeat apply _add_consistent; repeat apply add_if_consistent;
    (split; [done | split; [done | constructor]]).
Qed.

(** *** The outcome as a function of the seven tests *)

Lemma score_run td ha ba rc r :
  score td ha ba rc = Ok r →
  ∃ m f h md bu bo li ru,
    factors r = triggered_factors (run m f h md bu bo li ru)
    ∧ total_score r = Z.min (accumulated_points (run m f h md bu bo li ru)) 100
    ∧ m = negb (mint_authority_revoked r)
    ∧ f = negb (freeze_authority_revoked r)
    ∧ bo = Qgtb (bot_percentage r) 50
    ∧ li = negb (liquidity_locked r)
    ∧ gt_const (bundled_wallet_percentage r) 30 = Ok bu.
Proof.
  intros H. unfold score in H. repeat inv_bind H.
  injection H as <-. simpl.
  match goal with
  | |- context [add_if ?ru "rugcheck_high_risk" (add_if (negb ?li) _ (add_if ?bo _
         (add_if ?bu _ (if ?h then _ else if ?md then _ else
            add_if (negb ?f) _ (add_if (negb ?m) _ _)))))] =>
      exists (negb m), (negb f), h, md, bu, bo, (negb li), ru
  end.
  done.
Qed.

Lemma run_points m f h md bu bo li ru :
  accumulated_points (run m f h md bu bo li ru)
  = 25 * Z.b2z m + 20 * Z.b2z f + 20 * Z.b2z h + 10 * Z.b2z (negb h && md)
    + 15 * Z.b2z bu + 10 * Z.b2z bo + 10 * Z.b2z li + 20 * Z.b2z ru.
Proof. by destruct m, f, h, md, bu, bo, li, ru. Qed.

Lemma run_fires m f h md bu bo li ru :
  let names := name <$> triggered_factors (run m f h md bu bo li ru) in
  bool_decide ("mint_authority_not_revoked" ∈ names) = m
  ∧ bool_decide ("freeze_authority_not_revoked" ∈ names) = f
  ∧ bool_decide ("top10_concentration_high" ∈ names) = h
  ∧ bool_decide ("top10_concentration_medium" ∈ names) = negb h && md
  ∧ bool_decide ("bundler_percentage_high" ∈ names) = bu
  ∧ bool_decide ("bot_percentage_high" ∈ names) = bo
  ∧ bool_decide ("no_liquidity_info" ∈ names) = li
  ∧ bool_decide ("rugcheck_high_risk" ∈ names) = ru.
Proof. destruct m, f, h, md, bu, bo, li, ru; vm_compute; done. Qed.

Lemma decide_iff (P : Prop) `{Decision P} (b : bool) :
  bool_decide P = b → (P ↔ b = true).
Proof. intros <-. symmetry. apply bool_decide_eq_true. Qed.

(** What makes each factor fire, read off the values the report echoes. *)
Lemma score_fires td ha ba rc r :
  score td ha ba rc = Ok r →
  (fires "mint_authority_not_revoked" r ↔ mint_authority_revoked r = false)
  ∧ (fires "freeze_authority_not_revoked" r ↔ freeze_authority_revoked r = false)
  ∧ (fires "bundler_percentage_high" r
       ↔ gt_const (bundled_wallet_percentage r) 30 = Ok true)
  ∧ (fires "bot_percentage_high" r ↔ (50 < bot_percentage r)%Q)
  ∧ (fires "no_liquidity_info" r ↔ liquidity_locked r = false)
  ∧ ¬ (fires "top10_concentration_high" r ∧ fires "top10_concentration_medium" r).
Proof.
  intros H.
  apply score_run in H
    as (m & f & h & md & bu & bo & li & ru & Hf & _ & Hm & Hfz & Hbo & Hli & Hbu).
  unfold fires. rewrite Hf.
  destruct (run_fires m f h md bu bo li ru) as (F1 & F2 & F3 & F4 & F5 & F6 & F7 & F8).
  cbv zeta in *.
  split_and!.
  - rewrite (decide_iff _ _ F1), Hm. by destruct (mint_authority_revoked r).
  - rewrite (decide_iff _ _ F2), Hfz. by destruct (freeze_authority_revoked r).
  - rewrite (decide_iff _ _ F5), Hbu. split; [by intros -> | by intros [= ->]].
  - rewrite (decide_iff _ _ F6), Hbo. apply Qgtb_lt.
  - rewrite (decide_iff _ _ F7), Hli. by destruct (liquidity_locked r).
  - rewrite (decide_iff _ _ F3), (decide_iff _ _ F4). by destruct h, md; intros [??].
Qed.

Lemma decide_le (P P' : Prop) `{Decision P, Decision P'} (b b' : bool) :
  bool_decide P = b → bool_decide P' = b' → (P → P') → Z.b2z b ≤ Z.b2z b'.
Proof. intros <- <- HP. repeat case_bool_decide; simpl; try lia. tauto. Qed.

(** C9. Of two reports returned by [score], if every factor that fires in
    the first also fires in the second (in particular when the second has
    exactly one more triggering condition), the second total is at least
    the first. *)
Theorem score_monotone td ha ba rc td' ha' ba' rc' r r' :
  score td ha ba rc = Ok r →
  score td' ha' ba' rc' = Ok r' →
  (∀ factor_id, fires factor_id r → fires factor_id r') →
  total_score r ≤ total_score r'.
Proof.
  intros H H' Hsub.
  apply score_run in H as (m & f & h & md & bu & bo & li & ru & Hf & -> & _).
  apply score_run in H' as (m' & f' & h' & md' & bu' & bo' & li' & ru' & Hf' & -> & _).
  unfold fires in Hsub. rewrite Hf, Hf' in Hsub.
  destruct (run_fires m f h md bu bo li ru) as (F1 & F2 & F3 & F4 & F5 & F6 & F7 & F8).
  destruct (run_fires m' f' h' md' bu' bo' li' ru')
    as (G1 & G2 & G3 & G4 & G5 & G6 & G7 & G8).
  pose proof (decide_le _ _ _ _ F1 G1 (Hsub _)).
  pose proof (decide_le _ _ _ _ F2 G2 (Hsub _)).
  pose proof (decide_le _ _ _ _ F3 G3 (Hsub _)).
  pose proof (decide_le _ _ _ _ F4 G4 (Hsub _)).
  pose proof (decide_le _ _ _ _ F5 G5 (Hsub _)).
  pose proof (decide_le _ _ _ _ F6 G6 (Hsub _)).
  pose proof (decide_le _ _ _ _ F7 G7 (Hsub _)).
  pose proof (decide_le _ _ _ _ F8 G8 (Hsub _)).
  rewrite !run_points. lia.
Qed.

(** The safe sample against the same token with the mint authority kept:
    one more factor fires, and the total goes from 10 to 35. *)
Lemma score_monotone_witness :
  ∃ r r',
    score safe_token (PList []) empty_bundle (dict []) = Ok r
    ∧ score (dict [("freeze_authority_revoked", PBool true)]) (PList [])
            empty_bundle (dict []) = Ok r'
    ∧ total_score r = 10 ∧ total_score r' = 35
    ∧ total_score r ≤ total_score r'.
Proof.
  eexists _, _. split; [vm_compute; reflexivity|]. split; [vm_compute; reflexivity|].
  split; [reflexivity|]. split; [reflexivity|].
  eapply (score_monotone safe_token (PList []) empty_bundle (dict [])
            (dict [("freeze_authority_revoked", PBool true)]) (PList [])
            empty_bundle (dict [])).
  - vm_compute. reflexivity.
  - vm_compute. reflexivity.
  - intros factor_id. unfold fires. simpl.
    intros Hin. apply list_elem_of_singleton in Hin as ->.
    apply list_elem_of_here || (constructor; constructor).
Defined.

(** Moving from the medium to the high concentration tier, all else equal
    or added, does not lower the total either. *)
Lemma score_monotone_tiers td ha ba rc td' ha' ba' rc' r r' :
  score td ha ba rc = Ok r →
  score td' ha' ba' rc' = Ok r' →
  (∀ factor_id, fires factor_id r →
     fires factor_id r'
     ∨ (factor_id = "top10_concentration_medium" ∧ fires "top10_concentration_high" r')) →
  total_score r ≤ total_score r'.
Proof.
  intros H H' Hsub.
  apply score_run in H as (m & f & h & md & bu & bo & li & ru & Hf & -> & _).
  apply score_run in H' as (m' & f' & h' & md' & bu' & bo' & li' & ru' & Hf' & -> & _).
  unfold fires in Hsub. rewrite Hf, Hf' in Hsub.
  destruct (run_fires m f h md bu bo li ru) as (F1 & F2 & F3 & F4 & F5 & F6 & F7 & F8).
  destruct (run_fires m' f' h' md' bu' bo' li' ru')
    as (G1 & G2 & G3 & G4 & G5 & G6 & G7 & G8).
  cbv zeta in *.
  assert (∀ x, x ≠ "top10_concentration_medium" →
               x ∈ name <$> triggered_factors (run m f h md bu bo li ru) →
               x ∈ name <$> triggered_factors (run m' f' h' md' bu' bo' li' ru')) as Hs.
  { intros x Hx Hin. destruct (Hsub x Hin) as [?|[??]]; [done | congruence]. }
  pose proof (decide_le _ _ _ _ F1 G1 (Hs "mint_authority_not_revoked" ltac:(done))).
  pose proof (decide_le _ _ _ _ F2 G2 (Hs "freeze_authority_not_revoked" ltac:(done))).
  pose proof (decide_le _ _ _ _ F3 G3 (Hs "top10_concentration_high" ltac:(done))).
  pose proof (decide_le _ _ _ _ F5 G5 (Hs "bundler_percentage_high" ltac:(done))).
  pose proof (decide_le _ _ _ _ F6 G6 (Hs "bot_percentage_high" ltac:(done))).
  pose proof (decide_le _ _ _ _ F7 G7 (Hs "no_liquidity_info" ltac:(done))).
  pose proof (decide_le _ _ _ _ F8 G8 (Hs "rugcheck_high_risk" ltac:(done))).
  assert (Z.b2z (negb h && md) ≤ Z.b2z (negb h' && md') + Z.b2z h') as Hmd.
  { destruct (negb h && md) eqn:E; [|destruct (negb h' && md'), h'; simpl; lia].
    pose proof (proj2 (decide_iff _ _ F4) eq_refl) as Hmed.
    destruct (Hsub _ Hmed) as [Hin|[_ Hin]].
    - apply (decide_iff _ _ G4) in Hin. rewrite Hin. destruct h'; simpl; lia.
    - apply (decide_iff _ _ G3) in Hin. subst h'. simpl. lia. }
  rewrite !run_points.
  assert (Z.b2z (negb h' && md') + Z.b2z h' ≤ 1) by (destruct h', md'; simpl; lia).
  assert (0 ≤ Z.b2z (negb h' && md')) by (destruct h', md'; simpl; lia).
  assert (Z.b2z (negb h && md) + Z.b2z h ≤ 1) by (destruct h, md; simpl; lia).
  assert (0 ≤ Z.b2z h) by (destruct h; simpl; lia).
  lia.
Qed.

(** C4. The risk level of a score: below 25 is LOW, from 25 and below 50 is
    MEDIUM, from 50 and below 75 is HIGH, from 75 on is CRITICAL; each
    threshold belongs to the higher tier, as the eight boundary values
    show. *)
Theorem risk_level_tiers (s : Z) :
  (_get_risk_level s = "LOW" ↔ s < 25)
  ∧ (_get_risk_level s = "MEDIUM" ↔ 25 ≤ s < 50)
  ∧ (_get_risk_level s = "HIGH" ↔ 50 ≤ s < 75)
  ∧ (_get_risk_level s = "CRITICAL" ↔ 75 ≤ s)
  ∧ _get_risk_level 0 = "LOW" ∧ _get_risk_level 24 = "LOW"
  ∧ _get_risk_level 25 = "MEDIUM" ∧ _get_risk_level 49 = "MEDIUM"
  ∧ _get_risk_level 50 = "HIGH" ∧ _get_risk_level 74 = "HIGH"
  ∧ _get_risk_level 75 = "CRITICAL" ∧ _get_risk_level 100 = "CRITICAL".
Proof.
  split_and!; try done; unfold _get_risk_level;
    destruct (Z.ltb_spec s 25); destruct (Z.ltb_spec s 50); destruct (Z.ltb_spec s 75);
    try done; split; intros; first [discriminate | lia | done].
Qed.

(** The level reported by [score] is the level of the total it reports. *)
Lemma score_risk_level td ha ba rc r :
  score td ha ba rc = Ok r → risk_level r = _get_risk_level (total_score r).
Proof.
  intros H. unfold score in H. repeat inv_bind H. by injection H as <-.
Qed.

(** *** Liquidity evidence and the shapes [score] accepts *)

(** When the report carries neither sub-record, the answer is whether the
    markets list is non-empty. *)
Lemma _has_liquidity_absent (d : gmap string pyval) :
  d !! "tokenMeta" = None → d !! "token" = None →
  _has_liquidity (PDict d)
  = Ok (negb (Nat.eqb (size d) 0) && truthy (default (PList []) (d !! "markets"))).
Proof.
  intros Hm Ht. unfold _has_liquidity. simpl.
  destruct (Nat.eqb (size d) 0); simpl; [done|].
  rewrite Hm, Ht. simpl.
  by destruct (truthy (default (PList []) (d !! "markets"))).
Qed.

(** [_has_liquidity] returns exactly when the report is falsy, or is a dict
    that lists a market or whose token sub-record is a dict. *)
Lemma _has_liquidity_returns (rugcheck_data : pyval) :
  returns (_has_liquidity rugcheck_data)
  = negb (truthy rugcheck_data)
    || match rugcheck_data with
       | PDict d =>
           truthy (default (PList []) (d !! "markets"))
           || is_dict (default (default (PDict ∅) (d !! "token")) (d !! "tokenMeta"))
       | _ => false
       end.
Proof.
  unfold _has_liquidity.
  destruct (truthy rugcheck_data) eqn:Et; simpl; [|done].
  destruct rugcheck_data as [| | | | |d]; simpl; try done.
  destruct (truthy (default (PList []) (d !! "markets"))); simpl; [done|].
  by destruct (default (default (PDict ∅) (d !! "token")) (d !! "tokenMeta")).
Qed.

(** C3, at the failing input: with a third-party report whose [tokenMeta]
    is null, [_has_liquidity] raises [AttributeError], and so does [score]
    on an otherwise safe token, instead of reporting no liquidity
    evidence. *)
Theorem null_token_meta_raises :
  _has_liquidity null_token_meta = Raise AttributeError
  ∧ score safe_token (PList []) empty_bundle null_token_meta = Raise AttributeError.
Proof. split; vm_compute; reflexivity. Qed.

(** The same report without the null entry gives the conservative default. *)
Lemma missing_token_meta_is_no_liquidity :
  ∃ r, score safe_token (PList []) empty_bundle (dict [("score", PNum 100)]) = Ok r
       ∧ liquidity_locked r = false ∧ fires "no_liquidity_info" r.
Proof.
  eexists. split; [vm_compute; reflexivity|]. split; [done|].
  unfold fires. simpl. apply list_elem_of_singleton. done.
Qed.

Lemma get_percentages (l : list pyval) :
  forallb holder_record l = true →
  mapM_result (fun h => get h "percentage" (PNum 0)) l = Ok (percentage_of <$> l)
  ∧ Forall (fun k => is_numeric k = true) (percentage_of <$> l).
Proof.
  induction l as [|h l IH]; simpl; [by split; [|constructor]|].
  intros [Hh Hl]%andb_true_iff. destruct (IH Hl) as [-> HF].
  destruct h; try done. simpl. split; [done|]. by constructor.
Qed.

Lemma mapM_keyed_snd {K V V'} (f : K → option V') (keyed : list (K * V)) qs :
  mapM (fun kh => (fun q => (q, kh.2)) <$> f kh.1) keyed = Some qs →
  qs.*2 = keyed.*2.
Proof.
  revert qs. induction keyed as [|[k v] keyed IH]; simpl; intros qs.
  - by intros [= <-].
  - destruct (f k); simpl; [|done].
    destruct (mapM _ keyed) as [qs'|]; simpl; [|done].
    intros [= <-]. simpl. f_equal. by apply IH.
Qed.

Lemma sorted_holders_returns (l : list pyval) :
  Forall (fun k => is_numeric k = true) (percentage_of <$> l) →
  ∃ l', sorted_holders (zip (percentage_of <$> l) l) = Ok l' ∧ l' ≡ₚ l.
Proof.
  intros HF.
  assert ((zip (percentage_of <$> l) l).*2 = l) as Hsnd.
  { apply snd_zip. by rewrite length_fmap. }
  unfold sorted_holders.
  destruct (mapM _ (zip (percentage_of <$> l) l)) as [qs|] eqn:E.
  - pose proof (mapM_keyed_snd _ _ _ E) as Hqs.
    destruct (zip (percentage_of <$> l) l) as [|p [|p' keyed]] eqn:Ez.
    + eexists. split; [done|]. by rewrite Hsnd.
    + eexists. split; [done|]. by rewrite Hsnd.
    + eexists. split; [done|].
      rewrite sort_by_perm, Hqs. by rewrite Hsnd.
  - exfalso. assert (is_Some (mapM (fun kh : pyval * pyval =>
               (fun q => (q, kh.2)) <$> number kh.1) (zip (percentage_of <$> l) l))) as [? ?];
      [|congruence].
    apply mapM_is_Some. clear E Hsnd.
    induction l as [|h l IH]; simpl; [constructor|].
    apply Forall_cons in HF as [Hh Hl]. constructor; [|by apply IH].
    simpl. unfold is_numeric in Hh. destruct (number (percentage_of h)); [by eexists | done].
Qed.

Lemma sum_numbers_returns (l : list pyval) (a : Q) :
  Forall (fun k => is_numeric k = true) l → ∃ q, sum_numbers a l = Ok q.
Proof.
  intros HF. revert a. induction HF as [|k l Hk _ IH]; intros a; simpl; [by eexists|].
  unfold is_numeric in Hk. destruct (number k); [apply IH | done].
Qed.

Lemma _top10_concentration_returns (holders : pyval) :
  holder_list holders = true → ∃ q, _top10_concentration holders = Ok q.
Proof.
  destruct holders as [| | | |l|]; try done. simpl. intros Hl.
  unfold _top10_concentration.
  destruct (truthy (PList l)); simpl; [|by eexists].
  destruct (get_percentages l Hl) as [-> HF]. simpl.
  destruct (sorted_holders_returns l HF) as (l' & -> & Hperm). simpl.
  assert (forallb holder_record (take 10 l') = true) as Ht.
  { apply Is_true_true, forallb_True, Forall_take. rewrite Hperm.
    by apply forallb_True, Is_true_true. }
  destruct (get_percentages _ Ht) as [-> HF']. simpl.
  by apply sum_numbers_returns.
Qed.

Lemma gt_const_returns (v : pyval) (c : Q) :
  is_numeric v = true → ∃ b, gt_const v c = Ok b.
Proof.
  unfold is_numeric, gt_const. destruct (number v); [by eexists | done].
Qed.

(** On inputs of the expected shapes [score] returns a report. *)
Lemma score_returns td ha ba rc :
  expected_shapes td ha ba rc = true → ∃ r, score td ha ba rc = Ok r.
Proof.
  unfold expected_shapes.
  intros [[[Htd Hha]%andb_true_iff Hba]%andb_true_iff Hrc]%andb_true_iff.
  assert (∃ holders, match ha with
                     | PDict _ => get ha "holders" (PList [])
                     | _ => PList <$> iter ha
                     end = Ok holders ∧ holder_list holders = true)
    as (holders & Eh & Hh).
  { destruct ha as [| | | |l|d]; try done; simpl in *; eauto. }
  destruct (_top10_concentration_returns holders Hh) as [c Ec].
  destruct td as [| | | | |t]; try done. simpl in Htd.
  destruct (float (default (PNum 0) (t !! "bot_percentage"))) as [bp|] eqn:Ebp; [|done].
  assert (∃ bpct bh, (if truthy ba then get ba "bundled_wallet_percentage" (PNum 0)
                      else Ok (PNum 0)) = Ok bpct ∧ gt_const bpct 30 = Ok bh)
    as (bpct & bh & Eb & Ebh).
  { destruct ba as [| | | | |b]; try done; simpl in *.
    - eexists _, _. done.
    - destruct (gt_const_returns _ 30%Q Hba) as [bh Ebh].
      destruct (Nat.eqb (size b) 0); simpl; eexists _, _; done. }
  assert (∃ liq, _has_liquidity rc = Ok liq) as [liq El].
  { pose proof (_has_liquidity_returns rc) as Hr.
    destruct (_has_liquidity rc); [by eexists|]. exfalso.
    simpl in Hr. symmetry in Hr. apply orb_false_iff in Hr as [Hr1 Hr2].
    destruct rc as [| | | | |d]; try done. simpl in Hrc.
    apply andb_true_iff in Hrc as [Hrc _]. congruence. }
  assert (∃ sc rh, (if truthy rc then get rc "score" (PNum 0) else Ok (PNum 0)) = Ok sc
                   ∧ (if truthy sc then gt_const sc 500 else Ok false) = Ok rh)
    as (sc & rh & Es & Erh).
  { destruct rc as [| | | | |d]; try done; simpl in *.
    - eexists _, _. done.
    - apply andb_true_iff in Hrc as [_ Hsc].
      destruct (Nat.eqb (size d) 0); simpl; [by eexists _, _|].
      destruct (truthy (default (PNum 0) (d !! "score"))) eqn:Et.
      + simpl in Hsc. destruct (gt_const_returns _ 500%Q Hsc) as [rh Erh].
        eexists _, _. split; [done|]. by rewrite Et.
      + eexists _, _. split; [done|]. by rewrite Et. }
  unfold score. rewrite Eh. simpl. rewrite Ec. simpl. rewrite Eb. simpl.
  rewrite Ebh. simpl. rewrite Ebp. simpl. rewrite El. simpl. rewrite Es. simpl.
  rewrite Erh. simpl. by eexists.
Qed.

(** C1. Whatever the token metadata, the holders, the bundle report and the
    third-party report are, a report returned by [score] has a [total_score]
    equal to the smaller of 100 and the sum of the points of its triggered
    factors, each of which is an entry of the catalog, so the total lies
    between 0 and 100; and on records of the expected shapes [score] does
    return a report. *)
Theorem score_total_is_capped_sum td ha ba rc :
  (∀ r, score td ha ba rc = Ok r →
        total_score r = Z.min (total_points (factors r)) 100
        ∧ 0 ≤ total_score r ≤ 100
        ∧ Forall from_catalog (factors r))
  ∧ (expected_shapes td ha ba rc = true → ∃ r, score td ha ba rc = Ok r).
Proof.
  split; [|apply score_returns].
  intros r H. apply score_consistent in H as (st & (Hsum & Hpos & Hcat) & -> & ->).
  rewrite <- Hsum. repeat split; [lia | lia | done].
Qed.

(** Every factor fires on the risky sample: the points add up to 120 and the
    total is 100. *)
Lemma score_total_is_capped_sum_witness :
  ∃ r, score risky_token (holders_at (replicate 10 9%Q)) heavy_bundle
             (dict [("score", PNum 900)]) = Ok r
       ∧ (total_score r = Z.min (total_points (factors r)) 100
          ∧ 0 ≤ total_score r ≤ 100
          ∧ Forall from_catalog (factors r))
       ∧ total_points (factors r) = 120
       ∧ total_score r = 100.
Proof.
  destruct (score_total_is_capped_sum risky_token (holders_at (replicate 10 9%Q))
              heavy_bundle (dict [("score", PNum 900)])) as [Hvalue Hreturns].
  destruct Hreturns as [r Hr]; [vm_compute; reflexivity|].
  exists r. split; [done|]. split; [by apply Hvalue|].
  assert (Ok r = Ok (Report 100 "CRITICAL"
                       (triggered_factors (run true true true false true true true true))
                       false false (round2 90) false 80 (PNum 50))) as [= ->].
  { rewrite <- Hr. vm_compute. reflexivity. }
  split; reflexivity.
Defined.

End RiskFacts.

(** ** Fee payers *)

Section PayerFacts.

Lemma nonempty_Some (o : option string) :
  nonempty o = true ↔ ∃ w, o = Some w ∧ w ≠ "".
Proof.
  destruct o as [w|]; simpl.
  - rewrite negb_true_iff, String.eqb_neq. split; [eauto | by intros (? & [= <-] & ?)].
  - split; [done | by intros (? & ? & ?)].
Qed.

(** The wallet the engines bind to a transaction is its non-empty
    [feePayer], or else its non-empty [fee_payer]. *)
Lemma payer_pays (w : string) (txn : Transaction) :
  payer txn = Some w ↔ pays w txn.
Proof.
  unfold payer, payer_field, pays.
  destruct (nonempty (feePayer txn)) eqn:E1.
  - rewrite E1. apply nonempty_Some in E1 as (w' & E & Hw'). rewrite E.
    split.
    + intros [= ->]. split; [done | by left].
    + intros [Hw [?|[? _]]]; [done | congruence].
  - destruct (nonempty (fee_payer txn)) eqn:E2.
    + apply nonempty_Some in E2 as (w' & E & Hw'). rewrite E. split.
      * intros [= ->]. split; [done | by right].
      * intros [Hw [Hf|[_ ?]]]; [|done].
        rewrite Hf in E1. simpl in E1.
        apply negb_false_iff, String.eqb_eq in E1. done.
    + split; [done|]. intros [Hw [Hf|[_ Hf]]].
      * rewrite Hf in E1. simpl in E1. apply negb_false_iff, String.eqb_eq in E1. done.
      * rewrite Hf in E2. simpl in E2. apply negb_false_iff, String.eqb_eq in E2. done.
Qed.

Lemma payer_None (txn : Transaction) :
  payer txn = None ↔ ∀ w, ¬ pays w txn.
Proof.
  split.
  - intros Hn w Hp. apply payer_pays in Hp. congruence.
  - intros Hn. destruct (payer txn) as [w|] eqn:E; [|done].
    exfalso. apply (Hn w). by apply payer_pays.
Qed.

End PayerFacts.

(** ** Bundle detection *)

Section BundlerFacts.
Import BundlerDetector.
#[local] Open Scope nat_scope.

Lemma fee_payers_fold (w : string) (txns : list Transaction) (ws : gset string) :
  w ∈ foldl (fun ws txn => match payer txn with
                           | Some fp => ws ∪ {[fp]}
                           | None => ws
                           end) ws txns
  ↔ w ∈ ws ∨ ∃ t, t ∈ txns ∧ payer t = Some w.
Proof.
  revert ws. induction txns as [|t txns IH]; intros ws; simpl.
  - split; [by left | intros [?|(t & Ht & _)]; [done | by apply elem_of_nil in Ht]].
  - rewrite IH. split.
    + intros [Hw|(t' & Ht' & Hp)].
      * destruct (payer t) as [fp|] eqn:E; [|by left].
        apply elem_of_union in Hw as [?|Hw]; [by left|].
        apply elem_of_singleton in Hw as ->.
        right. exists t. split; [left | done].
      * right. exists t'. split; [by right | done].
    + intros [Hw|(t' & Ht' & Hp)].
      * left. destruct (payer t); [apply elem_of_union; by left | done].
      * apply elem_of_cons in Ht' as [->|Ht'].
        -- left. rewrite Hp. apply elem_of_union. right. by apply elem_of_singleton.
        -- right. by exists t'.
Qed.

Lemma fee_payers_payer (w : string) (txns : list Transaction) :
  w ∈ fee_payers txns ↔ ∃ t, t ∈ txns ∧ payer t = Some w.
Proof.
  unfold fee_payers. rewrite fee_payers_fold.
  split; [intros [Hw|?]; [by apply not_elem_of_empty in Hw | done] | by right].
Qed.

(** The set collected by the fee-payer loop holds exactly the wallets that
    pay for one of the transactions. *)
Lemma fee_payers_elem (w : string) (txns : list Transaction) :
  w ∈ fee_payers txns ↔ ∃ t, t ∈ txns ∧ pays w t.
Proof.
  unfold fee_payers. rewrite fee_payers_fold. setoid_rewrite payer_pays.
  split; [intros [Hw|?]; [by apply not_elem_of_empty in Hw | done] | by right].
Qed.

Lemma group_fold_get (s : Z) (txns : list Transaction) g :
  dict_get s (foldl (fun groups txn =>
                       match slot txn with
                       | Some s => dict_append s txn groups
                       | None => groups
                       end) g txns)
  = dict_get s g ++ slot_txns s txns.
Proof.
  revert g. induction txns as [|t txns IH]; intros g; simpl.
  - by rewrite app_nil_r.
  - rewrite IH. unfold slot_txns. rewrite filter_cons.
    destruct (slot t) as [s'|] eqn:E.
    + rewrite dict_get_append. destruct (decide (s = s')) as [->|Hne].
      * rewrite decide_True by done. by rewrite <- app_assoc.
      * rewrite decide_False by congruence. done.
    + rewrite decide_False by done. done.
Qed.

Lemma group_fold_keys (k : Z) (txns : list Transaction) g :
  k ∈ (foldl (fun groups txn =>
                match slot txn with
                | Some s => dict_append s txn groups
                | None => groups
                end) g txns).*1
  ↔ k ∈ g.*1 ∨ ∃ t, t ∈ txns ∧ slot t = Some k.
Proof.
  revert g. induction txns as [|t txns IH]; intros g; simpl.
  - split; [by left | intros [?|(t & Ht & _)]; [done | by apply elem_of_nil in Ht]].
  - rewrite IH. split.
    + intros [Hk|(t' & Ht' & Hs)].
      * destruct (slot t) as [s|] eqn:E; [|by left].
        apply dict_append_elem_key in Hk as [->|?]; [|by left].
        right. exists t. split; [left | done].
      * right. exists t'. split; [by right | done].
    + intros [Hk|(t' & Ht' & Hs)].
      * left. destruct (slot t); [|done]. apply dict_append_elem_key. by right.
      * apply elem_of_cons in Ht' as [->|Ht'].
        -- left. rewrite Hs. apply dict_append_elem_key. by left.
        -- right. by exists t'.
Qed.

Lemma group_fold_NoDup (txns : list Transaction) (g : list (Z * list Transaction)) :
  NoDup g.*1 →
  NoDup (foldl (fun groups txn =>
                  match slot txn with
                  | Some s => dict_append s txn groups
                  | None => groups
                  end) g txns).*1.
Proof.
  revert g. induction txns as [|t txns IH]; intros g Hg; simpl; [done|].
  apply IH. destruct (slot t); [by apply dict_append_NoDup | done].
Qed.

(** The group of a slot holds the transactions of that slot, in input
    order; the keys are distinct and are the slots that occur. *)
Lemma _group_by_slot_entry (s : Z) (l : list Transaction) (txns : list Transaction) :
  (s, l) ∈ _group_by_slot txns → l = slot_txns s txns.
Proof.
  intros Hin. unfold _group_by_slot in Hin.
  pose proof (group_fold_NoDup txns [] (NoDup_nil_2)) as Hnd.
  rewrite <- (dict_get_elem s l _ Hnd Hin). by rewrite group_fold_get.
Qed.

Lemma _group_by_slot_keys (k : Z) (txns : list Transaction) :
  k ∈ (_group_by_slot txns).*1 ↔ ∃ t, t ∈ txns ∧ slot t = Some k.
Proof.
  unfold _group_by_slot. rewrite group_fold_keys.
  split; [intros [Hk|?]; [by apply elem_of_nil in Hk | done] | by right].
Qed.

Lemma _group_by_slot_NoDup (txns : list Transaction) :
  NoDup (_group_by_slot txns).*1.
Proof. apply group_fold_NoDup. constructor. Qed.

Lemma detect_nonempty (t : Transaction) (txns : list Transaction) :
  let transactions := t :: txns in
  let slot_groups := _group_by_slot transactions in
  let bundles := mark (early_slots_of slot_groups) <$> _identify_bundles slot_groups in
  detect transactions
  = Report (length bundles) bundles
           (length (filter (fun b => suspicious b = true) bundles))
           (Py.percentage (size (bundled_wallets_of bundles))
                          (Py.or_one (size (fee_payers transactions)))).
Proof. done. Qed.

(** Every bundle of the report comes from a slot group with at least three
    distinct fee payers. *)
Lemma detect_bundle (txns : list Transaction) (b : bundle) :
  b ∈ bundle_groups (detect txns) →
  ∃ ws, ws = slot_payers (bundle_slot b) txns
        ∧ (∃ t, t ∈ txns ∧ slot t = Some (bundle_slot b))
        ∧ 3 ≤ size ws
        ∧ wallets b = elements ws
        ∧ bundle_size b = size ws
        ∧ txn_count b = length (slot_txns (bundle_slot b) txns)
        ∧ suspicious b
          = _is_suspicious_bundle b (early_slots_of (_group_by_slot txns)).
Proof.
  destruct txns as [|t0 txns]; [intros Hb; by apply elem_of_nil in Hb|].
  rewrite detect_nonempty. cbv zeta. simpl bundle_groups.
  intros (b0 & -> & Hb0)%list_elem_of_fmap.
  unfold _identify_bundles in Hb0. rewrite sorted_desc_perm in Hb0.
  apply list_elem_of_omap in Hb0 as ([s l] & Hg & Hb).
  pose proof (_group_by_slot_entry _ _ _ Hg) as ->.
  unfold bundle_of in Hb. cbn [fst snd] in Hb.
  destruct (Nat.leb BUNDLE_MIN_SIZE _) eqn:E; [|done].
  injection Hb as <-. simpl.
  apply Nat.leb_le in E. unfold BUNDLE_MIN_SIZE in E.
  eexists. split; [done|]. split_and!; try done.
  apply _group_by_slot_keys. apply list_elem_of_fmap. by exists (s, slot_txns s (t0 :: txns)).
Qed.

(** And every slot with at least three distinct fee payers gives a bundle. *)
Lemma detect_bundle_of_slot (txns : list Transaction) (s : Z) :
  3 ≤ size (slot_payers s txns) →
  ∃ b, b ∈ bundle_groups (detect txns) ∧ bundle_slot b = s.
Proof.
  intros Hs.
  assert (∃ w, w ∈ slot_payers s txns) as [w Hw].
  { apply size_pos_elem_of. lia. }
  apply fee_payers_elem in Hw as (t & Ht & _).
  apply list_elem_of_filter in Ht as [Hslot Ht].
  destruct txns as [|t0 txns]; [by apply elem_of_nil in Ht|].
  rewrite detect_nonempty. cbv zeta. simpl bundle_groups.
  assert (s ∈ (_group_by_slot (t0 :: txns)).*1) as Hk.
  { apply _group_by_slot_keys. by exists t. }
  apply dict_elem_get in Hk.
  pose proof (_group_by_slot_entry _ _ _ Hk) as Hl.
  eexists (mark _ (Bundle s _ _ _ false)). split; [|done].
  apply list_elem_of_fmap. eexists. split; [done|].
  unfold _identify_bundles. rewrite sorted_desc_perm.
  apply list_elem_of_omap. eexists. split; [exact Hk|].
  unfold bundle_of. cbn [fst snd]. rewrite Hl.
  fold (slot_payers s (t0 :: txns)).
  destruct (Nat.leb_spec BUNDLE_MIN_SIZE (size (slot_payers s (t0 :: txns)))) as [|Hlt];
    [done|].
  unfold BUNDLE_MIN_SIZE in Hlt. lia.
Qed.

Lemma sorted_le_NoDup_lt (l : list Z) :
  StronglySorted Z.le l → NoDup l → StronglySorted Z.lt l.
Proof.
  induction 1 as [|x l Hs IH Hx]; intros Hnd; constructor.
  - apply IH. by apply NoDup_cons in Hnd as [_ ?].
  - apply NoDup_cons in Hnd as [Hx' _].
    apply Forall_forall. intros y Hy.
    pose proof (proj1 (Forall_forall _ _) Hx y Hy).
    assert (x ≠ y) by (intros ->; done). lia.
Qed.

(** The slot keys in ascending order, as [detect] sorts them. *)
Lemma ascending_slots (txns : list Transaction) :
  let ascending := sorted_asc (fun s : Z => s) (_group_by_slot txns).*1 in
  StronglySorted Z.lt ascending
  ∧ ∀ k, k ∈ ascending ↔ ∃ t, t ∈ txns ∧ slot t = Some k.
Proof.
  split.
  - apply sorted_le_NoDup_lt; [apply sorted_asc_sorted|].
    rewrite sorted_asc_perm. apply _group_by_slot_NoDup.
  - intros k. rewrite sorted_asc_perm. apply _group_by_slot_keys.
Qed.

(** A strictly ascending list is determined by its elements. *)
Lemma ascending_unique (l1 l2 : list Z) :
  StronglySorted Z.lt l1 → StronglySorted Z.lt l2 →
  (∀ k, k ∈ l1 ↔ k ∈ l2) → l1 = l2.
Proof.
  intros H1. revert l2. induction H1 as [|x l1 Hs1 IH Hx]; intros l2 H2 Heq.
  - destruct l2 as [|y l2]; [done|]. exfalso.
    eapply elem_of_nil, Heq. left.
  - destruct H2 as [|y l2 Hs2 Hy].
    + exfalso. eapply elem_of_nil, Heq. left.
    + assert (x = y) as ->.
      { pose proof (proj1 (Heq x) ltac:(left)) as Hx2.
        pose proof (proj2 (Heq y) ltac:(left)) as Hy1.
        apply elem_of_cons in Hx2 as [?|Hx2]; [done|].
        apply elem_of_cons in Hy1 as [?|Hy1]; [done|].
        pose proof (proj1 (Forall_forall _ _) Hx y Hy1).
        pose proof (proj1 (Forall_forall _ _) Hy x Hx2). lia. }
      f_equal. apply IH; [done|]. intros k. split; intros Hk.
      * pose proof (proj1 (Forall_forall _ _) Hx k Hk).
        pose proof (proj1 (Heq k) ltac:(by right)) as Hk2.
        apply elem_of_cons in Hk2 as [?|?]; [lia | done].
      * pose proof (proj1 (Forall_forall _ _) Hy k Hk).
        pose proof (proj2 (Heq k) ltac:(by right)) as Hk1.
        apply elem_of_cons in Hk1 as [?|?]; [lia | done].
Qed.

(** C5. A bundle returned by [detect] is suspicious exactly when it has at
    least 5 distinct wallets or its slot is among the first 10 of the slots
    occurring in the input, listed in ascending order without
    repetition. *)
Theorem suspicious_iff_large_or_early (txns : list Transaction) (b : bundle)
    (ascending : list Z) :
  b ∈ bundle_groups (detect txns) →
  StronglySorted Z.lt ascending →
  (∀ k, k ∈ ascending ↔ ∃ t, t ∈ txns ∧ slot t = Some k) →
  bundle_size b = size (slot_payers (bundle_slot b) txns)
  ∧ (suspicious b = true
     ↔ 5 ≤ bundle_size b ∨ bundle_slot b ∈ take 10 ascending).
Proof.
  intros Hb Hsorted Hkeys.
  apply detect_bundle in Hb as (ws & -> & _ & _ & _ & Hsize & _ & ->).
  split; [done|].
  destruct (ascending_slots txns) as [Hs Hk]. cbv zeta in Hs, Hk.
  assert (ascending = sorted_asc (fun s : Z => s) (_group_by_slot txns).*1) as ->.
  { apply ascending_unique; [done..|]. intros k. by rewrite Hkeys, Hk. }
  unfold _is_suspicious_bundle, early_slots_of, SUSPICIOUS_MIN_SIZE, EARLY_SLOT_WINDOW.
  destruct (Nat.leb_spec 5 (bundle_size b)) as [Hle|Hlt].
  - split; [by left | done].
  - case_bool_decide as Hin.
    + split; [|done]. intros _. right. by apply elem_of_list_to_set in Hin.
    + split; [done|]. intros [?|Hin']; [lia|].
      exfalso. apply Hin. by apply elem_of_list_to_set.
Qed.

(** Three wallets in one slot, the only slot of the input: the bundle is
    small, early and suspicious. *)
Lemma suspicious_iff_large_or_early_witness :
  let b := Bundle 7 (elements ({["a"; "b"; "c"]} : gset string)) 3 3 true in
  bundle_size b = size (slot_payers (bundle_slot b) early_bundle)
  ∧ (suspicious b = true ↔ 5 ≤ bundle_size b ∨ bundle_slot b ∈ take 10 [7%Z]).
Proof.
  apply (suspicious_iff_large_or_early early_bundle
           (Bundle 7 (elements ({["a"; "b"; "c"]} : gset string)) 3 3 true) [7%Z]).
  - vm_compute. left.
  - repeat constructor.
  - intros k. split.
    + intros ->%list_elem_of_singleton. exists (swap "a" 0 7 true 100).
      split; [left | done].
    + intros (t & Ht & Hs). unfold early_bundle in Ht.
      repeat (apply elem_of_cons in Ht as [->|Ht]);
        try (injection Hs as <-; left); by apply elem_of_nil in Ht.
Defined.

(** The early window follows the numeric order of the slots, not the order
    in which they are met: a bundle of three in slot 999 is met first, ten
    lower slots follow, and the bundle is not suspicious. *)
Lemma early_window_is_not_discovery_order :
  ∃ b, bundle_groups (detect late_bundle_first) = [b]
       ∧ bundle_slot b = 999%Z ∧ suspicious b = false.
Proof. eexists. split; [vm_compute; reflexivity|]. done. Qed.

Lemma bundled_wallets_fold (w : string) (bs : list bundle) (ws : gset string) :
  w ∈ foldl (fun ws b => ws ∪ list_to_set (wallets b)) ws bs
  ↔ w ∈ ws ∨ ∃ b, b ∈ bs ∧ w ∈ wallets b.
Proof.
  revert ws. induction bs as [|b bs IH]; intros ws; simpl.
  - split; [by left | intros [?|(b & Hb & _)]; [done | by apply elem_of_nil in Hb]].
  - rewrite IH, elem_of_union, elem_of_list_to_set. split.
    + intros [[?|?]|(b' & Hb' & Hw)]; [by left | |].
      * right. exists b. split; [left | done].
      * right. exists b'. split; [by right | done].
    + intros [?|(b' & Hb' & Hw)]; [by left; left|].
      apply elem_of_cons in Hb' as [->|Hb']; [by left; right|].
      right. by exists b'.
Qed.

Lemma bundled_wallets_of_elem (w : string) (bs : list bundle) :
  w ∈ bundled_wallets_of bs ↔ ∃ b, b ∈ bs ∧ w ∈ wallets b.
Proof.
  unfold bundled_wallets_of. rewrite bundled_wallets_fold.
  split; [intros [Hw|?]; [by apply not_elem_of_empty in Hw | done] | by right].
Qed.

(** A wallet of a bundle pays for a transaction of the bundle's slot. *)
Lemma bundle_wallet_pays (txns : list Transaction) (b : bundle) (w : string) :
  b ∈ bundle_groups (detect txns) →
  (w ∈ wallets b ↔ ∃ t, t ∈ txns ∧ slot t = Some (bundle_slot b) ∧ pays w t).
Proof.
  intros Hb. apply detect_bundle in Hb as (ws & -> & _ & _ & -> & _).
  rewrite elem_of_elements. unfold slot_payers. rewrite fee_payers_elem.
  unfold slot_txns. setoid_rewrite list_elem_of_filter.
  split; intros (t & H1 & H2); exists t; tauto.
Qed.




Lemma slot_payers_elem (s : Z) (w : string) (txns : list Transaction) :
  w ∈ slot_payers s txns ↔ ∃ t, t ∈ txns ∧ slot t = Some s ∧ payer t = Some w.
Proof.
  unfold slot_payers, slot_txns. rewrite fee_payers_payer.
  setoid_rewrite list_elem_of_filter.
  split; intros (t & H1 & H2); exists t; tauto.
Qed.

End BundlerFacts.

(** ** Wallet classification *)

Section WalletTxnsFacts.
Import TraderAnalyzer.
#[local] Open Scope nat_scope.

Lemma dict_get_snoc_empty {K V} `{EqDecision K} (k a : K) (d : list (K * list V)) :
  dict_get k (d ++ [(a, [])]) = dict_get k d.
Proof.
  induction d as [|[k0 l] d IH]; simpl.
  - by destruct (decide (a = k)).
  - by destruct (decide (k0 = k)).
Qed.

Lemma register_get (w : string) m (addr : option string) :
  dict_get w (register m addr) = dict_get w m.
Proof.
  unfold register. destruct addr as [a|]; [|done].
  destruct (String.eqb a ""); [done|].
  case_bool_decide; [done|]. apply dict_get_snoc_empty.
Qed.

Lemma register_NoDup m (addr : option string) :
  NoDup m.*1 → NoDup (register m addr).*1.
Proof.
  intros Hm. unfold register. destruct addr as [a|]; [|done].
  destruct (String.eqb a ""); [done|].
  case_bool_decide as Hin; [done|].
  rewrite fmap_app. apply NoDup_app. split_and!; [done| |apply NoDup_singleton].
  intros x Hx Hx'. apply list_elem_of_singleton in Hx'. simpl in Hx'. by subst.
Qed.

Lemma registers_get (w : string) (transfers : list Transfer) m :
  dict_get w (foldl register_transfer m transfers) = dict_get w m.
Proof.
  revert m. induction transfers as [|tr transfers IH]; intros m; simpl; [done|].
  rewrite IH. unfold register_transfer. simpl. by rewrite !register_get.
Qed.

Lemma registers_NoDup (transfers : list Transfer) m :
  NoDup m.*1 → NoDup (foldl register_transfer m transfers).*1.
Proof.
  revert m. induction transfers as [|tr transfers IH]; intros m Hm; simpl; [done|].
  apply IH. unfold register_transfer. simpl. by do 2 apply register_NoDup.
Qed.

Lemma collect_get (w : string) m (txn : Transaction) :
  dict_get w (collect m txn)
  = dict_get w m ++ (if decide (payer txn = Some w) then [txn] else []).
Proof.
  unfold collect. rewrite registers_get.
  destruct (payer txn) as [fp|].
  - rewrite dict_get_append.
    destruct (decide (w = fp)) as [->|Hne].
    + by rewrite decide_True.
    + rewrite decide_False by congruence. by rewrite app_nil_r.
  - rewrite decide_False by done. by rewrite app_nil_r.
Qed.

Lemma collect_NoDup m (txn : Transaction) :
  NoDup m.*1 → NoDup (collect m txn).*1.
Proof.
  intros Hm. unfold collect. apply registers_NoDup.
  destruct (payer txn); [by apply dict_append_NoDup | done].
Qed.

Lemma build_fold_get (w : string) (txns : list Transaction) m :
  dict_get w (foldl collect m txns) = dict_get w m ++ owned w txns.
Proof.
  revert m. induction txns as [|t txns IH]; intros m; simpl.
  - by rewrite app_nil_r.
  - rewrite IH, collect_get. unfold owned. rewrite filter_cons.
    destruct (decide (payer t = Some w)); by rewrite <- app_assoc.
Qed.

Lemma build_fold_NoDup (txns : list Transaction) m :
  NoDup m.*1 → NoDup (foldl collect m txns).*1.
Proof.
  revert m. induction txns as [|t txns IH]; intros m Hm; simpl; [done|].
  by apply IH, collect_NoDup.
Qed.

(** The list kept for a wallet holds the transactions it pays for, in input
    order. *)
Lemma build_wallet_txns_entry (w : string) (l txns : list Transaction) :
  (w, l) ∈ build_wallet_txns txns → l = owned w txns.
Proof.
  intros Hin. unfold build_wallet_txns in Hin.
  pose proof (build_fold_NoDup txns [] (NoDup_nil_2)) as Hnd.
  rewrite <- (dict_get_elem w l _ Hnd Hin). by rewrite build_fold_get.
Qed.

Lemma build_wallet_txns_NoDup (txns : list Transaction) :
  NoDup (build_wallet_txns txns).*1.
Proof. apply build_fold_NoDup. constructor. Qed.

(** What [analyze] reports of a wallet is computed from the transactions it
    owns, and the label follows the precedence bot, wash trader, sybil,
    real. *)
Lemma analyze_detail (txns : list Transaction) (holders : Py.pyval) (d : detail) :
  d ∈ trader_details (analyze txns holders) →
  let mine := owned (wallet d) txns in
  txn_count d = length mine
  ∧ is_bot d = _is_bot mine
  ∧ is_wash_trader d = _is_wash_trader mine txns
  ∧ is_sybil d = _is_sybil (wallet d) (build_wallet_txns txns).*1 txns
  ∧ wallet_label d
    = (if is_bot d then bot else if is_wash_trader d then wash_trader
       else if is_sybil d then sybil else real).
Proof.
  destruct txns as [|t0 txns]; [intros Hd; by apply elem_of_nil in Hd|].
  unfold analyze. simpl trader_details.
  intros ([w l] & -> & Hin)%list_elem_of_fmap.
  apply build_wallet_txns_entry in Hin as ->. done.
Qed.

End WalletTxnsFacts.

Section BotFacts.
Import TraderAnalyzer.
#[local] Open Scope nat_scope.

Lemma intervals_gaps (l : list Z) : intervals l = gaps l.
Proof.
  unfold gaps. induction l as [|a [|b l] IH]; [done..|].
  simpl in *. by rewrite IH.
Qed.

Lemma ascending_stamps (l ascending : list Z) :
  ascending ≡ₚ l → StronglySorted Z.le ascending →
  ascending = sorted_asc (fun t : Z => t) l.
Proof.
  intros Hp Hs. apply (StronglySorted_unique Z.le); [done | apply sorted_asc_sorted|].
  by rewrite sorted_asc_perm.
Qed.

(** The bot test of a list of owned transactions. *)
Lemma _is_bot_conditions (txns : list Transaction) :
  _is_bot txns = true ↔ bot_conditions txns.
Proof.
  unfold _is_bot, bot_conditions, BOT_MIN_TXNS, BOT_AVG_INTERVAL_SECS.
  fold (stamps txns).
  destruct (Nat.leb_spec (length txns) 5) as [Hle|Hgt].
  { split; [done | intros [? _]; lia]. }
  destruct (Nat.ltb_spec (length (sorted_asc (fun t : Z => t) (stamps txns))) 2)
    as [Hlt|Hge].
  { split; [done|]. intros (_ & asc & Hp & Hs & Hlen & _).
    rewrite (ascending_stamps _ _ Hp Hs) in Hlen. lia. }
  rewrite Qltb_lt, intervals_gaps. fold (mean (gaps (sorted_asc (fun t : Z => t) (stamps txns)))).
  split.
  - intros Hmean. split; [done|].
    exists (sorted_asc (fun t : Z => t) (stamps txns)).
    split_and!; [apply sorted_asc_perm | apply sorted_asc_sorted | done | done].
  - intros (_ & asc & Hp & Hs & _ & Hmean).
    by rewrite (ascending_stamps _ _ Hp Hs) in Hmean.
Qed.

(** C2, as stated with two distinct timestamps, fails: six transactions of
    one wallet at the same second are flagged as a bot. *)
Lemma bot_distinct_timestamps_counterexample :
  reported is_bot "w" six_at_once
  ∧ ¬ bot_conditions_distinct (owned "w" six_at_once).
Proof.
  split.
  - eexists. split; [vm_compute; left|]. done.
  - intros (_ & Hd & _). vm_compute in Hd. lia.
Qed.

(** C2, amended. A wallet reported by [analyze] is flagged as a bot exactly
    when it owns more than 5 transactions, at least 2 of them carry a
    timestamp, and the mean of the consecutive gaps between these
    timestamps in ascending order is below 30 seconds.  Ten transactions
    5 seconds apart are flagged; ten transactions 120 seconds apart are
    not. *)
Theorem bot_rule :
  (∀ (txns : list Transaction) (holders : Py.pyval) (d : detail),
     d ∈ trader_details (analyze txns holders) →
     (is_bot d = true ↔ bot_conditions (owned (wallet d) txns)))
  ∧ reported is_bot "bot_wallet" (spaced "bot_wallet" 10 5)
  ∧ ¬ reported is_bot "real_wallet" (spaced "real_wallet" 10 120).
Proof.
  split_and!.
  - intros txns holders d Hd.
    destruct (analyze_detail _ _ _ Hd) as (_ & -> & _).
    apply _is_bot_conditions.
  - eexists. split; [vm_compute; left|]. done.
  - intros (d & Hd & _ & Hb). vm_compute in Hd.
    apply list_elem_of_singleton in Hd as ->. done.
Qed.

(** The fast wallet of the sample meets the three conditions. *)
Lemma bot_rule_witness : bot_conditions (owned "bot_wallet" (spaced "bot_wallet" 10 5)).
Proof.
  apply (proj1 bot_rule (spaced "bot_wallet" 10 5) Py.PNone
           (Detail "bot_wallet" bot 10 true false false)).
  - vm_compute. left.
  - done.
Defined.

End BotFacts.

Section WashFacts.
Import TraderAnalyzer.
#[local] Open Scope nat_scope.

Lemma transfer_events_cons (m : string) (t : Z) (tr : Transfer) transfers :
  transfer_events m t (tr :: transfers)
  = transfer_events m t [tr] ++ transfer_events m t transfers.
Proof. unfold transfer_events. simpl. by destruct (decide (mint tr = Some m)). Qed.

Lemma transfer_event_get (m : string) (t : Z) events (tr : Transfer) :
  dict_get m (transfer_event t events tr)
  = dict_get m events ++ (if decide (m = "") then [] else transfer_events m t [tr]).
Proof.
  unfold transfer_event, transfer_events. simpl.
  destruct (mint tr) as [k|] eqn:Ek.
  - destruct (String.eqb_spec k "") as [->|Hk].
    + destruct (decide (m = "")) as [->|Hm]; [by rewrite app_nil_r|].
      rewrite decide_False by congruence. by rewrite app_nil_r.
    + rewrite dict_get_append. destruct (decide (m = k)) as [->|Hne].
      * rewrite decide_False by done. by rewrite decide_True.
      * destruct (decide (m = "")); [by rewrite app_nil_r|].
        rewrite decide_False by congruence. by rewrite app_nil_r.
  - destruct (decide (m = "")); [by rewrite app_nil_r|].
    rewrite decide_False by done. by rewrite app_nil_r.
Qed.

Lemma transfer_event_NoDup (t : Z) events (tr : Transfer) :
  NoDup events.*1 → NoDup (transfer_event t events tr).*1.
Proof.
  intros Hnd. unfold transfer_event. destruct (mint tr) as [k|]; [|done].
  destruct (String.eqb k ""); [done|]. by apply dict_append_NoDup.
Qed.

Lemma transfers_fold_get (m : string) (t : Z) (transfers : list Transfer) events :
  dict_get m (foldl (transfer_event t) events transfers)
  = dict_get m events ++ (if decide (m = "") then [] else transfer_events m t transfers).
Proof.
  revert events. induction transfers as [|tr transfers IH]; intros events; cbn [foldl].
  - destruct (decide (m = "")); by rewrite app_nil_r.
  - rewrite IH, transfer_event_get, (transfer_events_cons m t tr transfers).
    destruct (decide (m = "")); by rewrite <- !app_assoc.
Qed.

Lemma transfers_fold_NoDup (t : Z) (transfers : list Transfer) events :
  NoDup events.*1 → NoDup (foldl (transfer_event t) events transfers).*1.
Proof.
  revert events. induction transfers as [|tr transfers IH]; intros events Hnd; simpl;
    [done|]. by apply IH, transfer_event_NoDup.
Qed.

Lemma events_fold_get (m : string) (txns : list Transaction) events :
  dict_get m (foldl (fun events txn =>
                       match timestamp txn with
                       | None => events
                       | Some t => foldl (transfer_event t) events (tokenTransfers txn)
                       end) events txns)
  = dict_get m events ++ (if decide (m = "") then [] else mint_events m txns).
Proof.
  revert events. induction txns as [|txn txns IH]; intros events.
  - simpl. destruct (decide (m = "")); by rewrite app_nil_r.
  - simpl foldl. rewrite IH. unfold mint_events. rewrite bind_cons.
    destruct (timestamp txn) as [t|].
    + rewrite transfers_fold_get. destruct (decide (m = "")); by rewrite <- !app_assoc.
    + done.
Qed.

Lemma events_fold_NoDup (txns : list Transaction) (events : list (string * list event)) :
  NoDup events.*1 →
  NoDup (foldl (fun events txn =>
                  match timestamp txn with
                  | None => events
                  | Some t => foldl (transfer_event t) events (tokenTransfers txn)
                  end) events txns).*1.
Proof.
  revert events. induction txns as [|txn txns IH]; intros events Hnd; simpl; [done|].
  apply IH. destruct (timestamp txn); [by apply transfers_fold_NoDup | done].
Qed.

(** The timeline kept for a mint holds the events of that mint, in the order
    of the transactions and of their transfers; no timeline is kept under
    the empty mint. *)
Lemma build_events_get (m : string) (txns : list Transaction) :
  dict_get m (build_events txns) = if decide (m = "") then [] else mint_events m txns.
Proof. unfold build_events. by rewrite events_fold_get. Qed.

Lemma build_events_entry (m : string) (evs : list event) (txns : list Transaction) :
  (m, evs) ∈ build_events txns →
  evs = if decide (m = "") then [] else mint_events m txns.
Proof.
  intros Hin. rewrite <- build_events_get.
  symmetry. apply dict_get_elem; [|done].
  apply events_fold_NoDup. constructor.
Qed.

(** The loop of [_count_buy_sell_cycles] is the scan of the rule. *)
Lemma cycle_fold_scan (events : list event) (cycles : nat) (pending : option Z) :
  ∃ n, (foldl cycle_step (cycles, pending) events).1 = cycles + n
       ∧ scan pending events n.
Proof.
  revert cycles pending. induction events as [|e events IH]; intros cycles pending.
  - exists 0. simpl. split; [lia | constructor].
  - simpl foldl. unfold cycle_step at 2. simpl.
    destruct (dir e) eqn:Ed.
    + destruct (IH cycles (Some (ts e))) as (n & Hn & Hs).
      exists n. split; [done | by apply scan_buy].
    + destruct pending as [bought_at|].
      * unfold WASH_WINDOW_SECS. destruct (Z.leb_spec (ts e - bought_at) 3600).
        -- destruct (IH (S cycles) None) as (n & Hn & Hs).
           exists (S n). split; [lia | by apply scan_sell_cycle].
        -- destruct (IH cycles (Some bought_at)) as (n & Hn & Hs).
           exists n. split; [done | by apply scan_sell_late].
      * destruct (IH cycles None) as (n & Hn & Hs).
        exists n. split; [done | by apply scan_sell_idle].
Qed.

Lemma scan_functional (pending : option Z) (events : list event) (n n' : nat) :
  scan pending events n → scan pending events n' → n = n'.
Proof.
  intros H. revert n'.
  induction H; intros n' H'; inversion H'; subst;
    try congruence; try lia; auto.
Qed.

Lemma _count_buy_sell_cycles_scan (events : list event) (n : nat) :
  _count_buy_sell_cycles events = n ↔ scan None events n.
Proof.
  unfold _count_buy_sell_cycles.
  destruct (cycle_fold_scan events 0 None) as (n0 & Hn & Hs). simpl in Hn.
  split.
  - intros <-. by rewrite Hn.
  - intros Hs'. rewrite Hn. by eapply scan_functional.
Qed.

Lemma scan_nil_inv (pending : option Z) (n : nat) : scan pending [] n → n = 0.
Proof. by inversion 1. Qed.

(** The wash-trader test of a list of owned transactions. *)
Lemma _is_wash_trader_conditions (mine all_txns : list Transaction) :
  _is_wash_trader mine all_txns = true ↔ wash_conditions mine.
Proof.
  unfold _is_wash_trader, wash_conditions, WASH_MIN_CYCLES, chronological.
  change (2 * 2) with 4.
  destruct (Nat.ltb_spec (length mine) 4) as [Hlt|Hge].
  { split; [done | intros [? _]; lia]. }
  rewrite existsb_exists. split.
  - intros ([m evs] & Hin & Hc). split; [done|].
    apply list_elem_of_In, build_events_entry in Hin. cbn [snd] in Hc.
    apply Nat.leb_le in Hc.
    destruct (decide (m = "")) as [->|Hm].
    { subst evs. vm_compute in Hc. lia. }
    subst evs. exists m, (_count_buy_sell_cycles (sorted_asc ts (mint_events m mine))).
    split_and!; [done | by apply _count_buy_sell_cycles_scan | done].
  - intros (_ & m & n & Hm & Hs & Hn).
    apply _count_buy_sell_cycles_scan in Hs.
    assert (dict_get m (build_events mine) = mint_events m mine) as Hget.
    { rewrite build_events_get. by rewrite decide_False. }
    assert (m ∈ (build_events mine).*1) as Hk.
    { destruct (decide (m ∈ (build_events mine).*1)) as [|Hn']; [done|].
      apply dict_get_absent in Hn'. rewrite Hget in Hn'. rewrite Hn' in Hs.
      vm_compute in Hs. lia. }
    apply dict_elem_get in Hk. rewrite Hget in Hk.
    exists (m, mint_events m mine). split; [by apply list_elem_of_In|].
    cbn [snd]. apply Nat.leb_le. lia.
Qed.

(** C6. A wallet reported by [analyze] that owns at least 4 transactions is
    flagged as a wash trader exactly when, for some mint, the scan of that
    mint's events in time order completes at least 2 cycles; a wallet that
    owns fewer than 4 transactions is never flagged. *)
Theorem wash_trader_rule (txns : list Transaction) (holders : Py.pyval) (d : detail) :
  d ∈ trader_details (analyze txns holders) →
  (4 ≤ length (owned (wallet d) txns) →
   (is_wash_trader d = true
    ↔ ∃ m n, m ≠ ""
             ∧ scan None (chronological (mint_events m (owned (wallet d) txns))) n
             ∧ 2 ≤ n))
  ∧ (length (owned (wallet d) txns) < 4 → is_wash_trader d = false).
Proof.
  intros Hd. destruct (analyze_detail _ _ _ Hd) as (_ & _ & -> & _).
  pose proof (_is_wash_trader_conditions (owned (wallet d) txns) txns) as Hw.
  unfold wash_conditions in Hw. split.
  - intros Hlen. rewrite Hw. tauto.
  - intros Hlen. apply not_true_is_false. rewrite Hw. intros [? _]. lia.
Qed.

(** Two round trips of ten minutes each complete two cycles. *)
Lemma wash_trader_rule_witness :
  (is_wash_trader (Detail "wash" wash_trader 4 false true false) = true
   ↔ ∃ m n, m ≠ ""
            ∧ scan None (chronological (mint_events m (owned "wash" two_round_trips))) n
            ∧ 2 ≤ n)
  ∧ (length (owned "wash" two_round_trips) < 4 →
     is_wash_trader (Detail "wash" wash_trader 4 false true false) = false).
Proof.
  split.
  - apply (wash_trader_rule two_round_trips Py.PNone
             (Detail "wash" wash_trader 4 false true false)).
    + vm_compute. left.
    + vm_compute. lia.
  - apply (wash_trader_rule two_round_trips Py.PNone
             (Detail "wash" wash_trader 4 false true false)).
    vm_compute. left.
Defined.

End WashFacts.

Section SybilFacts.
Import TraderAnalyzer.
#[local] Open Scope nat_scope.

Lemma record_amount_get (s s' : Z) (amounts : gmap Z (list Q)) (tr : Transfer) :
  default [] (record_amount s' amounts tr !! s)
  = default [] (amounts !! s)
    ++ (if decide (s = s') then option_list (numeric_amount tr) else []).
Proof.
  unfold record_amount, numeric_amount.
  destruct (decide (s = s')) as [->|Hne].
  - destruct (tokenAmount tr) eqn:Ea; simpl;
      try (destruct (Py.float_of_string _));
      rewrite ?lookup_insert_eq, ?app_nil_r; done.
  - destruct (tokenAmount tr) eqn:Ea; simpl;
      try (destruct (Py.float_of_string _));
      rewrite ?lookup_insert_ne, ?app_nil_r by done; done.
Qed.

Lemma record_amounts_get (s s' : Z) (transfers : list Transfer)
    (amounts : gmap Z (list Q)) :
  default [] (foldl (record_amount s') amounts transfers !! s)
  = default [] (amounts !! s)
    ++ (if decide (s = s') then omap numeric_amount transfers else []).
Proof.
  revert amounts. induction transfers as [|tr transfers IH]; intros amounts; cbn [foldl].
  - destruct (decide (s = s')); by rewrite app_nil_r.
  - rewrite IH, record_amount_get. destruct (decide (s = s')); [|by rewrite !app_nil_r].
    rewrite <- app_assoc. f_equal. simpl. by destruct (numeric_amount tr).
Qed.

Lemma sybil_fold_wallets (w : string) (s : Z) (txns : list Transaction)
    (st : gmap Z (gset string) * gmap Z (list Q)) :
  w ∈ default ∅ ((foldl sybil_step st txns).1 !! s)
  ↔ w ∈ default ∅ (st.1 !! s)
    ∨ ∃ t, t ∈ txns ∧ slot t = Some s ∧ payer t = Some w.
Proof.
  revert st. induction txns as [|t txns IH]; intros st; cbn [foldl].
  - split; [by left | intros [?|(t & Ht & _)]; [done | by apply elem_of_nil in Ht]].
  - rewrite IH. unfold sybil_step.
    destruct (slot t) as [s'|] eqn:Es; [destruct (payer t) as [fp|] eqn:Ep|]; cbn [fst].
    + destruct (decide (s' = s)) as [->|Hne].
      * rewrite lookup_insert_eq. cbn [from_option id]. rewrite elem_of_union, elem_of_singleton.
        split.
        -- intros [[?| ->]|(t' & Ht' & ?)]; [by left | |].
           ++ right. exists t. split; [left | done].
           ++ right. exists t'. split; [by right | done].
        -- intros [?|(t' & Ht' & Hs' & Hp')]; [by left; left|].
           apply elem_of_cons in Ht' as [->|Ht'].
           ++ left. right. congruence.
           ++ right. by exists t'.
      * rewrite lookup_insert_ne by done. split.
        -- intros [?|(t' & Ht' & ?)]; [by left|].
           right. exists t'. split; [by right | done].
        -- intros [?|(t' & Ht' & Hs' & Hp')]; [by left|].
           apply elem_of_cons in Ht' as [->|Ht']; [congruence|].
           right. by exists t'.
    + split.
      * intros [?|(t' & Ht' & ?)]; [by left|].
        right. exists t'. split; [by right | done].
      * intros [?|(t' & Ht' & Hs' & Hp')]; [by left|].
        apply elem_of_cons in Ht' as [->|Ht']; [congruence|].
        right. by exists t'.
    + split.
      * intros [?|(t' & Ht' & ?)]; [by left|].
        right. exists t'. split; [by right | done].
      * intros [?|(t' & Ht' & Hs' & Hp')]; [by left|].
        apply elem_of_cons in Ht' as [->|Ht']; [congruence|].
        right. by exists t'.
Qed.

Lemma paid_slot_cons (s : Z) (t : Transaction) (txns : list Transaction) :
  amounts_of (paid (slot_txns s (t :: txns)))
  = (if decide (slot t = Some s ∧ is_Some (payer t))
     then omap numeric_amount (tokenTransfers t) else [])
    ++ amounts_of (paid (slot_txns s txns)).
Proof.
  unfold amounts_of, paid, slot_txns. rewrite filter_cons.
  destruct (decide (slot t = Some s)) as [Hs|Hs].
  - rewrite filter_cons. destruct (decide (is_Some (payer t))) as [Hp|Hp].
    + rewrite decide_True by done. by rewrite bind_cons.
    + rewrite decide_False by tauto. done.
  - rewrite decide_False by tauto. done.
Qed.

Lemma sybil_fold_amounts (s : Z) (txns : list Transaction)
    (st : gmap Z (gset string) * gmap Z (list Q)) :
  default [] ((foldl sybil_step st txns).2 !! s)
  = default [] (st.2 !! s) ++ amounts_of (paid (slot_txns s txns)).
Proof.
  revert st. induction txns as [|t txns IH]; intros st; cbn [foldl].
  - by rewrite app_nil_r.
  - rewrite IH, paid_slot_cons. unfold sybil_step.
    destruct (slot t) as [s'|] eqn:Es; [destruct (payer t) as [fp|] eqn:Ep|]; cbn [snd].
    + rewrite record_amounts_get. destruct (decide (s = s')) as [->|Hne].
      * rewrite decide_True by (split; [done | by eexists]). by rewrite app_assoc.
      * rewrite decide_False by (intros [[= ?] _]; done). by rewrite app_nil_r.
    + rewrite decide_False by (intros [_ [? ?]]; done). done.
    + rewrite decide_False by (intros [? _]; done). done.
Qed.

(** The two indices built by [_is_sybil]: per slot, the distinct fee payers
    and the numeric amounts moved by the transactions that have a fee
    payer. *)
Lemma sybil_index (txns : list Transaction) (s : Z) :
  default ∅ ((foldl sybil_step (∅, ∅) txns).1 !! s) = slot_payers s txns
  ∧ default [] ((foldl sybil_step (∅, ∅) txns).2 !! s)
    = amounts_of (paid (slot_txns s txns)).
Proof.
  split.
  - apply set_eq. intros w. rewrite sybil_fold_wallets.
    unfold slot_payers. rewrite fee_payers_payer. cbn [fst].
    rewrite lookup_empty. cbn [from_option id]. split.
    + intros [Hw|(t & Ht & Hs & Hp)]; [by apply not_elem_of_empty in Hw|].
      exists t. split; [|done]. apply list_elem_of_filter. done.
    + intros (t & [Hs Ht]%list_elem_of_filter & Hp). right. by exists t.
  - rewrite sybil_fold_amounts. cbn [snd]. by rewrite lookup_empty.
Qed.

(** The sybil test of a wallet. *)
Lemma _is_sybil_conditions (w : string) (all_wallets : list string)
    (txns : list Transaction) :
  _is_sybil w all_wallets txns = true
  ↔ sybil_conditions (fun s => amounts_of (paid (slot_txns s txns))) w txns.
Proof.
  unfold _is_sybil, sybil_conditions.
  pose proof (sybil_index txns) as Hidx.
  destruct (foldl sybil_step (∅, ∅) txns) as [sw sa]. cbn [fst snd] in Hidx.
  rewrite existsb_exists.
  assert (∀ s ws, sw !! s = Some ws →
            (sybil_slot w sa (s, ws) = true
             ↔ w ∈ slot_payers s txns
               ∧ 3 ≤ size (slot_payers s txns ∖ {[w]})
               ∧ near_identical (amounts_of (paid (slot_txns s txns))))) as Hslot.
  { intros s ws Hs. destruct (Hidx s) as [Hw Ha]. rewrite Hs in Hw. cbn [from_option id] in Hw.
    unfold sybil_slot, near_identical, SYBIL_CLUSTER_SIZE. cbn [fst snd].
    rewrite Ha, Hw. case_bool_decide as Hin; cbn [negb]; [|split; [done | tauto]].
    destruct (Nat.ltb_spec (size (slot_payers s txns ∖ {[w]})) 3);
      [split; [done | lia]|].
    destruct (Nat.ltb_spec 1 (length (amounts_of (paid (slot_txns s txns)))));
      [|split; [done | lia]].
    rewrite Nat.leb_le. split; [intros ?; split_and!; [done | lia | lia | done] | tauto]. }
  split.
  - intros ([s ws] & Hin & Hs).
    apply list_elem_of_In, elem_of_map_to_list in Hin.
    exists s. by apply (Hslot s ws Hin).
  - intros (s & Hw & Hrest).
    destruct (sw !! s) as [ws|] eqn:Es.
    + exists (s, ws). split; [by apply list_elem_of_In, elem_of_map_to_list|].
      by apply (Hslot s ws Es).
    + exfalso. destruct (Hidx s) as [Hw' _]. rewrite Es in Hw'. cbn [from_option] in Hw'.
      rewrite <- Hw' in Hw. by apply not_elem_of_empty in Hw.
Qed.

(** [unique_amounts] keeps one representative of each value. *)
Lemma unique_amounts_spec (amounts : list Q) :
  (∀ a, a ∈ amounts → ∃ b, b ∈ unique_amounts amounts ∧ (a == b)%Q)
  ∧ (∀ b, b ∈ unique_amounts amounts → b ∈ amounts)
  ∧ (∀ i j a b, unique_amounts amounts !! i = Some a →
                unique_amounts amounts !! j = Some b → (a == b)%Q → i = j).
Proof.
  induction amounts as [|x amounts (IH1 & IH2 & IH3)]; simpl.
  { split_and!; [by intros a ?%elem_of_nil | by intros a ?%elem_of_nil | done]. }
  destruct (existsb (Qeq_bool x) amounts) eqn:E.
  - apply existsb_exists in E as (y & Hy & Hxy).
    apply list_elem_of_In in Hy. apply Qeq_bool_iff in Hxy.
    split_and!; [| |done].
    + intros a [->|Ha]%elem_of_cons; [|by apply IH1].
      destruct (IH1 y Hy) as (b & Hb & Hyb). exists b. split; [done|].
      by rewrite Hxy.
    + intros b Hb. right. by apply IH2.
  - assert (∀ y, y ∈ amounts → ¬ (x == y)%Q) as Hfresh.
    { intros y Hy Hxy. apply not_true_iff_false in E. apply E.
      apply existsb_exists. exists y.
      split; [by apply list_elem_of_In | by apply Qeq_bool_iff]. }
    split_and!.
    + intros a [->|Ha]%elem_of_cons.
      * exists x. split; [left | reflexivity].
      * destruct (IH1 a Ha) as (b & Hb & Hab). exists b. split; [by right | done].
    + intros b [->|Hb]%elem_of_cons; [left | right; by apply IH2].
    + intros [|i] [|j] a b; simpl; intros Ha Hb Hab; [done | | |].
      * injection Ha as <-. exfalso. apply (Hfresh b); [|done].
        apply IH2. by eapply list_elem_of_lookup_2.
      * injection Hb as <-. exfalso. apply (Hfresh a); [|by symmetry].
        apply IH2. by eapply list_elem_of_lookup_2.
      * f_equal. by eapply IH3.
Qed.




End SybilFacts.

(** ** The fee payer of a transaction *)

Section FeePayerFacts.
Import BundlerDetector TraderAnalyzer.
#[local] Open Scope nat_scope.




End FeePayerFacts.

(** * Further properties *)

(** ** Bundle detection *)

Section BundlerMore.
Import BundlerDetector.
#[local] Open Scope nat_scope.

Lemma sort_by_filter_stable {A} (before : A → A → bool) (P : A → Prop)
    `{∀ x, Decision (P x)} (l : list A) :
  (∀ x y, P x → P y → before x y = true) →
  filter P (sort_by before l) = filter P l.
Proof.
  intros Hbefore.
  assert (∀ x l', filter P (insert_sorted before x l') = filter P (x :: l')) as Hins.
  { intros x l'. induction l' as [|y l' IH]; simpl; [done|].
    destruct (before x y) eqn:E; [done|].
    rewrite filter_cons, IH, !filter_cons.
    destruct (decide (P y)), (decide (P x)); try done.
    rewrite Hbefore in E; done. }
  induction l as [|x l IH]; simpl; [done|].
  by rewrite Hins, !filter_cons, IH.
Qed.

Lemma fee_payers_fold_size (txns : list Transaction) (ws : gset string) :
  size (foldl (fun ws txn => match payer txn with
                             | Some fp => ws ∪ {[fp]}
                             | None => ws
                             end) ws txns)
  ≤ size ws + length txns.
Proof.
  revert ws. induction txns as [|t txns IH]; intros ws; simpl; [lia|].
  etrans; [apply IH|]. destruct (payer t) as [fp|]; [|lia].
  rewrite size_union_alt.
  assert (size (({[fp]} : gset string) ∖ ws) ≤ 1); [|lia].
  rewrite <- (size_singleton (C:=gset string) fp). apply subseteq_size.
  by intros x [? _]%elem_of_difference.
Qed.

Lemma fee_payers_size (txns : list Transaction) :
  size (fee_payers txns) ≤ length txns.
Proof.
  unfold fee_payers. etrans; [apply fee_payers_fold_size|].
  rewrite size_empty. lia.
Qed.

(** The bundles of the report, read off the slot groups. *)
Lemma detect_groups (txns : list Transaction) :
  bundle_groups (detect txns)
  = mark (early_slots_of (_group_by_slot txns))
      <$> _identify_bundles (_group_by_slot txns).
Proof. by destruct txns. Qed.

(** A bundle is a duplicate-free set of at least three wallets, no larger
    than the number of transactions of its slot. *)
Theorem bundle_is_a_set_of_three (txns : list Transaction) (b : bundle) :
  b ∈ bundle_groups (detect txns) →
  3 ≤ bundle_size b
  ∧ length (wallets b) = bundle_size b
  ∧ NoDup (wallets b)
  ∧ (∀ w, w ∈ wallets b → w ≠ "")
  ∧ bundle_size b ≤ txn_count b.
Proof.
  intros Hb. pose proof (bundle_wallet_pays txns b) as Hpays.
  apply detect_bundle in Hb as Hb'.
  destruct Hb' as (ws & -> & _ & H3 & Hw & Hsize & Hcount & _).
  rewrite Hw, Hsize, Hcount. split_and!.
  - done.
  - done.
  - apply NoDup_elements.
  - intros w Hin. rewrite <- Hw in Hin.
    apply (Hpays w Hb) in Hin as (t & _ & _ & Hne & _). done.
  - apply fee_payers_size.
Qed.

Lemma bundle_is_a_set_of_three_witness :
  let b := Bundle 7 (elements ({["a"; "b"; "c"]} : gset string)) 3 3 true in
  3 ≤ bundle_size b
  ∧ length (wallets b) = bundle_size b
  ∧ NoDup (wallets b)
  ∧ (∀ w, w ∈ wallets b → w ≠ "")
  ∧ bundle_size b ≤ txn_count b.
Proof.
  apply (bundle_is_a_set_of_three early_bundle).
  vm_compute. left.
Defined.

Lemma filter_all {A} (l : list A) : filter (fun _ => True) l = l.
Proof. induction l as [|x l IH]; [done|]. by rewrite filter_cons_True, IH. Qed.

Lemma mark_size (e : gset Z) (b : bundle) : bundle_size (mark e b) = bundle_size b.
Proof. done. Qed.

Lemma mark_slot (e : gset Z) (b : bundle) : bundle_slot (mark e b) = bundle_slot b.
Proof. done. Qed.

Lemma first_seen_fold {A} `{EqDecision A} (l seen : list A) :
  NoDup seen →
  NoDup (foldl (fun seen x => if decide (x ∈ seen) then seen else seen ++ [x]) seen l).
Proof.
  revert seen. induction l as [|x l IH]; intros seen Hnd; simpl; [done|].
  apply IH. destruct (decide (x ∈ seen)); [done|].
  apply NoDup_app. split_and!; [done| |apply NoDup_singleton].
  intros y Hy Hy'. apply list_elem_of_singleton in Hy' as ->. done.
Qed.

Lemma group_fold_first_seen (txns : list Transaction) (g : list (Z * list Transaction)) :
  (foldl (fun groups txn =>
            match slot txn with
            | Some s => dict_append s txn groups
            | None => groups
            end) g txns).*1
  = foldl (fun seen x => if decide (x ∈ seen) then seen else seen ++ [x]) g.*1
      (omap slot txns).
Proof.
  revert g. induction txns as [|t txns IH]; intros g; simpl; [done|].
  rewrite IH. destruct (slot t) as [s|]; simpl; [|done].
  by rewrite dict_append_keys.
Qed.

(** The slot groups are kept in the order in which the slots are first met
    in the input. *)
Lemma _group_by_slot_order (txns : list Transaction) :
  (_group_by_slot txns).*1 = first_seen (omap slot txns).
Proof. apply group_fold_first_seen. Qed.

Lemma bundle_of_slot (g : Z * list Transaction) (b : bundle) :
  bundle_of g = Some b → bundle_slot b = g.1.
Proof.
  unfold bundle_of. destruct (Nat.leb _ _); [|done]. by intros [= <-].
Qed.

Lemma bundles_sublist (P : bundle → Prop) `{∀ b, Decision (P b)}
    (groups : list (Z * list Transaction)) :
  bundle_slot <$> filter P (omap bundle_of groups) `sublist_of` groups.*1.
Proof.
  induction groups as [|g groups IH]; simpl; [done|].
  destruct (bundle_of g) as [b|] eqn:E; simpl.
  - rewrite filter_cons. destruct (decide (P b)); csimpl.
    + rewrite (bundle_of_slot _ _ E). by apply sublist_skip.
    + by apply sublist_cons.
  - by apply sublist_cons.
Qed.

Lemma marked_slots_of_size (e : gset Z) (k : nat) (l : list bundle) :
  bundle_slot <$> filter (fun b => bundle_size b = k) (mark e <$> l)
  = bundle_slot <$> filter (fun b => bundle_size b = k) l.
Proof.
  induction l as [|b l IH]; [done|].
  rewrite fmap_cons, !filter_cons, mark_size.
  destruct (decide (bundle_size b = k)); csimpl; by rewrite IH.
Qed.

Lemma marked_slots (e : gset Z) (l : list bundle) :
  bundle_slot <$> (mark e <$> l) = bundle_slot <$> l.
Proof. induction l as [|b l IH]; [done|]. csimpl. by rewrite IH. Qed.

(** The bundles are listed by decreasing size, and bundles of one size in
    the order in which their slots are first met in the input. *)
Theorem bundles_by_size_then_first_seen (txns : list Transaction) :
  StronglySorted (fun a b => bundle_size b ≤ bundle_size a)
    (bundle_groups (detect txns))
  ∧ ∀ k, bundle_slot <$> filter (fun b => bundle_size b = k)
                           (bundle_groups (detect txns))
         `sublist_of` first_seen (omap slot txns).
Proof.
  rewrite detect_groups. split.
  - apply (StronglySorted_fmap (mark (early_slots_of (_group_by_slot txns)))
             (fun a b => bundle_size b ≤ bundle_size a)
             (fun a b => bundle_size b ≤ bundle_size a)); [done|].
    unfold _identify_bundles, sorted_desc.
    set (l := omap bundle_of (_group_by_slot txns)).
    assert (StronglySorted (fun a b => Nat.leb (bundle_size b) (bundle_size a) = true)
              (sort_by (fun x y => Nat.leb (bundle_size y) (bundle_size x)) l)) as Hs.
    { apply sort_by_sorted.
      - intros x y. rewrite !Nat.leb_le. lia.
      - intros x y z. rewrite !Nat.leb_le. lia. }
    induction Hs as [|x l' Hs IH Hx]; constructor; [done|].
    eapply Forall_impl; [exact Hx|]. intros y Hy. by apply Nat.leb_le.
  - intros k.
    rewrite <- _group_by_slot_order.
    rewrite marked_slots_of_size.
    unfold _identify_bundles, sorted_desc.
    rewrite sort_by_filter_stable.
    + apply bundles_sublist.
    + intros x y -> ->. by apply Nat.leb_le.
Qed.

(** A slot gives a bundle exactly when at least three distinct wallets pay
    in it, and no slot gives two bundles. *)
Theorem bundle_iff_three_payers (txns : list Transaction) :
  (∀ s, (∃ b, b ∈ bundle_groups (detect txns) ∧ bundle_slot b = s)
        ↔ 3 ≤ size (slot_payers s txns))
  ∧ NoDup (bundle_slot <$> bundle_groups (detect txns)).
Proof.
  split.
  - intros s. split.
    + intros (b & Hb & <-).
      by apply detect_bundle in Hb as (ws & -> & _ & ? & _).
    + apply detect_bundle_of_slot.
  - rewrite detect_groups.
    rewrite marked_slots.
    unfold _identify_bundles. rewrite sorted_desc_perm.
    eapply sublist_NoDup; [apply _group_by_slot_NoDup|].
    pose proof (bundles_sublist (fun _ => True) (_group_by_slot txns)) as Hsub.
    by rewrite filter_all in Hsub.
Qed.

Lemma detect_counters (txns : list Transaction) :
  total_bundles (detect txns) = length (bundle_groups (detect txns))
  ∧ suspicious_bundles (detect txns)
    = length (filter (fun b => suspicious b = true) (bundle_groups (detect txns))).
Proof. by destruct txns. Qed.

Lemma slot_set_size (txns : list Transaction) :
  length (_group_by_slot txns).*1 = size (list_to_set (omap slot txns) : gset Z).
Proof.
  rewrite <- (size_list_to_set (C:=gset Z)) by apply _group_by_slot_NoDup.
  f_equal. apply set_eq. intros k.
  rewrite !elem_of_list_to_set, _group_by_slot_keys, list_elem_of_omap. done.
Qed.

(** The count of suspicious bundles never exceeds the count of bundles, and
    when the input has at most 10 distinct slots every bundle is
    suspicious. *)
Theorem few_slots_all_suspicious (txns : list Transaction) :
  suspicious_bundles (detect txns) ≤ total_bundles (detect txns)
  ∧ (size (list_to_set (omap slot txns) : gset Z) ≤ 10 →
     (∀ b, b ∈ bundle_groups (detect txns) → suspicious b = true)
     ∧ suspicious_bundles (detect txns) = total_bundles (detect txns)).
Proof.
  destruct (detect_counters txns) as [-> ->]. split; [apply length_filter|].
  intros Hfew.
  assert (∀ b, b ∈ bundle_groups (detect txns) → suspicious b = true) as Hall.
  { intros b Hb.
    apply detect_bundle in Hb as (ws & _ & Hslot & _ & _ & _ & _ & ->).
    unfold _is_suspicious_bundle, early_slots_of, EARLY_SLOT_WINDOW.
    destruct (Nat.leb SUSPICIOUS_MIN_SIZE (bundle_size b)); [done|].
    rewrite bool_decide_eq_true_2; [done|].
    apply elem_of_list_to_set. rewrite take_ge.
    - rewrite sorted_asc_perm. by apply _group_by_slot_keys.
    - unfold sorted_asc. rewrite sort_by_length, slot_set_size. done. }
  split; [done|].
  induction (bundle_groups (detect txns)) as [|b l IH]; [done|].
  rewrite filter_cons_True by (apply Hall; left). simpl. f_equal.
  apply IH. intros b' Hb'. apply Hall. by right.
Qed.

Lemma few_slots_all_suspicious_witness :
  suspicious_bundles (detect early_bundle) ≤ total_bundles (detect early_bundle)
  ∧ (∀ b, b ∈ bundle_groups (detect early_bundle) → suspicious b = true)
  ∧ suspicious_bundles (detect early_bundle) = total_bundles (detect early_bundle).
Proof.
  destruct (few_slots_all_suspicious early_bundle) as [Hle Hfew].
  split; [exact Hle|]. apply Hfew. vm_compute. lia.
Defined.

Lemma _group_by_slot_without_slot (pre post : list Transaction) (t : Transaction) :
  slot t = None → _group_by_slot (pre ++ t :: post) = _group_by_slot (pre ++ post).
Proof.
  intros Hs. unfold _group_by_slot. rewrite !foldl_app. simpl. by rewrite Hs.
Qed.

(** A transaction without slot takes no part in the bundle analysis: the
    bundles, their flags and their counts are those of the input without
    it. *)
Theorem slotless_transaction_ignored (pre post : list Transaction) (t : Transaction) :
  slot t = None →
  bundle_groups (detect (pre ++ t :: post)) = bundle_groups (detect (pre ++ post))
  ∧ total_bundles (detect (pre ++ t :: post)) = total_bundles (detect (pre ++ post))
  ∧ suspicious_bundles (detect (pre ++ t :: post))
    = suspicious_bundles (detect (pre ++ post)).
Proof.
  intros Hs.
  assert (bundle_groups (detect (pre ++ t :: post))
          = bundle_groups (detect (pre ++ post))) as Hg.
  { by rewrite !detect_groups, _group_by_slot_without_slot. }
  destruct (detect_counters (pre ++ t :: post)) as [-> ->].
  destruct (detect_counters (pre ++ post)) as [-> ->].
  by rewrite Hg.
Qed.

Lemma slotless_transaction_ignored_witness :
  let t := {| feePayer := Some "d"; fee_payer := None; slot := None;
              timestamp := None; tokenTransfers := [] |} in
  bundle_groups (detect (early_bundle ++ t :: []))
  = bundle_groups (detect (early_bundle ++ []))
  ∧ total_bundles (detect (early_bundle ++ t :: []))
    = total_bundles (detect (early_bundle ++ []))
  ∧ suspicious_bundles (detect (early_bundle ++ t :: []))
    = suspicious_bundles (detect (early_bundle ++ [])).
Proof.
  apply (slotless_transaction_ignored early_bundle []). reflexivity.
Defined.

End BundlerMore.

(** ** Wallet classification *)

Section TraderMore.
Import TraderAnalyzer.
#[local] Open Scope nat_scope.

Lemma register_keys m (addr : option string) (w : string) :
  w ∈ (register m addr).*1 ↔ w ∈ m.*1 ∨ (addr = Some w ∧ w ≠ "").
Proof.
  unfold register. destruct addr as [a|].
  - destruct (String.eqb_spec a "") as [->|Hne].
    + split; [by left | intros [?|[[= <-] ?]]; done].
    + case_bool_decide as Hin.
      * split; [by left | intros [?|[[= <-] ?]]; done].
      * rewrite fmap_app, elem_of_app. csimpl. rewrite list_elem_of_singleton.
        split; [intros [?| ->]; [by left | by right] | intros [?|[[= <-] ?]]; [by left | by right]].
  - split; [by left | intros [?|[? ?]]; done].
Qed.

Lemma registers_keys (w : string) (transfers : list Transfer) m :
  w ∈ (foldl register_transfer m transfers).*1
  ↔ w ∈ m.*1
    ∨ (w ≠ "" ∧ ∃ tr, tr ∈ transfers
                      ∧ (fromUserAccount tr = Some w ∨ toUserAccount tr = Some w)).
Proof.
  revert m. induction transfers as [|tr transfers IH]; intros m; simpl.
  - split; [by left | intros [?|(_ & tr & Htr & _)]; [done | by apply elem_of_nil in Htr]].
  - rewrite IH. unfold register_transfer. simpl. rewrite !register_keys. split.
    + intros [[[?|[? ?]]|[? ?]]|(Hw & tr' & Htr' & Hm)].
      * by left.
      * right. split; [done|]. exists tr. split; [left | by left].
      * right. split; [done|]. exists tr. split; [left | by right].
      * right. split; [done|]. exists tr'. split; [by right | done].
    + intros [?|(Hw & tr' & Htr' & Hm)]; [by left; left; left|].
      apply elem_of_cons in Htr' as [->|Htr'].
      * destruct Hm as [?|?]; [by left; left; right | by left; right].
      * right. split; [done|]. by exists tr'.
Qed.

Lemma payer_nonempty (t : Transaction) (w : string) : payer t = Some w → w ≠ "".
Proof. intros Hp. by apply payer_pays in Hp as [? _]. Qed.

Lemma collect_keys (w : string) m (t : Transaction) :
  w ∈ (collect m t).*1 ↔ w ∈ m.*1 ∨ (w ≠ "" ∧ mentions w t).
Proof.
  unfold collect, mentions. rewrite registers_keys.
  destruct (payer t) as [fp|] eqn:Ep.
  - rewrite dict_append_elem_key. split.
    + intros [[->|?]|(Hw & Htr)].
      * right. split; [by eapply payer_nonempty | by left].
      * by left.
      * right. split; [done | by right].
    + intros [?|(Hw & [[= ->]|Htr])]; [by left; right | by left; left | by right].
  - split.
    + intros [?|(Hw & Htr)]; [by left | right; split; [done | by right]].
    + intros [?|(Hw & [?|Htr])]; [by left | done | by right].
Qed.

Lemma build_fold_keys (w : string) (txns : list Transaction) m :
  w ∈ (foldl collect m txns).*1
  ↔ w ∈ m.*1 ∨ (w ≠ "" ∧ ∃ t, t ∈ txns ∧ mentions w t).
Proof.
  revert m. induction txns as [|t txns IH]; intros m; simpl.
  - split; [by left | intros [?|(_ & t & Ht & _)]; [done | by apply elem_of_nil in Ht]].
  - rewrite IH, collect_keys. split.
    + intros [[?|[? ?]]|(Hw & t' & Ht' & Hm)].
      * by left.
      * right. split; [done|]. exists t. split; [left | done].
      * right. split; [done|]. exists t'. split; [by right | done].
    + intros [?|(Hw & t' & Ht' & Hm)]; [by left; left|].
      apply elem_of_cons in Ht' as [->|Ht']; [by left; right|].
      right. split; [done|]. by exists t'.
Qed.

Lemma analyze_wallets (txns : list Transaction) (holders : Py.pyval) :
  wallet <$> trader_details (analyze txns holders) = (build_wallet_txns txns).*1.
Proof.
  destruct txns as [|t txns]; [done|].
  unfold analyze. simpl trader_details.
  rewrite <- list_fmap_compose. done.
Qed.

(** The wallets reported are, each once, the non-empty addresses that the
    input names as a fee payer or as an account of a transfer. *)
Theorem wallets_discovered (txns : list Transaction) (holders : Py.pyval) :
  NoDup (wallet <$> trader_details (analyze txns holders))
  ∧ ∀ w, w ∈ wallet <$> trader_details (analyze txns holders)
         ↔ w ≠ "" ∧ ∃ t, t ∈ txns ∧ mentions w t.
Proof.
  rewrite analyze_wallets. split; [apply build_wallet_txns_NoDup|].
  intros w. unfold build_wallet_txns. rewrite build_fold_keys.
  split; [intros [Hw|?]; [by apply elem_of_nil in Hw | done] | by right].
Qed.

Lemma count_label_partition (details : list detail) :
  count_label real details + count_label bot details
  + count_label wash_trader details + count_label sybil details
  = length details.
Proof.
  unfold count_label. induction details as [|d details IH]; [done|].
  rewrite !filter_cons. destruct (wallet_label d); simpl;
    repeat (rewrite decide_True by done || rewrite decide_False by done); simpl; lia.
Qed.

Lemma analyze_counters (txns : list Transaction) (holders : Py.pyval) :
  let r := analyze txns holders in
  total_wallets r = length (trader_details r)
  ∧ real_traders r = count_label real (trader_details r)
  ∧ bots r = count_label bot (trader_details r)
  ∧ wash_traders r = count_label wash_trader (trader_details r)
  ∧ sybil_wallets r = count_label sybil (trader_details r)
  ∧ (bot_percentage r
     == Py.percentage (bots r) (Py.or_one (total_wallets r)))%Q.
Proof.
  destruct txns as [|t txns]; [by vm_compute|].
  unfold analyze. cbv zeta. simpl. rewrite !length_fmap. done.
Qed.

(** Each wallet has exactly one label, chosen by the precedence bot, wash
    trader, sybil, real, and the four label counts add up to the number of
    wallets. *)
Theorem labels_partition_wallets (txns : list Transaction) (holders : Py.pyval) :
  let r := analyze txns holders in
  real_traders r + bots r + wash_traders r + sybil_wallets r = total_wallets r
  ∧ total_wallets r = length (trader_details r)
  ∧ ∀ d, d ∈ trader_details r →
         (wallet_label d = bot ↔ is_bot d = true)
         ∧ (wallet_label d = wash_trader
            ↔ is_bot d = false ∧ is_wash_trader d = true)
         ∧ (wallet_label d = sybil
            ↔ is_bot d = false ∧ is_wash_trader d = false ∧ is_sybil d = true)
         ∧ (wallet_label d = real
            ↔ is_bot d = false ∧ is_wash_trader d = false ∧ is_sybil d = false).
Proof.
  cbv zeta. destruct (analyze_counters txns holders) as (-> & -> & -> & -> & -> & _).
  split; [apply count_label_partition|]. split; [done|].
  intros d Hd. destruct (analyze_detail _ _ _ Hd) as (_ & _ & _ & _ & ->).
  destruct (is_bot d), (is_wash_trader d), (is_sybil d); split_and!;
    intuition congruence.
Qed.

Lemma filter_none {A} (P : A → Prop) `{∀ x, Decision (P x)} (l : list A) :
  (∀ x, x ∈ l → ¬ P x) → filter P l = [].
Proof.
  induction l as [|x l IH]; intros Hl; [done|].
  rewrite filter_cons_False by (apply Hl; left). apply IH.
  intros y Hy. apply Hl. by right.
Qed.

(** A wallet that pays for no transaction, met only as an account of a
    transfer, is reported with no transaction, no flag and the label
    real. *)
Theorem counterparty_only_is_real (txns : list Transaction) (holders : Py.pyval)
    (d : detail) :
  d ∈ trader_details (analyze txns holders) →
  (∀ t, t ∈ txns → payer t ≠ Some (wallet d)) →
  txn_count d = 0 ∧ is_bot d = false ∧ is_wash_trader d = false
  ∧ is_sybil d = false ∧ wallet_label d = real.
Proof.
  intros Hd Hnever.
  destruct (analyze_detail _ _ _ Hd) as (Hc & Hb & Hw & Hs & Hl).
  assert (owned (wallet d) txns = []) as Hown.
  { unfold owned. apply filter_none. intros t Ht. by apply Hnever. }
  rewrite Hown in Hc, Hb, Hw.
  assert (is_sybil d = false) as Hs'.
  { rewrite Hs. apply not_true_is_false. intros Hsyb.
    apply _is_sybil_conditions in Hsyb as (s & Hin & _).
    apply slot_payers_elem in Hin as (t & Ht & _ & Hp). by apply (Hnever t). }
  rewrite Hl, Hb, Hw, Hs'. done.
Qed.

Lemma counterparty_only_is_real_witness :
  let d := Detail "seller" real 0 false false false in
  txn_count d = 0 ∧ is_bot d = false ∧ is_wash_trader d = false
  ∧ is_sybil d = false ∧ wallet_label d = real.
Proof.
  apply (counterparty_only_is_real
           [{| feePayer := Some "buyer"; fee_payer := None; slot := Some 1%Z;
               timestamp := Some 0%Z;
               tokenTransfers :=
                 [{| mint := Some "mint123"; tokenAmount := Py.PNum 1;
                     fromUserAccount := Some "seller";
                     toUserAccount := Some "buyer" |}] |}] Py.PNone).
  - vm_compute. right. left.
  - intros t ->%list_elem_of_singleton. done.
Defined.

Lemma count_label_le (l : label) (details : list detail) :
  count_label l details ≤ length details.
Proof. apply length_filter. Qed.


End TraderMore.

Section BotMore.
Import TraderAnalyzer.
#[local] Open Scope nat_scope.

(** The bot test does not depend on the order of the transactions. *)
Theorem _is_bot_order_irrelevant (l l' : list Transaction) :
  l ≡ₚ l' → _is_bot l = _is_bot l'.
Proof.
  intros Hp. unfold _is_bot.
  assert (sorted_asc (fun t : Z => t) (omap timestamp l)
          = sorted_asc (fun t : Z => t) (omap timestamp l')) as ->.
  { apply (StronglySorted_unique Z.le); [apply sorted_asc_sorted..|].
    rewrite !sorted_asc_perm. by rewrite Hp. }
  by rewrite Hp.
Qed.

Lemma _is_bot_order_irrelevant_witness :
  _is_bot (spaced "bot_wallet" 10 5) = _is_bot (reverse (spaced "bot_wallet" 10 5)).
Proof.
  apply _is_bot_order_irrelevant. symmetry. apply reverse_Permutation.
Defined.

Lemma sum_gaps_last (a z : Z) (l : list Z) :
  last (a :: l) = Some z → sum_Z (gaps (a :: l)) = (z - a)%Z.
Proof.
  revert a. induction l as [|b l IH]; intros a.
  - intros [= <-]. unfold gaps, sum_Z. simpl. lia.
  - intros Hl. change (last (a :: b :: l)) with (last (b :: l)) in Hl.
    change (gaps (a :: b :: l)) with ((b - a)%Z :: gaps (b :: l)).
    change (sum_Z ((b - a)%Z :: gaps (b :: l)))
      with ((b - a) + sum_Z (gaps (b :: l)))%Z.
    rewrite (IH b Hl). lia.
Qed.

Lemma gaps_length (a : Z) (l : list Z) : length (gaps (a :: l)) = length l.
Proof.
  revert a. induction l as [|b l IH]; intros a; [done|].
  change (gaps (a :: b :: l)) with ((b - a)%Z :: gaps (b :: l)).
  simpl. f_equal. apply IH.
Qed.

Lemma mean_below (total : Z) (n : nat) (bound : Z) :
  0 < n →
  (inject_Z total / inject_Z (Z.of_nat n) < inject_Z bound)%Q
  ↔ (total < bound * Z.of_nat n)%Z.
Proof.
  intros Hn.
  assert (0 < inject_Z (Z.of_nat n))%Q as Hpos.
  { change 0%Q with (inject_Z 0). rewrite <- Zlt_Qlt. lia. }
  rewrite Zlt_Qlt, inject_Z_mult. split.
  - intros H. apply (Qmult_lt_r _ _ _ Hpos) in H.
    assert (inject_Z total
            == inject_Z total / inject_Z (Z.of_nat n) * inject_Z (Z.of_nat n))%Q as ->;
      [|done].
    field. intros H0. rewrite H0 in Hpos. by apply Qlt_irrefl in Hpos.
  - intros H. by apply Qlt_shift_div_r.
Qed.

(** With more than 5 transactions and at least 2 timestamps, the bot test
    holds exactly when the time from the earliest to the latest timestamp
    is below 30 seconds times the number of gaps. *)
Theorem _is_bot_by_span (l : list Transaction) (lo hi : Z) :
  5 < length l → 2 ≤ length (stamps l) →
  lo ∈ stamps l → hi ∈ stamps l →
  (∀ t, t ∈ stamps l → (lo ≤ t ≤ hi)%Z) →
  (_is_bot l = true ↔ (hi - lo < 30 * (Z.of_nat (length (stamps l)) - 1))%Z).
Proof.
  intros Hlen Hn Hlo Hhi Hall.
  unfold _is_bot, BOT_MIN_TXNS, BOT_AVG_INTERVAL_SECS. fold (stamps l).
  pose proof (sorted_asc_sorted (stamps l)) as Hs.
  pose proof (sorted_asc_perm (fun t : Z => t) (stamps l)) as Hp.
  assert (length (sorted_asc (fun t : Z => t) (stamps l)) = length (stamps l)) as Hlen'
    by (by rewrite Hp).
  destruct (Nat.leb_spec (length l) 5); [lia|].
  destruct (Nat.ltb_spec (length (sorted_asc (fun t : Z => t) (stamps l))) 2); [lia|].
  destruct (sorted_asc (fun t : Z => t) (stamps l)) as [|a asc] eqn:E;
    [simpl in Hlen'; lia|].
  assert (a = lo) as ->.
  { assert (lo ≤ a)%Z by (apply Hall; rewrite <- Hp; left).
    assert (a ≤ lo)%Z; [|lia].
    apply StronglySorted_inv in Hs as [_ Ha].
    rewrite <- Hp in Hlo. apply elem_of_cons in Hlo as [->|Hlo]; [lia|].
    by apply (proj1 (Forall_forall _ _) Ha). }
  destruct (last (lo :: asc)) as [z|] eqn:El; [|by rewrite last_cons in El; destruct (last asc)].
  assert (z = hi) as ->.
  { assert (z ∈ lo :: asc) as Hz by (by apply last_Some_elem_of).
    assert (z ≤ hi)%Z by (apply Hall; by rewrite <- Hp).
    assert (hi ≤ z)%Z; [|lia].
    rewrite <- Hp in Hhi.
    apply last_Some in El as [pre Hpre]. rewrite Hpre in Hs, Hhi.
    apply elem_of_app in Hhi as [Hhi|Hhi]; [|apply list_elem_of_singleton in Hhi; lia].
    by apply (StronglySorted_app_1_elem_of _ _ _ _ _ Hs Hhi), list_elem_of_singleton. }
  rewrite Qltb_lt, intervals_gaps, (sum_gaps_last _ _ _ El), gaps_length.
  change 30%Q with (inject_Z 30).
  simpl in Hlen'.
  rewrite mean_below by lia. lia.
Qed.

Lemma _is_bot_by_span_witness :
  _is_bot (spaced "bot_wallet" 10 5) = true
  ↔ (1700000045 - 1700000000
     < 30 * (Z.of_nat (length (stamps (spaced "bot_wallet" 10 5))) - 1))%Z.
Proof.
  apply (_is_bot_by_span (spaced "bot_wallet" 10 5) 1700000000 1700000045).
  - vm_compute. lia.
  - vm_compute. lia.
  - vm_compute. left.
  - vm_compute. do 9 right. left.
  - intros t Ht. vm_compute in Ht.
    repeat (apply elem_of_cons in Ht as [->|Ht]; [lia|]). by apply elem_of_nil in Ht.
Defined.

(** A wallet none of whose transactions carries a timestamp is neither a
    bot nor a wash trader. *)
Theorem no_timestamp_no_temporal_flag (txns : list Transaction) (holders : Py.pyval)
    (d : detail) :
  d ∈ trader_details (analyze txns holders) →
  (∀ t, t ∈ owned (wallet d) txns → timestamp t = None) →
  is_bot d = false ∧ is_wash_trader d = false.
Proof.
  intros Hd Hnone.
  destruct (analyze_detail _ _ _ Hd) as (_ & -> & -> & _).
  set (mine := owned (wallet d) txns) in *.
  assert (stamps mine = []) as Hst.
  { unfold stamps. induction mine as [|t mine IH]; [done|]. simpl.
    rewrite (Hnone t) by left. apply IH. intros t' Ht'. apply Hnone. by right. }
  assert (∀ m, mint_events m mine = []) as Hev.
  { intros m. unfold mint_events. induction mine as [|t mine IH]; [done|].
    rewrite bind_cons, (Hnone t) by left. simpl. apply IH.
    - intros t' Ht'. apply Hnone. by right.
    - simpl in Hst. rewrite (Hnone t) in Hst by left. done. }
  split.
  - apply not_true_is_false. intros Hb.
    apply _is_bot_conditions in Hb as (_ & asc & Hp & _ & Hlen & _).
    rewrite Hst in Hp. apply Permutation_nil_r in Hp as ->. simpl in Hlen. lia.
  - apply not_true_is_false.
    intros Hw. apply _is_wash_trader_conditions in Hw as (_ & m & n & _ & Hscan & Hn).
    rewrite Hev in Hscan. apply scan_nil_inv in Hscan. lia.
Qed.

Lemma no_timestamp_no_temporal_flag_witness :
  let d := Detail "w" real 1 false false false in
  is_bot d = false ∧ is_wash_trader d = false.
Proof.
  apply (no_timestamp_no_temporal_flag
           [{| feePayer := Some "w"; fee_payer := None; slot := Some 10%Z;
               timestamp := None; tokenTransfers := [] |}] Py.PNone).
  - vm_compute. left.
  - intros t Ht. apply list_elem_of_filter in Ht as [_ ->%list_elem_of_singleton]. done.
Defined.

End BotMore.

Section WashMore.
Import TraderAnalyzer.
#[local] Open Scope nat_scope.

Lemma count_dir_cons (d : direction) (e : event) (events : list event) :
  count_dir d (e :: events)
  = (if decide (dir e = d) then 1 else 0) + count_dir d events.
Proof. unfold count_dir. rewrite filter_cons. by destruct (decide (dir e = d)). Qed.

Lemma cycle_fold_bounds (events : list event) (cycles : nat) (pending : option Z) :
  (foldl cycle_step (cycles, pending) events).1 ≤ cycles + count_dir sell events
  ∧ (foldl cycle_step (cycles, pending) events).1
    ≤ cycles + (if pending is Some _ then 1 else 0) + count_dir buy events.
Proof.
  revert cycles pending. induction events as [|e events IH]; intros cycles pending.
  - simpl. unfold count_dir. simpl. destruct pending; lia.
  - simpl foldl. rewrite !count_dir_cons. unfold cycle_step at 2 4. simpl.
    destruct (dir e) eqn:Ed.
    + rewrite decide_False by done. rewrite decide_True by done.
      destruct (IH cycles (Some (ts e))) as [H1 H2]. destruct pending; lia.
    + rewrite decide_True by done. rewrite decide_False by done.
      destruct pending as [bought_at|].
      * destruct (ts e - bought_at <=? WASH_WINDOW_SECS)%Z.
        -- destruct (IH (S cycles) None) as [H1 H2]. lia.
        -- destruct (IH cycles (Some bought_at)) as [H1 H2]. lia.
      * destruct (IH cycles None) as [H1 H2]. lia.
Qed.

(** A cycle takes one buy and one sell of its own: the count of completed
    cycles is at most the number of buys and at most the number of sells. *)
Theorem _count_buy_sell_cycles_bounds (events : list event) :
  _count_buy_sell_cycles events ≤ count_dir buy events
  ∧ _count_buy_sell_cycles events ≤ count_dir sell events.
Proof.
  unfold _count_buy_sell_cycles.
  destruct (cycle_fold_bounds events 0 None) as [H1 H2]. simpl in *. lia.
Qed.

Lemma count_dir_perm (d : direction) (l l' : list event) :
  l ≡ₚ l' → count_dir d l = count_dir d l'.
Proof. intros Hp. unfold count_dir. by rewrite Hp. Qed.

(** A wallet flagged as a wash trader has, for some mint, at least two buys
    and at least two sells among its timestamped transfers. *)
Theorem wash_trader_buys_and_sells (txns : list Transaction) (holders : Py.pyval)
    (d : detail) :
  d ∈ trader_details (analyze txns holders) →
  is_wash_trader d = true →
  ∃ m, m ≠ ""
       ∧ 2 ≤ count_dir buy (mint_events m (owned (wallet d) txns))
       ∧ 2 ≤ count_dir sell (mint_events m (owned (wallet d) txns)).
Proof.
  intros Hd Hw. destruct (analyze_detail _ _ _ Hd) as (_ & _ & Hw' & _).
  rewrite Hw' in Hw.
  apply _is_wash_trader_conditions in Hw as (_ & m & n & Hm & Hscan & Hn).
  apply _count_buy_sell_cycles_scan in Hscan.
  destruct (_count_buy_sell_cycles_bounds
              (chronological (mint_events m (owned (wallet d) txns)))) as [Hb Hs].
  unfold chronological in *.
  rewrite (count_dir_perm buy _ _ (sorted_asc_perm ts _)) in Hb.
  rewrite (count_dir_perm sell _ _ (sorted_asc_perm ts _)) in Hs.
  exists m. split; [done|]. lia.
Qed.

Lemma wash_trader_buys_and_sells_witness :
  ∃ m, m ≠ ""
       ∧ 2 ≤ count_dir buy (mint_events m (owned "wash" two_round_trips))
       ∧ 2 ≤ count_dir sell (mint_events m (owned "wash" two_round_trips)).
Proof.
  apply (wash_trader_buys_and_sells two_round_trips Py.PNone
           (Detail "wash" wash_trader 4 false true false)).
  - vm_compute. left.
  - done.
Defined.

End WashMore.

Section SybilMore.
Import TraderAnalyzer.
#[local] Open Scope nat_scope.

Lemma size_without (w : string) (ws : gset string) :
  w ∈ ws → size ws = S (size (ws ∖ {[w]})).
Proof.
  intros Hw. rewrite size_difference by (by apply singleton_subseteq_l).
  rewrite size_singleton.
  assert (size ws ≠ 0); [|lia].
  intros H0. apply size_empty_inv in H0. rewrite H0 in Hw.
  by apply not_elem_of_empty in Hw.
Qed.

(** The sybil flag is a property of the slot: a flagged wallet pays in a slot
    with at least four distinct fee payers, all of which are flagged. *)
Theorem sybil_flag_shared_in_slot (txns : list Transaction) (holders : Py.pyval)
    (d : detail) :
  d ∈ trader_details (analyze txns holders) →
  is_sybil d = true →
  ∃ s, wallet d ∈ slot_payers s txns
       ∧ 4 ≤ size (slot_payers s txns)
       ∧ ∀ d', d' ∈ trader_details (analyze txns holders) →
               wallet d' ∈ slot_payers s txns → is_sybil d' = true.
Proof.
  intros Hd Hs. destruct (analyze_detail _ _ _ Hd) as (_ & _ & _ & Hs' & _).
  rewrite Hs' in Hs. apply _is_sybil_conditions in Hs as (s & Hin & H3 & Hnear).
  pose proof (size_without _ _ Hin) as Hsize.
  exists s. split; [done|]. split; [lia|].
  intros d' Hd' Hin'. destruct (analyze_detail _ _ _ Hd') as (_ & _ & _ & -> & _).
  apply _is_sybil_conditions. exists s. split; [done|]. split; [|done].
  pose proof (size_without _ _ Hin'). lia.
Qed.

Lemma sybil_flag_shared_in_slot_witness :
  ∃ s, "A" ∈ slot_payers s cluster_with_unpaid
       ∧ 4 ≤ size (slot_payers s cluster_with_unpaid)
       ∧ ∀ d', d' ∈ trader_details (analyze cluster_with_unpaid Py.PNone) →
               wallet d' ∈ slot_payers s cluster_with_unpaid → is_sybil d' = true.
Proof.
  apply (sybil_flag_shared_in_slot cluster_with_unpaid Py.PNone
           (Detail "A" sybil 1 false false true)).
  - vm_compute. left.
  - done.
Defined.

End SybilMore.

(** ** Risk scoring *)

Section RiskMore.
Import Py RiskScorer.

(** [_has_liquidity] fails only with [AttributeError], and exactly when the
    report is a truthy value that is not a dict, or a dict that lists no
    market and whose token sub-record ([tokenMeta], or [token] when
    [tokenMeta] is absent) is not a dict. *)
Theorem _has_liquidity_failure (rugcheck_data : pyval) :
  (∀ e, _has_liquidity rugcheck_data = Raise e → e = AttributeError)
  ∧ ((∃ e, _has_liquidity rugcheck_data = Raise e)
     ↔ truthy rugcheck_data = true
       ∧ match rugcheck_data with
         | PDict d =>
             truthy (default (PList []) (d !! "markets")) = false
             ∧ is_dict (default (default (PDict ∅) (d !! "token")) (d !! "tokenMeta"))
               = false
         | _ => True
         end).
Proof.
  unfold _has_liquidity.
  destruct (truthy rugcheck_data) eqn:Et; simpl.
  2: { split; [done|]. split; [by intros [? ?] | by intros [? _]]. }
  destruct rugcheck_data as [| | | | |d]; simpl;
    try (split; [by intros e [= <-] | split; [done | by eexists]]).
  destruct (truthy (default (PList []) (d !! "markets"))); simpl.
  { split; [done|]. split; [by intros [? ?] | by intros [_ [? _]]]. }
  destruct (default (default (PDict ∅) (d !! "token")) (d !! "tokenMeta")); simpl;
    try (split; [by intros e [= <-] | split; [done | by eexists]]).
  split; [done|]. split; [by intros [? ?] | by intros [_ [_ ?]]].
Qed.

(** When the report lists no market, the [tokenMeta] sub-record decides and
    [token] is read only when [tokenMeta] is absent: liquidity is found when
    the sub-record has a truthy [markets] or [liquidity] entry. *)
Theorem _has_liquidity_sub_record (d ti : gmap string pyval) :
  truthy (PDict d) = true →
  truthy (default (PList []) (d !! "markets")) = false →
  (d !! "tokenMeta" = Some (PDict ti)
   ∨ (d !! "tokenMeta" = None ∧ d !! "token" = Some (PDict ti))) →
  _has_liquidity (PDict d)
  = Ok (truthy (default PNone (ti !! "markets"))
        || truthy (default PNone (ti !! "liquidity"))).
Proof.
  intros Ht Hm Hti. unfold _has_liquidity. rewrite Ht. cbn [negb].
  cbn [get mbind result_bind]. rewrite Hm.
  assert (default (default (PDict ∅) (d !! "token")) (d !! "tokenMeta") = PDict ti) as ->.
  { destruct Hti as [->|[-> ->]]; done. }
  cbn [get mbind result_bind]. unfold py_or.
  destruct (truthy (default PNone (ti !! "markets"))) eqn:E; [by rewrite E | done].
Qed.

Lemma _has_liquidity_sub_record_witness :
  let ti : gmap string pyval := {["liquidity" := PNum 1000]} in
  let d : gmap string pyval :=
    <["tokenMeta" := PDict ti]> {["score" := PNum 100]} in
  _has_liquidity (PDict d)
  = Ok (truthy (default PNone (ti !! "markets"))
        || truthy (default PNone (ti !! "liquidity"))).
Proof.
  apply _has_liquidity_sub_record.
  - vm_compute. reflexivity.
  - vm_compute. reflexivity.
  - left. vm_compute. reflexivity.
Defined.

Lemma run_in_catalog_order m f h md bu bo li ru :
  name <$> triggered_factors (run m f h md bu bo li ru) `sublist_of` id <$> _FACTORS.
Proof.
  destruct m, f, h, md, bu, bo, li, ru; cbv;
    repeat first [apply sublist_nil | apply sublist_skip | apply sublist_cons].
Qed.

(** The triggered factors are listed in the order of the catalog, each at
    most once. *)
Theorem factors_in_catalog_order td ha ba rc r :
  score td ha ba rc = Ok r →
  name <$> factors r `sublist_of` id <$> _FACTORS
  ∧ NoDup (name <$> factors r).
Proof.
  intros H. apply score_run in H as (m & f & h & md & bu & bo & li & ru & -> & _).
  pose proof (run_in_catalog_order m f h md bu bo li ru) as Hsub.
  split; [done|]. eapply sublist_NoDup; [|exact Hsub].
  by apply (bool_decide_unpack _).
Qed.

Lemma factors_in_catalog_order_witness :
  ∃ r, score risky_token (holders_at (replicate 10 9%Q)) heavy_bundle
             (dict [("score", PNum 900)]) = Ok r
       ∧ name <$> factors r `sublist_of` id <$> _FACTORS
       ∧ NoDup (name <$> factors r).
Proof.
  eexists. split; [vm_compute; reflexivity|].
  apply (factors_in_catalog_order risky_token (holders_at (replicate 10 9%Q))
           heavy_bundle (dict [("score", PNum 900)])).
  vm_compute. reflexivity.
Defined.

(** The values [score] reads on its way, and the outcome of its tests. *)
Lemma score_trace td ha ba rc r :
  score td ha ba rc = Ok r →
  ∃ holders mv fv c bu botv sc ru,
    holders_of ha = Ok holders
    ∧ get td "mint_authority_revoked" (PBool false) = Ok mv
    ∧ mint_authority_revoked r = truthy mv
    ∧ get td "freeze_authority_revoked" (PBool false) = Ok fv
    ∧ freeze_authority_revoked r = truthy fv
    ∧ _top10_concentration holders = Ok c
    ∧ top10_concentration r = round2 c
    ∧ (if truthy ba then get ba "bundled_wallet_percentage" (PNum 0) else Ok (PNum 0))
      = Ok (bundled_wallet_percentage r)
    ∧ gt_const (bundled_wallet_percentage r) 30 = Ok bu
    ∧ get td "bot_percentage" (PNum 0) = Ok botv
    ∧ float botv = Ok (bot_percentage r)
    ∧ _has_liquidity rc = Ok (liquidity_locked r)
    ∧ (if truthy rc then get rc "score" (PNum 0) else Ok (PNum 0)) = Ok sc
    ∧ (if truthy sc then gt_const sc 500 else Ok false) = Ok ru
    ∧ factors r
      = triggered_factors
          (run (negb (truthy mv)) (negb (truthy fv)) (Qgtb c 80) (Qgtb c 50) bu
               (Qgtb (bot_percentage r) 50) (negb (liquidity_locked r)) ru)
    ∧ total_score r
      = Z.min (accumulated_points
                 (run (negb (truthy mv)) (negb (truthy fv)) (Qgtb c 80) (Qgtb c 50) bu
                      (Qgtb (bot_percentage r) 50) (negb (liquidity_locked r)) ru))
              100.
Proof.
  intros H. unfold score in H. fold (holders_of ha) in H. repeat inv_bind H.
  injection H as <-. cbn [mint_authority_revoked freeze_authority_revoked
    top10_concentration bundled_wallet_percentage bot_percentage liquidity_locked
    factors total_score].
  eexists _, _, _, _, _, _, _, _. split_and!; try eassumption; reflexivity.
Qed.



(** A token record that lacks the two authority flags, as the empty record
    of a failed fetch does, is scored as if neither authority were revoked:
    both factors fire and the total is at least 45. *)
Theorem missing_authority_flags_count_as_live (d : gmap string pyval) ha ba rc r :
  d !! "mint_authority_revoked" = None →
  d !! "freeze_authority_revoked" = None →
  score (PDict d) ha ba rc = Ok r →
  mint_authority_revoked r = false ∧ freeze_authority_revoked r = false
  ∧ fires "mint_authority_not_revoked" r ∧ fires "freeze_authority_not_revoked" r
  ∧ 45 ≤ total_score r.
Proof.
  intros Hm Hf H. pose proof (score_fires _ _ _ _ _ H) as (F1 & F2 & _).
  apply score_trace in H
    as (holders & mv & fv & c & bu & botv & sc & ru & _ & Hmv & Hme & Hfv & Hfe & _ & _
        & _ & _ & _ & _ & _ & _ & _ & _ & Ht).
  simpl in Hmv, Hfv. rewrite Hm in Hmv. rewrite Hf in Hfv.
  injection Hmv as <-. injection Hfv as <-. simpl in Hme, Hfe.
  split_and!; [done | done | by apply F1 | by apply F2 |].
  rewrite Ht, run_points. simpl.
  destruct (Qgtb c 80), (Qgtb c 50), bu, (Qgtb (bot_percentage r) 50),
    (negb (liquidity_locked r)), ru; simpl; lia.
Qed.

Lemma missing_authority_flags_count_as_live_witness :
  ∃ r, score (PDict ∅) (PList []) empty_bundle (dict []) = Ok r
       ∧ mint_authority_revoked r = false ∧ freeze_authority_revoked r = false
       ∧ fires "mint_authority_not_revoked" r ∧ fires "freeze_authority_not_revoked" r
       ∧ 45 ≤ total_score r.
Proof.
  eexists. split; [vm_compute; reflexivity|].
  apply (missing_authority_flags_count_as_live ∅ (PList []) empty_bundle (dict []));
    [reflexivity | reflexivity | vm_compute; reflexivity].
Defined.

(** An absent or empty third-party report gives no liquidity evidence and no
    high-risk flag: [no_liquidity_info] fires and [rugcheck_high_risk] does
    not. *)
Theorem empty_report_is_no_evidence td ha ba rc r :
  truthy rc = false →
  score td ha ba rc = Ok r →
  liquidity_locked r = false
  ∧ fires "no_liquidity_info" r
  ∧ ¬ fires "rugcheck_high_risk" r.
Proof.
  intros Hrc H. pose proof (score_fires _ _ _ _ _ H) as (_ & _ & _ & _ & F5 & _).
  apply score_trace in H
    as (holders & mv & fv & c & bu & botv & sc & ru & _ & _ & _ & _ & _ & _ & _
        & _ & _ & _ & _ & Hl & Hsc & Hru & Hf & _).
  unfold _has_liquidity in Hl. rewrite Hrc in Hl, Hsc. simpl in Hl.
  injection Hl as Hl. injection Hsc as <-. simpl in Hru. injection Hru as <-.
  split_and!; [done | by apply F5 |].
  unfold fires. rewrite Hf.
  destruct (run_fires (negb (truthy mv)) (negb (truthy fv)) (Qgtb c 80) (Qgtb c 50) bu
              (Qgtb (bot_percentage r) 50) (negb (liquidity_locked r)) false)
    as (_ & _ & _ & _ & _ & _ & _ & F8).
  rewrite (decide_iff _ _ F8). done.
Qed.

Lemma empty_report_is_no_evidence_witness :
  ∃ r, score safe_token (PList []) empty_bundle PNone = Ok r
       ∧ liquidity_locked r = false
       ∧ fires "no_liquidity_info" r
       ∧ ¬ fires "rugcheck_high_risk" r.
Proof.
  eexists. split; [vm_compute; reflexivity|].
  apply (empty_report_is_no_evidence safe_token (PList []) empty_bundle PNone);
    [reflexivity | vm_compute; reflexivity].
Defined.

Lemma run_length_points m f h md bu bo li ru :
  (length (triggered_factors (run m f h md bu bo li ru)) ≤ 3)%nat →
  accumulated_points (run m f h md bu bo li ru) < 75.
Proof. destruct m, f, h, md, bu, bo, li, ru; cbv; intros; (done || lia). Qed.

(** The total is a multiple of 5, and a CRITICAL level takes at least four
    triggered factors. *)
Theorem total_in_steps_of_five td ha ba rc r :
  score td ha ba rc = Ok r →
  (5 | total_score r)
  ∧ (risk_level r = "CRITICAL" → (4 ≤ length (factors r))%nat).
Proof.
  intros H. pose proof (score_risk_level _ _ _ _ _ H) as Hlevel.
  apply score_run in H as (m & f & h & md & bu & bo & li & ru & Hf & Ht & _).
  split.
  - rewrite Ht, run_points.
    exists (Z.min (5 * Z.b2z m + 4 * Z.b2z f + 4 * Z.b2z h + 2 * Z.b2z (negb h && md)
                   + 3 * Z.b2z bu + 2 * Z.b2z bo + 2 * Z.b2z li + 4 * Z.b2z ru) 20).
    lia.
  - intros Hc. rewrite Hlevel in Hc.
    assert (75 ≤ total_score r) as H75.
    { unfold _get_risk_level in Hc.
      destruct (Z.ltb_spec (total_score r) 25); [done|].
      destruct (Z.ltb_spec (total_score r) 50); [done|].
      destruct (Z.ltb_spec (total_score r) 75); [done|]. done. }
    rewrite Hf. destruct (decide (length (triggered_factors (run m f h md bu bo li ru)) ≤ 3)%nat)
      as [Hle|]; [|lia].
    apply run_length_points in Hle. lia.
Qed.

Lemma total_in_steps_of_five_witness :
  ∃ r, score risky_token (holders_at (replicate 10 9%Q)) heavy_bundle
             (dict [("score", PNum 900)]) = Ok r
       ∧ (5 | total_score r)
       ∧ (risk_level r = "CRITICAL" → (4 ≤ length (factors r))%nat).
Proof.
  eexists. split; [vm_compute; reflexivity|].
  apply (total_in_steps_of_five risky_token (holders_at (replicate 10 9%Q))
           heavy_bundle (dict [("score", PNum 900)])).
  vm_compute. reflexivity.
Defined.

(** The holders may come bare or wrapped: a dict stands for the list under
    its [holders] key, and for no holder when it has no such key. *)
Theorem holders_wrapper_is_unwrapped (d : gmap string pyval) td ba rc :
  (∀ l, d !! "holders" = Some (PList l) →
        score td (PDict d) ba rc = score td (PList l) ba rc)
  ∧ (d !! "holders" = None → score td (PDict d) ba rc = score td (PList []) ba rc).
Proof.
  split.
  - intros l Hl. unfold score. simpl. by rewrite Hl.
  - intros Hl. unfold score. simpl. by rewrite Hl.
Qed.

End RiskMore.

(** ** The top-10 concentration *)

Section ConcentrationMore.
Import Py RiskScorer.
#[local] Open Scope Q_scope.

Lemma total_share_perm (s t : list Q) : s ≡ₚ t → total_share s == total_share t.
Proof. unfold total_share. induction 1; simpl; lra. Qed.

(** Of a list in decreasing order, no sublist as long as the first [k]
    elements has a larger total. *)
Lemma largest_take (k : nat) (s t : list Q) :
  StronglySorted (fun a b => b <= a) s → t ⊆+ s →
  length t = Nat.min k (length s) →
  total_share t <= total_share (take k s).
Proof.
  intros Hs. revert k t. induction Hs as [|x s Hs IH Hx]; intros k t Hsub Hlen.
  - apply submseteq_nil_r in Hsub as ->. destruct k; simpl; lra.
  - destruct k as [|k]; simpl in Hlen.
    { apply nil_length_inv in Hlen as ->. simpl. lra. }
    apply submseteq_cons_r in Hsub as [Hsub | (t' & Hp & Hsub)].
    + destruct t as [|y t]; [done|]. simpl in Hlen.
      assert (y ∈ s) as Hy by (eapply elem_of_submseteq; [|exact Hsub]; apply list_elem_of_here).
      assert (t ⊆+ s) as Hsub' by (transitivity (y :: t); [by apply submseteq_cons | exact Hsub]).
      assert (length t = Nat.min k (length s)) as Hlen'.
      { apply submseteq_length in Hsub. simpl in Hsub. lia. }
      specialize (IH k t Hsub' Hlen').
      rewrite Forall_forall in Hx. specialize (Hx y Hy).
      unfold total_share in *. simpl. lra.
    + rewrite (total_share_perm _ _ Hp).
      assert (length t' = Nat.min k (length s)) as Hlen'.
      { apply Permutation_length in Hp. simpl in Hp. lia. }
      specialize (IH k t' Hsub Hlen').
      unfold total_share in *. simpl. lra.
Qed.

Lemma sum_numbers_total (l : list pyval) (a : Q) :
  forallb holder_record l = true →
  ∃ q, sum_numbers a (percentage_of <$> l) = Ok q
       ∧ q == a + total_share (holder_share <$> l).
Proof.
  revert a. induction l as [|h l IH]; intros a.
  - intros _. exists a. split; [done|]. unfold total_share. simpl. lra.
  - intros H. cbn [forallb] in H. apply andb_true_iff in H as [Hh Hl].
    rewrite !fmap_cons. cbn [sum_numbers]. unfold holder_share at 1.
    destruct h as [| | | | |d]; try done. simpl in Hh. unfold is_numeric in Hh.
    cbn [percentage_of]. destruct (number (default (PNum 0) (d !! "percentage"))) as [q|];
      [|done].
    destruct (IH (a + q) Hl) as (q' & -> & Hq'). exists q'. split; [done|].
    unfold total_share in *. cbn [foldr from_option]. unfold Datatypes.id. lra.
Qed.

Lemma keyed_shares (z : list (pyval * pyval)) (qs : list (Q * pyval)) :
  Forall (fun kh => kh.1 = percentage_of kh.2) z →
  mapM (fun kh => (fun q => (q, kh.2)) <$> number kh.1) z = Some qs →
  Forall (fun p => p.1 = holder_share p.2) qs.
Proof.
  intros Hz. revert qs. induction Hz as [|[k h] z Hk _ IH]; intros qs; simpl.
  - intros [= <-]. constructor.
  - simpl in Hk. subst k. destruct (number (percentage_of h)) as [q|] eqn:Eq; simpl; [|done].
    destruct (mapM _ z) as [qs'|]; simpl; [|done].
    intros [= <-]. constructor; [|by apply IH].
    simpl. unfold holder_share. by rewrite Eq.
Qed.

Lemma zip_keys (l : list pyval) :
  Forall (fun kh : pyval * pyval => kh.1 = percentage_of kh.2) (zip (percentage_of <$> l) l).
Proof. induction l; simpl; constructor; done. Qed.

Lemma sorted_pairs_shares (qs : list (Q * pyval)) :
  StronglySorted (fun a b : Q * pyval => Qle_bool b.1 a.1 = true) qs →
  Forall (fun p : Q * pyval => p.1 = holder_share p.2) qs →
  StronglySorted (fun a b => holder_share b <= holder_share a) qs.*2.
Proof.
  induction 1 as [|p ps Hs IH Hp]; csimpl; [constructor|].
  intros [Ep Hps]%Forall_cons. constructor; [by apply IH|].
  rewrite Forall_forall in Hp, Hps. apply Forall_forall. intros h Hh.
  apply list_elem_of_fmap in Hh as (p' & -> & Hp').
  rewrite <- Ep, <- (Hps p' Hp'). apply Qle_bool_iff. by apply Hp.
Qed.

(** The holders come out of the sort in decreasing order of their shares. *)
Lemma sorted_holders_descending (l : list pyval) :
  forallb holder_record l = true →
  ∃ l', sorted_holders (zip (percentage_of <$> l) l) = Ok l' ∧ l' ≡ₚ l
        ∧ StronglySorted (fun a b => holder_share b <= holder_share a) l'.
Proof.
  intros Hl. destruct (get_percentages l Hl) as [_ HF].
  destruct (sorted_holders_returns l HF) as (l' & E & Hperm).
  exists l'. split; [done|]. split; [done|].
  unfold sorted_holders in E.
  destruct (zip (percentage_of <$> l) l) as [|p [|p' keyed]] eqn:Ez.
  { injection E as <-. constructor. }
  { injection E as <-. repeat constructor. }
  rewrite <- Ez in E. clear p p' keyed Ez.
  destruct (mapM _ (zip (percentage_of <$> l) l)) as [qs|] eqn:Em; [|done].
  injection E as <-.
  pose proof (keyed_shares _ _ (zip_keys l) Em) as Hqs.
  assert (StronglySorted (fun a b : Q * pyval => Qle_bool b.1 a.1 = true)
            (sort_by (fun x y => Qle_bool y.1 x.1) qs)) as Hs.
  { apply sort_by_sorted.
    - intros x y. rewrite !Qle_bool_iff. destruct (Qlt_le_dec x.1 y.1); [right|left]; lra.
    - intros x y z. rewrite !Qle_bool_iff. lra. }
  assert (Forall (fun p : Q * pyval => p.1 = holder_share p.2)
            (sort_by (fun x y => Qle_bool y.1 x.1) qs)) as Hqs'.
  { by rewrite sort_by_perm. }
  by apply sorted_pairs_shares.
Qed.

(** The concentration is the combined share of the first ten holders in
    decreasing order of share. *)
Lemma _top10_concentration_sorted (l : list pyval) :
  forallb holder_record l = true →
  ∃ c l',
    _top10_concentration (PList l) = Ok c
    ∧ l' ≡ₚ l
    ∧ StronglySorted (fun a b => holder_share b <= holder_share a) l'
    ∧ c == total_share (holder_share <$> take 10 l').
Proof.
  intros Hl. unfold _top10_concentration.
  destruct (truthy (PList l)) eqn:Et; simpl.
  2: { destruct l; [|done]. exists 0, []. split_and!; try done. constructor. }
  destruct (get_percentages l Hl) as [-> _]. simpl.
  destruct (sorted_holders_descending l Hl) as (l' & -> & Hperm & Hsorted). simpl.
  assert (forallb holder_record (take 10 l') = true) as Ht.
  { apply Is_true_true, forallb_True, Forall_take. rewrite Hperm.
    by apply forallb_True, Is_true_true. }
  destruct (get_percentages _ Ht) as [-> _]. simpl.
  destruct (sum_numbers_total (take 10 l') 0 Ht) as (c & -> & Hc).
  rewrite Qplus_0_l in Hc. by exists c, l'.
Qed.

Lemma largest_group (l' group : list pyval) :
  StronglySorted (fun a b => holder_share b <= holder_share a) l' →
  group ⊆+ l' → length group = Nat.min 10 (length l') →
  total_share (holder_share <$> group) <= total_share (holder_share <$> take 10 l').
Proof.
  intros Hsorted Hg Hlen. rewrite fmap_take. apply largest_take.
  - by apply (StronglySorted_fmap holder_share
                (fun a b => holder_share b <= holder_share a)).
  - by apply fmap_submseteq.
  - by rewrite !length_fmap.
Qed.



(** The concentration does not depend on the order in which the holders are
    listed. *)
Theorem top10_concentration_order_irrelevant (l1 l2 : list pyval) :
  holder_list (PList l1) = true → l1 ≡ₚ l2 →
  ∃ c1 c2,
    _top10_concentration (PList l1) = Ok c1
    ∧ _top10_concentration (PList l2) = Ok c2
    ∧ c1 == c2.
Proof.
  simpl. intros Hl1 Hp.
  assert (forallb holder_record l2 = true) as Hl2.
  { apply Is_true_true, forallb_True. rewrite <- Hp. by apply forallb_True, Is_true_true. }
  destruct (_top10_concentration_sorted l1 Hl1) as (c1 & s1 & -> & Hp1 & Hs1 & Hc1).
  destruct (_top10_concentration_sorted l2 Hl2) as (c2 & s2 & -> & Hp2 & Hs2 & Hc2).
  exists c1, c2. split; [done|]. split; [done|].
  assert (s1 ≡ₚ s2) as Hs by (by rewrite Hp1, Hp2).
  apply Qle_antisym; rewrite Hc1, Hc2.
  - apply largest_group; [done | |].
    + rewrite <- Hs. apply sublist_submseteq, sublist_take.
    + by rewrite length_take, Hs.
  - apply largest_group; [done | |].
    + rewrite Hs. apply sublist_submseteq, sublist_take.
    + by rewrite length_take, Hs.
Qed.

Lemma top10_concentration_order_irrelevant_witness :
  let l1 := [dict [("percentage", PNum 5)]; dict [("percentage", PNum 40)]] in
  let l2 := [dict [("percentage", PNum 40)]; dict [("percentage", PNum 5)]] in
  ∃ c1 c2,
    _top10_concentration (PList l1) = Ok c1
    ∧ _top10_concentration (PList l2) = Ok c2
    ∧ c1 == c2.
Proof.
  intros l1 l2. apply (top10_concentration_order_irrelevant l1 l2).
  - vm_compute. reflexivity.
  - apply perm_swap.
Defined.
End ConcentrationMore.

(** ** The pipeline of [main] *)

Section RoundMore.
Import Py.
#[local] Open Scope Q_scope.

Lemma round_half_even_near (x : Q) :
  inject_Z (round_half_even x) - (1 # 2) <= x ∧ x <= inject_Z (round_half_even x) + (1 # 2).
Proof.
  unfold round_half_even.
  pose proof (Qfloor_le x) as Hlo. pose proof (Qlt_floor x) as Hhi.
  rewrite inject_Z_plus in Hhi. change (inject_Z 1) with 1 in Hhi.
  destruct (Qgtb (1 # 2) (x - inject_Z (Qfloor x))) eqn:E1.
  { apply Qgtb_lt in E1. split; lra. }
  destruct (Qgtb (x - inject_Z (Qfloor x)) (1 # 2)) eqn:E2.
  { apply Qgtb_lt in E2. rewrite inject_Z_plus. change (inject_Z 1) with 1. split; lra. }
  apply not_true_iff_false in E1, E2. rewrite Qgtb_lt in E1, E2.
  apply Qnot_lt_le in E1, E2.
  destruct (Z.even (Qfloor x)); rewrite ?inject_Z_plus; change (inject_Z 1) with 1; split; lra.
Qed.

Lemma percentage_above (part total : nat) (k g : Z) :
  (0 < total)%nat →
  (inject_Z k < percentage part total → (k * Z.of_nat total < 100 * Z.of_nat part)%Z)
  ∧ ((k * Z.of_nat total + g ≤ 100 * Z.of_nat part)%Z → (Z.of_nat total < 200 * g)%Z →
     inject_Z k < percentage part total).
Proof.
  intros Hpos. unfold percentage, round2.
  set (P := inject_Z (Z.of_nat part)). set (T := inject_Z (Z.of_nat total)).
  assert (0 < T) as HT.
  { unfold T. change 0 with (inject_Z 0). rewrite <- Zlt_Qlt. lia. }
  assert (P / T * T == P) as Hq.
  { field. intros E. rewrite E in HT. by apply Qlt_irrefl in HT. }
  generalize dependent (P / T). intros q Hq.
  pose proof (round_half_even_near (q * 100 * 100)) as [Hn1 Hn2].
  set (n := round_half_even (q * 100 * 100)) in *.
  split.
  - intros Hk.
    assert (inject_Z (100 * k) < inject_Z n) as Hlt.
    { rewrite inject_Z_mult. change (inject_Z 100) with 100.
      assert (inject_Z n / 100 * 100 == inject_Z n) as Hy by (field; done).
      lra. }
    rewrite <- Zlt_Qlt in Hlt.
    assert (inject_Z (100 * k + 1) <= inject_Z n) as Hle by (rewrite <- Zle_Qle; lia).
    rewrite inject_Z_plus, inject_Z_mult in Hle.
    change (inject_Z 100) with 100 in Hle. change (inject_Z 1) with 1 in Hle.
    rewrite Zlt_Qlt, !inject_Z_mult. fold P T. change (inject_Z 100) with 100.
    nra.
  - intros Hg Hs.
    apply Qlt_shift_div_l; [lra|].
    rewrite Zle_Qle, inject_Z_plus, !inject_Z_mult in Hg.
    rewrite Zlt_Qlt, inject_Z_mult in Hs. fold P T in Hg, Hs.
    change (inject_Z 100) with 100 in Hg. change (inject_Z 200) with 200 in Hs.
    nra.
Qed.
End RoundMore.

Section PipelineMore.
Import Py.
#[local] Open Scope nat_scope.

Lemma bundle_analysis_value_get (d : BundlerDetector.report) :
  truthy (TokenCheck.bundle_analysis_value d) = true
  ∧ get (TokenCheck.bundle_analysis_value d) "bundled_wallet_percentage" (PNum 0)
    = Ok (PNum (BundlerDetector.bundled_wallet_percentage d)).
Proof. destruct d. split; vm_compute; reflexivity. Qed.

Lemma risk_result_trace ti h txns rc r :
  TokenCheck.risk_result ti h txns rc = Ok r →
  RiskScorer.bot_percentage r
  = TraderAnalyzer.bot_percentage (TraderAnalyzer.analyze txns h)
  ∧ RiskScorer.bundled_wallet_percentage r
    = PNum (BundlerDetector.bundled_wallet_percentage (BundlerDetector.detect txns)).
Proof.
  unfold TokenCheck.risk_result. cbv zeta. intros H.
  apply score_trace in H
    as (holders & mv & fv & c & bu & botv & sc & ru & _ & _ & _ & _ & _ & _ & _
        & Hb & _ & Hbot & Hf & _).
  destruct (bundle_analysis_value_get (BundlerDetector.detect txns)) as [Ht Hg].
  rewrite Ht, Hg in Hb. injection Hb as Hb.
  unfold get in Hbot. rewrite lookup_insert_eq in Hbot. injection Hbot as <-.
  cbn [float] in Hf. injection Hf as Hf.
  split; [exact (eq_sym Hf) | exact (eq_sym Hb)].
Qed.

(** The scoring step of [main] returns a result whatever the token record
    and the transactions are, as soon as the holders and the third-party
    report have the expected shapes: the analyses [main] merges into the
    scorer's inputs never make it fail, and the bot percentage it merges
    replaces any entry of that name in the token record. *)
Theorem risk_result_returns ti h txns rc :
  holders_shape h = true → rugcheck_shape rc = true →
  ∃ r code,
    TokenCheck.risk_result ti h txns rc = Ok r
    ∧ TokenCheck.main ti h txns rc = Ok code
    ∧ RiskScorer.bot_percentage r
      = TraderAnalyzer.bot_percentage (TraderAnalyzer.analyze txns h).
Proof.
  intros Hh Hrc.
  destruct (score_returns
              (PDict (<["bot_percentage" :=
                        PNum (TraderAnalyzer.bot_percentage (TraderAnalyzer.analyze txns h))]>
                      ti))
              h (TokenCheck.bundle_analysis_value (BundlerDetector.detect txns)) rc)
    as [r Hr].
  { assert (bundle_shape (TokenCheck.bundle_analysis_value (BundlerDetector.detect txns))
            = true) as Hb.
    { destruct (BundlerDetector.detect txns). vm_compute. reflexivity. }
    unfold expected_shapes, token_shape. rewrite lookup_insert_eq, Hh, Hb, Hrc.
    reflexivity. }
  exists r, (TokenCheck.exit_status r). split; [exact Hr|]. split.
  - unfold TokenCheck.main. fold (TokenCheck.risk_result ti h txns rc) in Hr.
    by rewrite Hr.
  - by apply (risk_result_trace ti h txns rc).
Qed.

Lemma risk_result_returns_witness :
  ∃ r code,
    TokenCheck.risk_result ∅ (holders_at [60%Q; 30%Q]) early_bundle (dict []) = Ok r
    ∧ TokenCheck.main ∅ (holders_at [60%Q; 30%Q]) early_bundle (dict []) = Ok code
    ∧ RiskScorer.bot_percentage r
      = TraderAnalyzer.bot_percentage
          (TraderAnalyzer.analyze early_bundle (holders_at [60%Q; 30%Q])).
Proof.
  apply (risk_result_returns ∅ (holders_at [60%Q; 30%Q]) early_bundle (dict []));
    vm_compute; reflexivity.
Defined.

(** The exit status of [main] is 1 exactly when the total score is at least
    75, and 0 otherwise; a failure of the scoring step is a failure of
    [main]. *)
Theorem exit_status_critical ti h txns rc :
  (∀ code, TokenCheck.main ti h txns rc = Ok code →
     ∃ r, TokenCheck.risk_result ti h txns rc = Ok r
          ∧ ((code = 1 ∧ 75 ≤ RiskScorer.total_score r)
             ∨ (code = 0 ∧ RiskScorer.total_score r < 75)))%Z
  ∧ (∀ e, TokenCheck.main ti h txns rc = Raise e
          ↔ TokenCheck.risk_result ti h txns rc = Raise e).
Proof.
  unfold TokenCheck.main. split.
  - intros code H. destruct (TokenCheck.risk_result ti h txns rc) as [r|e] eqn:E; [|done].
    simpl in H. injection H as <-. exists r. split; [done|].
    apply score_risk_level in E. unfold TokenCheck.exit_status. rewrite E.
    unfold RiskScorer._get_risk_level.
    destruct (Z.ltb_spec (RiskScorer.total_score r) 25); [right; split; [done|lia]|].
    destruct (Z.ltb_spec (RiskScorer.total_score r) 50); [right; split; [done|lia]|].
    destruct (Z.ltb_spec (RiskScorer.total_score r) 75); [right; split; [done|lia]|].
    left. done.
  - intros e. destruct (TokenCheck.risk_result ti h txns rc); simpl; [done|].
    split; by intros [= ->].
Qed.

(** In [main] the bot factor fires only when the bots are more than half of
    the discovered wallets, and, with fewer than 10000 wallets, whenever
    they are. *)
Theorem bot_factor_is_bot_majority ti h txns rc r :
  TokenCheck.risk_result ti h txns rc = Ok r →
  let a := TraderAnalyzer.analyze txns h in
  (fires "bot_percentage_high" r →
   TraderAnalyzer.total_wallets a < 2 * TraderAnalyzer.bots a)
  ∧ ((Z.of_nat (TraderAnalyzer.total_wallets a) < 10000)%Z →
     TraderAnalyzer.total_wallets a < 2 * TraderAnalyzer.bots a →
     fires "bot_percentage_high" r).
Proof.
  intros H a. pose proof (risk_result_trace _ _ _ _ _ H) as [Hbot _].
  unfold TokenCheck.risk_result in H. cbv zeta in H.
  apply score_fires in H as (_ & _ & _ & Hf & _). rewrite Hf, Hbot. fold a.
  destruct (analyze_counters txns h) as (Ht & _ & Hb & _ & _ & Hp). fold a in Ht, Hb, Hp.
  assert (TraderAnalyzer.bots a ≤ TraderAnalyzer.total_wallets a) as Hle.
  { rewrite Ht, Hb. apply count_label_le. }
  destruct (or_one_positive (TraderAnalyzer.total_wallets a)) as [Hpos Hge].
  destruct (percentage_above (TraderAnalyzer.bots a)
              (or_one (TraderAnalyzer.total_wallets a)) 50 50 Hpos) as [Hfw Hbw].
  change 50%Q with (inject_Z 50). rewrite Hp. split.
  - intros Hk. apply Hfw in Hk. lia.
  - intros Hsmall Hmaj. apply Hbw.
    + unfold or_one in *. destruct (Nat.eqb_spec (TraderAnalyzer.total_wallets a) 0); lia.
    + unfold or_one in *. destruct (Nat.eqb_spec (TraderAnalyzer.total_wallets a) 0); lia.
Qed.

Lemma bot_factor_is_bot_majority_witness :
  ∃ r, TokenCheck.risk_result ∅ (PList []) six_at_once PNone = Ok r
       ∧ (fires "bot_percentage_high" r →
          TraderAnalyzer.total_wallets (TraderAnalyzer.analyze six_at_once (PList []))
          < 2 * TraderAnalyzer.bots (TraderAnalyzer.analyze six_at_once (PList [])))
       ∧ ((Z.of_nat (TraderAnalyzer.total_wallets
                       (TraderAnalyzer.analyze six_at_once (PList []))) < 10000)%Z →
          TraderAnalyzer.total_wallets (TraderAnalyzer.analyze six_at_once (PList []))
          < 2 * TraderAnalyzer.bots (TraderAnalyzer.analyze six_at_once (PList [])) →
          fires "bot_percentage_high" r).
Proof.
  eexists. split; [vm_compute; reflexivity|].
  apply (bot_factor_is_bot_majority ∅ (PList []) six_at_once PNone).
  vm_compute. reflexivity.
Defined.

(** In [main] the bundler factor fires only when more than 30 % of the fee
    payers are in a bundle, and, with fewer than 2000 fee payers, whenever
    they are. *)
Theorem bundler_factor_is_bundled_share ti h txns rc r :
  TokenCheck.risk_result ti h txns rc = Ok r →
  let bundled :=
    BundlerDetector.bundled_wallets_of
      (BundlerDetector.bundle_groups (BundlerDetector.detect txns)) in
  let payers := BundlerDetector.fee_payers txns in
  (fires "bundler_percentage_high" r → 3 * size payers < 10 * size bundled)
  ∧ ((Z.of_nat (size payers) < 2000)%Z → 3 * size payers < 10 * size bundled →
     fires "bundler_percentage_high" r).
Proof.
  intros H bundled payers. pose proof (risk_result_trace _ _ _ _ _ H) as [_ Hbu].
  unfold TokenCheck.risk_result in H. cbv zeta in H.
  apply score_fires in H as (_ & _ & Hf & _). rewrite Hf, Hbu. clear Hf Hbu.
  destruct txns as [|t0 txns].
  { assert (size bundled = 0) as -> by (vm_compute; reflexivity).
    split; [intros Hk; vm_compute in Hk; discriminate | lia]. }
  set (transactions := t0 :: txns) in *.
  assert (BundlerDetector.bundled_wallet_percentage (BundlerDetector.detect transactions)
          = percentage (size bundled) (or_one (size payers))) as -> by done.
  assert (bundled ⊆ payers) as Hsub.
  { intros w (b & Hb & Hw)%bundled_wallets_of_elem.
    apply (bundle_wallet_pays _ _ _ Hb) in Hw as (t & Ht & _ & Hp).
    apply fee_payers_elem. by exists t. }
  apply subseteq_size in Hsub.
  destruct (or_one_positive (size payers)) as [Hpos Hge].
  destruct (percentage_above (size bundled) (or_one (size payers)) 30 10 Hpos) as [Hfw Hbw].
  unfold gt_const. simpl. change 30%Q with (inject_Z 30).
  split.
  - intros [= Hk]. apply Qgtb_lt, Hfw in Hk. lia.
  - intros Hsmall Hshare. f_equal. apply Qgtb_lt, Hbw.
    + unfold or_one in *. destruct (Nat.eqb_spec (size payers) 0); lia.
    + unfold or_one in *. destruct (Nat.eqb_spec (size payers) 0); lia.
Qed.

Lemma bundler_factor_is_bundled_share_witness :
  ∃ r, TokenCheck.risk_result ∅ (PList []) early_bundle PNone = Ok r
       ∧ (fires "bundler_percentage_high" r →
          3 * size (BundlerDetector.fee_payers early_bundle)
          < 10 * size (BundlerDetector.bundled_wallets_of
                         (BundlerDetector.bundle_groups
                            (BundlerDetector.detect early_bundle))))
       ∧ ((Z.of_nat (size (BundlerDetector.fee_payers early_bundle)) < 2000)%Z →
          3 * size (BundlerDetector.fee_payers early_bundle)
          < 10 * size (BundlerDetector.bundled_wallets_of
                         (BundlerDetector.bundle_groups
                            (BundlerDetector.detect early_bundle))) →
          fires "bundler_percentage_high" r).
Proof.
  eexists. split; [vm_compute; reflexivity|].
  apply (bundler_factor_is_bundled_share ∅ (PList []) early_bundle PNone).
  vm_compute. reflexivity.
Defined.

End PipelineMore.
